(** * SynapEvents: submission, evaluation and leaderboard scoring

    A shallow embedding of the scoring core of the SynapEvents backend:

    - [backend/src/models/event.model.js]       ([Event_isSubmissionOpen],
      [Event_isRegistrationOpen], [Event_isEventOngoing], the date
      validators)
    - [backend/src/models/submission.model.js]  ([Submission_beforeCreate],
      [Submission_calculateScores], [Submission_getLeaderboardPosition])
    - the Evaluation model                      ([Evaluation_beforeSave],
      [Evaluation_submit], [Evaluation_getAverageScores])
    - [backend/src/controllers/submission.controller.js]
      ([createSubmission], [submitEvaluation], [getLeaderboard],
      [deleteEvent], the [slug] of [createEvent])

    The relational store behind the ORM is an explicit record of tables
    (lists of rows, in insertion order) that every operation threads
    through; every model is paranoid, so rows carry [deletedAt].  Calls of
    the ORM are read by their documented meaning on that store.  What a
    call throws is a [result]; a controller turns it into its 500
    response.

    JavaScript values that reach the code from bodies, JSONB columns and
    query strings are modelled by [jsval], with the coercions the code
    relies on ([||], [!], [in], [parseFloat], [parseInt], [+] between a
    string and numbers).  JavaScript numbers are [num]: NaN, the infinities
    and finite values; a finite value is the rational that the double is,
    and every operation rounds its exact result to the nearest double
    ([round_double]).  The clock and the fresh primary keys are arguments
    of the operations that use them.

    The names that a controller uses are looked up in the bindings of its
    module ([controller_bindings]), the associations that a query includes
    in those that the models declare, the conflict target of an upsert in
    the unique indexes of the table, and [req.user] carries the attributes
    of the User model. *)

From Stdlib Require Import List String Ascii Bool Arith ZArith QArith Lia.
From Stdlib Require Import Sorting.Sorted Sorting.Permutation DecimalString.
From Stdlib Require Import DecimalNat.
Import ListNotations.

Close Scope Q_scope.
Local Open Scope string_scope.
Local Open Scope list_scope.

(* ------------------------------------------------------------------ *)
(** ** JavaScript numbers and values *)
(* ------------------------------------------------------------------ *)

Module JS.

(** A JavaScript Number, that is an IEEE-754 double: not-a-number, an
    infinity, or a finite value, given by the rational that it is.  (The
    sign of zero is not kept: nothing here divides by zero or prints it.) *)
Inductive num : Type :=
| NaN
| Inf (negative : bool)
| Fin (q : Q).

Definition zero : num := Fin 0%Q.

(** The integer nearest to [n / d], the even one of two equally near, for
    [0 <= n] and [0 < d]. *)
Definition round_half_even (n d : Z) : Z :=
  let q := (n / d)%Z in
  match (2 * (n mod d) ?= d)%Z with
  | Lt => q
  | Gt => (q + 1)%Z
  | Eq => if Z.even q then q else (q + 1)%Z
  end.

(** The exponent of the leading bit of [n / d], for [0 < n] and [0 < d]. *)
Definition floor_log2 (n d : Z) : Z :=
  let k := (Z.log2 n - Z.log2 d)%Z in
  if (0 <=? k)%Z
  then if (d * 2 ^ k <=? n)%Z then k else (k - 1)%Z
  else if (d <=? n * 2 ^ (- k))%Z then k else (k - 1)%Z.

(** The double nearest to a rational, ties to the even significand: 53
    bits of significand, the least bit no lower than [2^-1074], and an
    infinity from [2^1024] on. *)
Definition round_double (q : Q) : num :=
  let r := Qred q in
  let n := Z.abs (Qnum r) in
  let d := Zpos (Qden r) in
  let negative := (Qnum r <? 0)%Z in
  if (n =? 0)%Z then zero
  else
    let e := Z.max (floor_log2 n d - 52) (-1074) in
    if (0 <=? e)%Z then
      let m := round_half_even n (d * 2 ^ e) in
      if (2 ^ 1024 <=? m * 2 ^ e)%Z then Inf negative
      else Fin (inject_Z (if negative then - (m * 2 ^ e) else m * 2 ^ e))
    else
      let m := round_half_even (n * 2 ^ (- e)) d in
      Fin (Qred ((if negative then - m else m) # Z.to_pos (2 ^ (- e)))).

(** [a + b] on numbers. *)
Definition add (a b : num) : num :=
  match a, b with
  | NaN, _ | _, NaN => NaN
  | Inf s, Inf t => if Bool.eqb s t then Inf s else NaN
  | Inf s, Fin _ | Fin _, Inf s => Inf s
  | Fin x, Fin y => round_double (x + y)%Q
  end.

(** [a / n] for an array length [n]. *)
Definition div_len (a : num) (n : nat) : num :=
  match a with
  | NaN => NaN
  | Inf s => Inf s
  | Fin x =>
      match n with
      | O => match (x ?= 0)%Q with
             | Eq => NaN | Lt => Inf true | Gt => Inf false
             end
      | S _ => round_double (x / inject_Z (Z.of_nat n))%Q
      end
  end.

(** [a < b]; every comparison with NaN is false. *)
Definition ltb (a b : num) : bool :=
  match a, b with
  | NaN, _ | _, NaN => false
  | Inf s, Inf t => s && negb t
  | Inf s, Fin _ => s
  | Fin _, Inf t => negb t
  | Fin x, Fin y => negb (Qle_bool y x)
  end.

Definition gtb (a b : num) : bool := ltb b a.

Definition isNaN (a : num) : bool :=
  match a with NaN => true | _ => false end.

(** Truthiness of a number: [0] and [NaN] are falsy. *)
Definition num_truthy (a : num) : bool :=
  match a with
  | NaN => false
  | Inf _ => true
  | Fin x => negb (Qeq_bool x 0%Q)
  end.

(** [a || 0] on a number. *)
Definition or_zero (a : num) : num := if num_truthy a then a else zero.

(** A value as it arrives in a JSON body, a JSONB column or an attribute of
    a model instance: [undefined], [null], a boolean, a number, a string or
    a plain object with its properties in enumeration order.  (Arrays are
    outside this value model.) *)
#[local] Set Warnings "-register-all".
Inductive jsval : Type :=
| JUndefined
| JNull
| JBool (b : bool)
| JNum (n : num)
| JStr (s : string)
| JObj (props : list (string * jsval)).
#[local] Set Warnings "register-all".

(** ToBoolean. *)
Definition truthy (v : jsval) : bool :=
  match v with
  | JUndefined | JNull => false
  | JBool b => b
  | JNum n => num_truthy n
  | JStr s => negb (String.eqb s "")
  | JObj _ => true
  end.

(** [a || b]. *)
Definition or (a b : jsval) : jsval := if truthy a then a else b.

(** *** Scanning decimal literals *)

Definition digit_of (c : ascii) : option Z :=
  let n := nat_of_ascii c in
  if (48 <=? n)%nat && (n <=? 57)%nat then Some (Z.of_nat (n - 48)) else None.

Definition hex_digit_of (c : ascii) : option Z :=
  let n := nat_of_ascii c in
  if (48 <=? n)%nat && (n <=? 57)%nat then Some (Z.of_nat (n - 48))
  else if (97 <=? n)%nat && (n <=? 102)%nat then Some (Z.of_nat (n - 87))
  else if (65 <=? n)%nat && (n <=? 70)%nat then Some (Z.of_nat (n - 55))
  else None.

(** White space skipped by [parseFloat] and [parseInt] (the ASCII part). *)
Definition is_space (c : ascii) : bool :=
  let n := nat_of_ascii c in
  (n =? 32)%nat || ((9 <=? n)%nat && (n <=? 13)%nat).

Fixpoint trimStart (s : string) : string :=
  match s with
  | String c r => if is_space c then trimStart r else s
  | EmptyString => s
  end.

(** Reads the longest run of digits of [s] in base [base]: the value read so
    far, how many digits were read, and the rest of the string. *)
Fixpoint scan_digits (dig : ascii -> option Z) (base : Z)
         (acc : Z) (count : nat) (s : string) : Z * nat * string :=
  match s with
  | String c r =>
      match dig c with
      | Some d => scan_digits dig base (base * acc + d) (S count) r
      | None => (acc, count, s)
      end
  | EmptyString => (acc, count, s)
  end.

Definition scan_sign (s : string) : bool * string :=
  match s with
  | String c r =>
      if Ascii.eqb c "-" then (true, r)
      else if Ascii.eqb c "+" then (false, r)
      else (false, s)
  | EmptyString => (false, s)
  end.

(** An exponent part [e[+-]digits]: its value and the rest, or nothing when
    the text at [s] is not a complete exponent part. *)
Definition scan_exponent (s : string) : option (Z * string) :=
  match s with
  | String c r =>
      if Ascii.eqb c "e" || Ascii.eqb c "E" then
        let '(neg, r1) := scan_sign r in
        let '(e, n, r2) := scan_digits digit_of 10 0 0 r1 in
        match n with
        | O => None
        | S _ => Some (if neg then (- e)%Z else e, r2)
        end
      else None
  | EmptyString => None
  end.

(** The unsigned decimal literal at the head of [s]: its value and the rest
    of the string.  At least one digit is needed before or after the dot. *)
Definition scan_decimal (s : string) : option (Q * string) :=
  let '(ip, ni, r1) := scan_digits digit_of 10 0 0 s in
  let '(fp, nf, r2) :=
    match r1 with
    | String c r =>
        if Ascii.eqb c "." then
          match ni, scan_digits digit_of 10 0 0 r with
          | O, (_, O, _) => (0%Z, O, r1)
          | _, res => res
          end
        else (0%Z, O, r1)
    | EmptyString => (0%Z, O, r1)
    end in
  match ni, nf, r1 with
  | O, O, _ => None
  | _, _, _ =>
      let mant := (inject_Z ip + inject_Z fp / inject_Z (10 ^ Z.of_nat nf))%Q in
      match scan_exponent r2 with
      | Some (e, r3) => Some ((mant * Qpower (inject_Z 10) e)%Q, r3)
      | None => Some (mant, r2)
      end
  end.

Definition starts_with (p s : string) : bool := String.prefix p s.

Definition drop (n : nat) (s : string) : string :=
  String.substring n (String.length s - n) s.

(** The signed literal at the head of [s] (no white space skipped), read as
    the double nearest to it, and the text that follows it. *)
Definition scan_float (s : string) : num * string :=
  let '(neg, r) := scan_sign s in
  if starts_with "Infinity" r then (Inf neg, drop 8 r)
  else match scan_decimal r with
       | Some (q, r') => (round_double (if neg then - q else q)%Q, r')
       | None => (NaN, s)
       end.

(** [parseFloat] applied to a string. *)
Definition parseFloat_str (s : string) : num := fst (scan_float (trimStart s)).

(** [parseFloat(v)]: the argument is first converted to a string, and the
    string of a number reads back as that number; [null], [undefined],
    booleans and plain objects give strings with no numeric prefix. *)
Definition parseFloat (v : jsval) : num :=
  match v with
  | JNum n => n
  | JStr s => parseFloat_str s
  | JUndefined | JNull | JBool _ | JObj _ => NaN
  end.

(** [parseInt] applied to a string, with no radix argument: [None] is NaN. *)
Definition parseInt_str (s : string) : option Z :=
  let '(neg, r) := scan_sign (trimStart s) in
  let '(v, n, _) :=
    if starts_with "0x" r || starts_with "0X" r
    then scan_digits hex_digit_of 16 0 0 (drop 2 r)
    else scan_digits digit_of 10 0 0 r in
  match n with
  | O => None
  | S _ => Some (if neg then (- v)%Z else v)
  end.

(** The decimal string of an array index or other natural number. *)
Definition string_of_nat (n : nat) : string :=
  NilZero.string_of_uint (Nat.to_uint n).

(** Names that every plain object inherits from [Object.prototype]. *)
Definition object_prototype_keys : list string :=
  [ "constructor"; "__defineGetter__"; "__defineSetter__"; "hasOwnProperty";
    "__lookupGetter__"; "__lookupSetter__"; "isPrototypeOf";
    "propertyIsEnumerable"; "toString"; "valueOf"; "__proto__";
    "toLocaleString" ].

Fixpoint own_property (k : string) (props : list (string * jsval))
  : option jsval :=
  match props with
  | [] => None
  | (k', v) :: rest => if String.eqb k k' then Some v else own_property k rest
  end.

Definition inherited (k : string) : bool :=
  existsb (String.eqb k) object_prototype_keys.

(** [k in v]: own or inherited for a plain object; on a primitive the
    operator throws a TypeError ([None]). *)
Definition has_property (k : string) (v : jsval) : option bool :=
  match v with
  | JObj props =>
      Some (match own_property k props with
            | Some _ => true
            | None => inherited k
            end)
  | _ => None
  end.

(** [parseFloat(v[k])] for a [v] that passed [k in v]: an own property is
    parsed; a property inherited from [Object.prototype] is a function or
    the prototype object, and a missing one is [undefined], whose strings
    have no numeric prefix. *)
Definition parseFloat_at (k : string) (v : jsval) : num :=
  match v with
  | JObj props =>
      match own_property k props with
      | Some x => parseFloat x
      | None => NaN
      end
  | _ => NaN
  end.

Fixpoint chars (s : string) : list jsval :=
  match s with
  | EmptyString => []
  | String c r => JStr (String c EmptyString) :: chars r
  end.

(** [Object.values(v)]: the property values of a plain object, the
    characters of a string, nothing for the other primitives. *)
Definition values (v : jsval) : list jsval :=
  match v with
  | JObj props => map snd props
  | JStr s => chars s
  | _ => []
  end.

End JS.

Export JS.


(* ------------------------------------------------------------------ *)
(** ** Exceptions and results *)
(* ------------------------------------------------------------------ *)

(** What a call can throw. *)
Inductive exn : Type :=
| Error (message : string)           (* [throw new Error(message)] *)
| TypeError                          (* property access on [null] *)
| ReferenceError (name : string)     (* an identifier that is not bound *)
| ValidationError (field : string)   (* the ORM refuses an attribute *)
| EagerLoadingError                  (* the ORM refuses an [include] *)
| DatabaseError                      (* the store refuses a statement *)
| StorageError.                      (* the upload collaborator failed *)

Inductive result (A : Type) : Type :=
| Ok (a : A)
| Throw (e : exn).

Arguments Ok {A} a.
Arguments Throw {A} e.

Definition bind {A B : Type} (r : result A) (k : A -> result B) : result B :=
  match r with
  | Ok a => k a
  | Throw e => Throw e
  end.

Notation "x <- r ;; k" := (bind r (fun x => k))
  (at level 61, r at next level, right associativity).
Notation "' p <- r ;; k" := (bind r (fun x => let 'p := x in k))
  (at level 61, p pattern, r at next level, right associativity).

Definition dquote : string := String (ascii_of_nat 34) EmptyString.

(* ------------------------------------------------------------------ *)
(** ** Data model *)
(* ------------------------------------------------------------------ *)

Definition uuid : Type := string.

(** A [Date], as its time value in milliseconds. *)
Definition timestamp : Type := Z.

Inductive SubmissionStatus : Type :=
| S_draft | S_submitted | S_under_review | S_accepted | S_rejected.

Inductive EvaluationStatus : Type := E_draft | E_submitted.

Inductive MemberStatus : Type := M_pending | M_accepted | M_rejected | M_left.

Inductive JudgeStatus : Type := J_pending | J_accepted | J_rejected.

Definition SubmissionStatus_eqb (a b : SubmissionStatus) : bool :=
  match a, b with
  | S_draft, S_draft | S_submitted, S_submitted
  | S_under_review, S_under_review | S_accepted, S_accepted
  | S_rejected, S_rejected => true
  | _, _ => false
  end.

Definition EvaluationStatus_eqb (a b : EvaluationStatus) : bool :=
  match a, b with
  | E_draft, E_draft | E_submitted, E_submitted => true
  | _, _ => false
  end.

Definition MemberStatus_eqb (a b : MemberStatus) : bool :=
  match a, b with
  | M_pending, M_pending | M_accepted, M_accepted
  | M_rejected, M_rejected | M_left, M_left => true
  | _, _ => false
  end.

Definition JudgeStatus_eqb (a b : JudgeStatus) : bool :=
  match a, b with
  | J_pending, J_pending | J_accepted, J_accepted
  | J_rejected, J_rejected => true
  | _, _ => false
  end.

(** An entry of [Event.judgingCriteria].  [maxScore] is the number the
    comparison [score > criterion.maxScore] sees (NaN when the entry has
    none). *)
Record Criterion : Type := {
  Criterion_id : string;
  Criterion_name : string;
  Criterion_maxScore : num;
}.

Record Event : Type := {
  Event_id : uuid;
  Event_organizerId : uuid;
  Event_endDate : timestamp;
  Event_submissionDeadline : option timestamp;
  Event_judgingCriteria : option (list Criterion);
  Event_deletedAt : option timestamp;
}.

Record Team : Type := {
  Team_id : uuid;
  Team_eventId : uuid;
  Team_deletedAt : option timestamp;
}.

Record TeamMember : Type := {
  TeamMember_teamId : uuid;
  TeamMember_userId : uuid;
  TeamMember_status : MemberStatus;
  TeamMember_deletedAt : option timestamp;
}.

Record EventJudge : Type := {
  EventJudge_eventId : uuid;
  EventJudge_userId : uuid;
  EventJudge_status : JudgeStatus;
  EventJudge_deletedAt : option timestamp;
}.

Record Submission : Type := {
  Submission_id : uuid;
  Submission_eventId : uuid;
  Submission_teamId : uuid;
  Submission_submittedById : uuid;
  Submission_title : string;
  Submission_description : string;
  Submission_githubUrl : option string;
  Submission_videoUrl : option string;
  Submission_fileUrl : option string;
  Submission_fileType : option string;
  Submission_fileSize : option Z;
  Submission_submissionNote : option string;
  Submission_isPublic : bool;
  Submission_status : SubmissionStatus;
  Submission_averageScore : option num;
  Submission_totalEvaluations : nat;
  Submission_deletedAt : option timestamp;
}.

(** A row of the Evaluation table.  [score] is a FLOAT NOT NULL column,
    [criteriaScores] a JSONB one, [feedback] a nullable TEXT one (kept here
    as the value that was written to it). *)
Record Evaluation : Type := {
  Evaluation_id : uuid;
  Evaluation_submissionId : option uuid;
  Evaluation_judgeId : option uuid;
  Evaluation_eventId : option uuid;
  Evaluation_round : Z;
  Evaluation_score : num;
  Evaluation_criteriaScores : jsval;
  Evaluation_feedback : jsval;
  Evaluation_status : EvaluationStatus;
  Evaluation_deletedAt : option timestamp;
}.

(** The tables, each in insertion order. *)
Record DB : Type := {
  events : list Event;
  teams : list Team;
  teamMembers : list TeamMember;
  eventJudges : list EventJudge;
  submissions : list Submission;
  evaluations : list Evaluation;
}.

Definition set_submissions (db : DB) (l : list Submission) : DB :=
  {| events := events db; teams := teams db; teamMembers := teamMembers db;
     eventJudges := eventJudges db; submissions := l;
     evaluations := evaluations db |}.

Definition set_evaluations (db : DB) (l : list Evaluation) : DB :=
  {| events := events db; teams := teams db; teamMembers := teamMembers db;
     eventJudges := eventJudges db; submissions := submissions db;
     evaluations := l |}.

(** Every model is paranoid: queries see only rows with no [deletedAt]. *)
Definition live {A : Type} (deletedAt : A -> option timestamp) (r : A) : bool :=
  match deletedAt r with
  | None => true
  | Some _ => false
  end.

Definition opt_eqb (a : option uuid) (b : uuid) : bool :=
  match a with
  | Some x => String.eqb x b
  | None => false
  end.

(* ------------------------------------------------------------------ *)
(** ** Event model *)
(* ------------------------------------------------------------------ *)

Definition Event_findByPk (db : DB) (id : option uuid) : option Event :=
  match id with
  | None => None
  | Some i =>
      find (fun e => live Event_deletedAt e && String.eqb (Event_id e) i)
           (events db)
  end.

(** [Event.prototype.isSubmissionOpen], at the clock reading [now]. *)
Definition Event_isSubmissionOpen (now : timestamp) (e : Event) : bool :=
  match Event_submissionDeadline e with
  | None => false
  | Some deadline => (now <=? deadline)%Z && (now <=? Event_endDate e)%Z
  end.

(* ------------------------------------------------------------------ *)
(** ** Submission model *)
(* ------------------------------------------------------------------ *)

Definition Submission_with_status (s : Submission) (st : SubmissionStatus)
  : Submission :=
  {| Submission_id := Submission_id s;
     Submission_eventId := Submission_eventId s;
     Submission_teamId := Submission_teamId s;
     Submission_submittedById := Submission_submittedById s;
     Submission_title := Submission_title s;
     Submission_description := Submission_description s;
     Submission_githubUrl := Submission_githubUrl s;
     Submission_videoUrl := Submission_videoUrl s;
     Submission_fileUrl := Submission_fileUrl s;
     Submission_fileType := Submission_fileType s;
     Submission_fileSize := Submission_fileSize s;
     Submission_submissionNote := Submission_submissionNote s;
     Submission_isPublic := Submission_isPublic s;
     Submission_status := st;
     Submission_averageScore := Submission_averageScore s;
     Submission_totalEvaluations := Submission_totalEvaluations s;
     Submission_deletedAt := Submission_deletedAt s |}.

Definition Submission_with_scores (s : Submission)
           (averageScore : option num) (totalEvaluations : nat) : Submission :=
  {| Submission_id := Submission_id s;
     Submission_eventId := Submission_eventId s;
     Submission_teamId := Submission_teamId s;
     Submission_submittedById := Submission_submittedById s;
     Submission_title := Submission_title s;
     Submission_description := Submission_description s;
     Submission_githubUrl := Submission_githubUrl s;
     Submission_videoUrl := Submission_videoUrl s;
     Submission_fileUrl := Submission_fileUrl s;
     Submission_fileType := Submission_fileType s;
     Submission_fileSize := Submission_fileSize s;
     Submission_submissionNote := Submission_submissionNote s;
     Submission_isPublic := Submission_isPublic s;
     Submission_status := Submission_status s;
     Submission_averageScore := averageScore;
     Submission_totalEvaluations := totalEvaluations;
     Submission_deletedAt := Submission_deletedAt s |}.

Definition Submission_findByPk (db : DB) (id : uuid) : option Submission :=
  find (fun s => live Submission_deletedAt s && String.eqb (Submission_id s) id)
       (submissions db).

(** [submission.save()] after the aggregates were assigned: the row with
    the instance's primary key takes the instance's [averageScore] and
    [totalEvaluations].  (The instance is taken to come from the store, so
    an attribute that [save] skips as unchanged already agrees with the
    row.) *)
Definition Submission_save (db : DB) (this : Submission) : DB :=
  set_submissions db
    (map (fun r => if String.eqb (Submission_id r) (Submission_id this)
                   then Submission_with_scores r
                          (Submission_averageScore this)
                          (Submission_totalEvaluations this)
                   else r)
         (submissions db)).

(** [submission.getEvaluations()], the [hasMany] accessor: the non-deleted
    Evaluation rows whose [submissionId] is this submission. *)
Definition Submission_getEvaluations (db : DB) (this : Submission)
  : list Evaluation :=
  filter (fun e => live Evaluation_deletedAt e
                   && opt_eqb (Evaluation_submissionId e) (Submission_id this))
         (evaluations db).

(** [Submission.prototype.calculateScores]: the saved store and the
    instance after the call. *)
Definition Submission_calculateScores (db : DB) (this : Submission)
  : DB * Submission :=
  let evaluations := Submission_getEvaluations db this in
  match List.length evaluations with
  | O =>
      let this' := Submission_with_scores this None 0 in
      (Submission_save db this', this')
  | S _ =>
      let totalScore :=
        fold_left (fun sum evalItem => add sum (or_zero (Evaluation_score evalItem)))
                  evaluations zero in
      let this' :=
        Submission_with_scores this
          (Some (div_len totalScore (List.length evaluations)))
          (List.length evaluations) in
      (Submission_save db this', this')
  end.

(** [Submission.count({ where: { teamId, eventId } })]. *)
Definition Submission_count (db : DB) (teamId eventId : uuid) : nat :=
  List.length
    (filter (fun s => live Submission_deletedAt s
                      && String.eqb (Submission_teamId s) teamId
                      && String.eqb (Submission_eventId s) eventId)
            (submissions db)).

(** The [beforeCreate] hook. *)
Definition Submission_beforeCreate (db : DB) (submission : Submission)
  : Submission :=
  if SubmissionStatus_eqb (Submission_status submission) S_draft then
    let count :=
      Submission_count db (Submission_teamId submission)
                       (Submission_eventId submission) in
    if (count =? 0)%nat
    then Submission_with_status submission S_submitted
    else submission
  else submission.

(** [Submission.findOne({ where: { teamId, eventId, status: { [Op.ne]:
    'draft' } } })]. *)
Definition Submission_findOne_nonDraft (db : DB) (teamId eventId : uuid)
  : option Submission :=
  find (fun s => live Submission_deletedAt s
                 && String.eqb (Submission_teamId s) teamId
                 && String.eqb (Submission_eventId s) eventId
                 && negb (SubmissionStatus_eqb (Submission_status s) S_draft))
       (submissions db).

(** The attributes handed to [Submission.create]. *)
Record SubmissionValues : Type := {
  v_eventId : uuid;
  v_teamId : uuid;
  v_submittedById : uuid;
  v_title : option string;
  v_description : option string;
  v_githubUrl : option string;
  v_videoUrl : option string;
  v_fileUrl : option string;
  v_fileType : option string;
  v_fileSize : option Z;
  v_submissionNote : option string;
  v_isPublic : jsval;
  v_status : SubmissionStatus;
}.

(* ------------------------------------------------------------------ *)
(** ** Evaluation model *)
(* ------------------------------------------------------------------ *)

(** An Evaluation instance in memory.  Attributes hold whatever the caller
    assigned; [changed] lists the attributes assigned since the instance was
    built or loaded. *)
Record EvaluationInstance : Type := {
  inst_id : uuid;
  inst_isNewRecord : bool;
  inst_changed : list string;
  inst_submissionId : option uuid;
  inst_judgeId : option uuid;
  inst_eventId : option uuid;
  inst_round : Z;
  inst_score : jsval;
  inst_criteriaScores : jsval;
  inst_feedback : jsval;
  inst_status : EvaluationStatus;
}.

(** Lodash [isEqual] between an attribute's value and a number assigned to
    it (NaN equals NaN). *)
Definition isEqual_num (old : jsval) (n : num) : bool :=
  match old, n with
  | JNum NaN, NaN => true
  | JNum (Inf s), Inf t => Bool.eqb s t
  | JNum (Fin x), Fin y => Qeq_bool x y
  | _, _ => false
  end.

(** [this.score = n]. *)
Definition inst_set_score (this : EvaluationInstance) (n : num)
  : EvaluationInstance :=
  {| inst_id := inst_id this;
     inst_isNewRecord := inst_isNewRecord this;
     inst_changed := if isEqual_num (inst_score this) n
                     then inst_changed this
                     else "score" :: inst_changed this;
     inst_submissionId := inst_submissionId this;
     inst_judgeId := inst_judgeId this;
     inst_eventId := inst_eventId this;
     inst_round := inst_round this;
     inst_score := JNum n;
     inst_criteriaScores := inst_criteriaScores this;
     inst_feedback := inst_feedback this;
     inst_status := inst_status this |}.

(** [this.status = st]. *)
Definition inst_set_status (this : EvaluationInstance) (st : EvaluationStatus)
  : EvaluationInstance :=
  {| inst_id := inst_id this;
     inst_isNewRecord := inst_isNewRecord this;
     inst_changed := if EvaluationStatus_eqb (inst_status this) st
                     then inst_changed this
                     else "status" :: inst_changed this;
     inst_submissionId := inst_submissionId this;
     inst_judgeId := inst_judgeId this;
     inst_eventId := inst_eventId this;
     inst_round := inst_round this;
     inst_score := inst_score this;
     inst_criteriaScores := inst_criteriaScores this;
     inst_feedback := inst_feedback this;
     inst_status := st |}.

(** [evaluation.changed(attribute)]. *)
Definition inst_has_changed (this : EvaluationInstance) (attribute : string)
  : bool :=
  existsb (String.eqb attribute) (inst_changed this).

(** *** Requests and responses *)

(** [req.user], set by the authentication middleware: the User instance
    it loaded, whose attributes are those of the User model. *)
Record User : Type := {
  User_id : uuid;
  User_role : string;
}.

(** [user.roles]: the User model defines [role] and no [roles], so the
    property reads [undefined]. *)
Definition User_roles (user : User) : jsval := JUndefined.

(** [v.includes(x)]: the method of a string; [undefined], [null] and the
    values that have no such method make the call a TypeError. *)
Definition includes (v : jsval) (x : string) : result bool :=
  match v with
  | JStr s => Ok (match String.index 0 x s with
                  | Some _ => true
                  | None => false
                  end)
  | _ => Throw TypeError
  end.

(** [v?.includes(x)], as a condition: [undefined] and [null] short-cut to
    [undefined], which is falsy. *)
Definition includes_if_any (v : jsval) (x : string) : result bool :=
  match v with
  | JUndefined | JNull => Ok false
  | _ => includes v x
  end.

(** How the ORM resolves [include: { model, as }] against the associations
    that the including model declares (each a target model and its alias;
    every association of this code base is declared with an alias): the
    alias must be given and be the one of an association to the model. *)
Definition included_association (associations : list (string * string))
           (model : string) (alias : option string) : result string :=
  match filter (fun a => String.eqb (fst a) model) associations with
  | [] => Throw EagerLoadingError
  | declared =>
      match alias with
      | None => Throw EagerLoadingError
      | Some name =>
          if existsb (fun a => String.eqb (snd a) name) declared
          then Ok name
          else Throw EagerLoadingError
      end
  end.

(** The associations declared by [Team.associate], [Submission.associate]
    and [Event.associate]. *)
Definition Team_associations : list (string * string) :=
  [ ("Event", "event"); ("User", "leader"); ("TeamMember", "members");
    ("Submission", "submissions") ].

Definition Submission_associations : list (string * string) :=
  [ ("Event", "event"); ("Team", "team"); ("User", "submittedBy");
    ("Evaluation", "evaluations"); ("Comment", "comments") ].

Definition Event_associations : list (string * string) :=
  [ ("User", "organizer"); ("Team", "teams"); ("EventJudge", "judges");
    ("Announcement", "announcements"); ("Submission", "submissions") ].

(** The names that the controller module binds: its imports. *)
Definition controller_bindings : list string :=
  [ "Submission"; "Evaluation"; "Team"; "TeamMember"; "Event"; "EventJudge";
    "User"; "logger"; "Op"; "uploadToStorage" ].

(** Reading a free identifier of the controller. *)
Definition reference (name : string) : result unit :=
  if existsb (String.eqb name) controller_bindings
  then Ok tt
  else Throw (ReferenceError name).

(** The JSON body of a response and its HTTP status. *)
Record Response (D : Type) : Type := {
  res_status : nat;
  res_success : bool;
  res_message : option string;
  res_data : option D;
}.

Arguments res_status {D} r.
Arguments res_success {D} r.
Arguments res_message {D} r.
Arguments res_data {D} r.

Definition failure {D : Type} (status : nat) (message : string) : Response D :=
  {| res_status := status; res_success := false;
     res_message := Some message; res_data := None |}.

(** An uploaded file, as the upload middleware presents it. *)
Record File : Type := {
  File_mimetype : string;
  File_size : Z;
}.

Section Collaborators.

(** What this code takes from its collaborators:
    - [isUrl], the URL test of the validation library behind [isUrl: true];
    - [uploadToStorage(file, { folder, public })], which gives the stored
      file's URL or throws ([None]);
    - [boolean_column] and [float_column], what the store keeps when it is
      handed a value for a BOOLEAN or a FLOAT column, if it takes it. *)
Variable isUrl : string -> bool.
Variable uploadToStorage : File -> string -> option string -> option string.
Variable boolean_column : jsval -> option bool.
Variable float_column : jsval -> result num.

(** The [score] attribute: [allowNull: false] and the validators [min: 0]
    and [max: 100], which read the value with [parseFloat] and let NaN
    through; then the column itself. *)
Definition Evaluation_validate_score (v : jsval) : result num :=
  match v with
  | JUndefined | JNull => Throw (ValidationError "score")
  | _ =>
      let n := parseFloat v in
      if (isNaN n || negb (ltb n zero))
         && (isNaN n || negb (gtb n (Fin 100%Q)))
      then float_column v
      else Throw (ValidationError "score")
  end.

(** The [criteriaScores] attribute: JSONB, [allowNull: false]. *)
Definition Evaluation_validate_criteriaScores (v : jsval) : result jsval :=
  match v with
  | JUndefined | JNull => Throw (ValidationError "criteriaScores")
  | _ => Ok v
  end.

(** The [feedback] attribute: TEXT, nullable; an object is refused. *)
Definition Evaluation_validate_feedback (v : jsval) : result jsval :=
  match v with
  | JUndefined => Ok JNull
  | JObj _ => Throw (ValidationError "feedback")
  | _ => Ok v
  end.

(** The [round] attribute: INTEGER with [min: 1]. *)
Definition Evaluation_validate_round (r : Z) : result Z :=
  if (1 <=? r)%Z then Ok r else Throw (ValidationError "round").

(** The row that [save] writes: an attribute is validated and written when
    the record is new or the attribute has changed, and kept from the stored
    row [base] otherwise. *)
Definition Evaluation_row_of (this : EvaluationInstance) (base : Evaluation)
  : result Evaluation :=
  let writes a := inst_isNewRecord this || inst_has_changed this a in
  score <- (if writes "score"
            then Evaluation_validate_score (inst_score this)
            else Ok (Evaluation_score base)) ;;
  criteriaScores <- (if writes "criteriaScores"
                     then Evaluation_validate_criteriaScores
                            (inst_criteriaScores this)
                     else Ok (Evaluation_criteriaScores base)) ;;
  feedback <- (if writes "feedback"
               then Evaluation_validate_feedback (inst_feedback this)
               else Ok (Evaluation_feedback base)) ;;
  round <- (if writes "round"
            then Evaluation_validate_round (inst_round this)
            else Ok (Evaluation_round base)) ;;
  Ok {| Evaluation_id := inst_id this;
        Evaluation_submissionId :=
          if writes "submissionId" then inst_submissionId this
          else Evaluation_submissionId base;
        Evaluation_judgeId :=
          if writes "judgeId" then inst_judgeId this
          else Evaluation_judgeId base;
        Evaluation_eventId :=
          if writes "eventId" then inst_eventId this
          else Evaluation_eventId base;
        Evaluation_round := round;
        Evaluation_score := score;
        Evaluation_criteriaScores := criteriaScores;
        Evaluation_feedback := feedback;
        Evaluation_status :=
          if writes "status" then inst_status this
          else Evaluation_status base;
        Evaluation_deletedAt := Evaluation_deletedAt base |}.

Definition Evaluation_blank (id : uuid) : Evaluation :=
  {| Evaluation_id := id;
     Evaluation_submissionId := None;
     Evaluation_judgeId := None;
     Evaluation_eventId := None;
     Evaluation_round := 1;
     Evaluation_score := zero;
     Evaluation_criteriaScores := JObj [];
     Evaluation_feedback := JNull;
     Evaluation_status := E_draft;
     Evaluation_deletedAt := None |}.

(** [evaluation.getSubmission()]. *)
Definition Evaluation_getSubmission (db : DB) (submissionId : option uuid)
  : option Submission :=
  match submissionId with
  | None => None
  | Some id => Submission_findByPk db id
  end.

(** The [beforeSave] hook: the submission's aggregate is recomputed from
    the stored evaluations, before this one is written. *)
Definition Evaluation_beforeSave (db : DB) (evaluation : EvaluationInstance)
  : DB :=
  if inst_has_changed evaluation "score" then
    match inst_submissionId evaluation with
    | Some _ =>
        match Evaluation_getSubmission db (inst_submissionId evaluation) with
        | Some submission => fst (Submission_calculateScores db submission)
        | None => db
        end
    | None => db
    end
  else db.

(** The unique index [unique_judge_submission_round]: whether another row
    of the table (deleted or not) has the submission, the judge and the
    round of [row].  A NULL key clashes with nothing. *)
Definition same_judge_submission_round (a b : Evaluation) : bool :=
  match Evaluation_submissionId a, Evaluation_submissionId b,
        Evaluation_judgeId a, Evaluation_judgeId b with
  | Some s, Some s', Some j, Some j' =>
      String.eqb s s' && String.eqb j j'
      && (Evaluation_round a =? Evaluation_round b)%Z
  | _, _, _, _ => false
  end.

Definition clashes (row : Evaluation) (rows : list Evaluation) : bool :=
  existsb (fun r => negb (String.eqb (Evaluation_id r) (Evaluation_id row))
                    && same_judge_submission_round row r)
          rows.

(** [evaluation.save()]: validation, the [beforeSave] hook, then an INSERT
    for a new record and an UPDATE by primary key otherwise, either of
    which the store refuses when it breaks the primary key or the unique
    index.  The result is the store as the call leaves it, and the row as
    written ([None] when the UPDATE met no row) or what was thrown. *)
Definition Evaluation_save (db : DB) (this : EvaluationInstance)
  : DB * result (option Evaluation) :=
  let stored :=
    find (fun r => String.eqb (Evaluation_id r) (inst_id this))
         (evaluations db) in
  let base := match stored with
              | Some r => r
              | None => Evaluation_blank (inst_id this)
              end in
  match Evaluation_row_of this base with
  | Throw e => (db, Throw e)
  | Ok row =>
      let db1 := Evaluation_beforeSave db this in
      if inst_isNewRecord this then
        match stored with
        | Some _ => (db1, Throw DatabaseError)
        | None =>
            if clashes row (evaluations db1)
            then (db1, Throw DatabaseError)
            else (set_evaluations db1 (evaluations db1 ++ [row]),
                  Ok (Some row))
        end
      else
        match stored with
        | Some _ =>
            if clashes row (evaluations db1)
            then (db1, Throw DatabaseError)
            else (set_evaluations db1
                    (map (fun r => if String.eqb (Evaluation_id r)
                                                 (inst_id this)
                                   then row else r)
                         (evaluations db1)),
                  Ok (Some row))
        | None => (db1, Ok None)
        end
  end.

Definition required_message (name : string) : string :=
  "Score for criterion " ++ dquote ++ name ++ dquote ++ " is required".

Definition invalid_message (name : string) : string :=
  "Invalid score for criterion " ++ dquote ++ name ++ dquote.

(** The loop of [submit] over the event's criteria. *)
Fixpoint check_criteria (criteria : list Criterion) (criteriaScores : jsval)
  : result unit :=
  match criteria with
  | [] => Ok tt
  | criterion :: rest =>
      match has_property (Criterion_id criterion) criteriaScores with
      | None => Throw TypeError
      | Some false =>
          Throw (Error (required_message (Criterion_name criterion)))
      | Some true =>
          let score := parseFloat_at (Criterion_id criterion) criteriaScores in
          if isNaN score || ltb score zero
             || gtb score (Criterion_maxScore criterion)
          then Throw (Error (invalid_message (Criterion_name criterion)))
          else check_criteria rest criteriaScores
      end
  end.

(** The total that [submit] computes from the criteria scores. *)
Definition criteria_total (criteriaScores : jsval) : num :=
  fold_left (fun sum score => add sum (parseFloat score))
            (values criteriaScores) zero.

(** [Evaluation.prototype.submit]: the store as the call leaves it, and
    what [save] returned or what was thrown. *)
Definition Evaluation_submit (db : DB) (this : EvaluationInstance)
  : DB * result (option Evaluation) :=
  if EvaluationStatus_eqb (inst_status this) E_submitted
  then (db, Throw (Error "Evaluation has already been submitted"))
  else
    match Evaluation_getSubmission db (inst_submissionId this) with
    | None => (db, Throw TypeError)
    | Some submission =>
        match Event_findByPk db (Some (Submission_eventId submission)) with
        | None => (db, Throw TypeError)
        | Some event =>
            let criteria := match Event_judgingCriteria event with
                            | Some l => l
                            | None => []
                            end in
            let criteriaScores := or (inst_criteriaScores this) (JObj []) in
            match check_criteria criteria criteriaScores with
            | Throw e => (db, Throw e)
            | Ok _ =>
                let this1 :=
                  if negb (truthy (inst_score this))
                  then inst_set_score this (criteria_total criteriaScores)
                  else this in
                Evaluation_save db (inst_set_status this1 E_submitted)
            end
        end
    end.

(** *** createSubmission *)

(** The fields of the multipart body.  [body_status] is a field the caller
    may send but the controller never reads. *)
Record SubmissionBody : Type := {
  body_eventId : option string;
  body_teamId : option string;
  body_title : option string;
  body_description : option string;
  body_githubUrl : option string;
  body_videoUrl : option string;
  body_submissionNote : option string;
  body_isPublic : option string;
  body_status : option string;
}.

(** [Team.findByPk(teamId, { include: [{ model: TeamMember, where: { userId,
    status: 'accepted' }, required: true }] })].  Without a key the call
    answers [null] at once; with one, the include is resolved first, and it
    names TeamMember without the alias under which [Team.associate]
    declares it. *)
Definition Team_findByPk_member (db : DB) (teamId : option uuid)
           (userId : uuid) : result (option Team) :=
  match teamId with
  | None => Ok None
  | Some id =>
      _ <- included_association Team_associations "TeamMember" None ;;
      Ok (find (fun t =>
                  live Team_deletedAt t
                  && String.eqb (Team_id t) id
                  && existsb (fun m =>
                                live TeamMember_deletedAt m
                                && String.eqb (TeamMember_teamId m) (Team_id t)
                                && String.eqb (TeamMember_userId m) userId
                                && MemberStatus_eqb (TeamMember_status m)
                                                    M_accepted)
                             (teamMembers db))
               (teams db))
  end.

Definition closed_response : Response Submission :=
  failure 400 "Event not found or submissions are closed".

Definition not_member_response : Response Submission :=
  failure 403 "Team not found or you are not a member".

Definition already_submitted_response : Response Submission :=
  failure 400 "Your team has already submitted for this event".

Definition create_failed_response : Response Submission :=
  failure 500 "Failed to create submission".

(** [isPublic || false] on a form field. *)
Definition isPublic_or_false (isPublic : option string) : jsval :=
  match isPublic with
  | None => JBool false
  | Some s => or (JStr s) (JBool false)
  end.

Definition valid_url (u : option string) : bool :=
  match u with
  | None => true
  | Some s => isUrl s
  end.

(** [Submission.create(values)]: validation, the [beforeCreate] hook, then
    the insertion of a row with the fresh primary key [newId]. *)
Definition Submission_create (db : DB) (values : SubmissionValues)
           (newId : uuid) : result (DB * Submission) :=
  match v_title values, v_description values with
  | None, _ => Throw (ValidationError "title")
  | _, None => Throw (ValidationError "description")
  | Some title, Some description =>
      if negb ((3 <=? String.length title)%nat
               && (String.length title <=? 200)%nat)
      then Throw (ValidationError "title")
      else if negb (valid_url (v_githubUrl values))
      then Throw (ValidationError "githubUrl")
      else if negb (valid_url (v_videoUrl values))
      then Throw (ValidationError "videoUrl")
      else
        match boolean_column (v_isPublic values) with
        | None => Throw DatabaseError
        | Some isPublic =>
            let submission :=
              Submission_beforeCreate db
                {| Submission_id := newId;
                   Submission_eventId := v_eventId values;
                   Submission_teamId := v_teamId values;
                   Submission_submittedById := v_submittedById values;
                   Submission_title := title;
                   Submission_description := description;
                   Submission_githubUrl := v_githubUrl values;
                   Submission_videoUrl := v_videoUrl values;
                   Submission_fileUrl := v_fileUrl values;
                   Submission_fileType := v_fileType values;
                   Submission_fileSize := v_fileSize values;
                   Submission_submissionNote := v_submissionNote values;
                   Submission_isPublic := isPublic;
                   Submission_status := v_status values;
                   Submission_averageScore := None;
                   Submission_totalEvaluations := 0;
                   Submission_deletedAt := None |} in
            if existsb (fun s => String.eqb (Submission_id s) newId)
                       (submissions db)
            then Throw DatabaseError
            else Ok (set_submissions db (submissions db ++ [submission]),
                     submission)
        end
  end.

(** The upload step of [createSubmission]: [fileUrl], [fileType] and
    [fileSize] for the new row. *)
Definition upload_file (file : option File) (eventId teamId : uuid)
           (isPublic : option string)
  : result (option string * option string * option Z) :=
  match file with
  | None => Ok (None, None, None)
  | Some f =>
      match uploadToStorage f
              ("submissions/event-" ++ eventId ++ "/team-" ++ teamId)
              isPublic with
      | Some url => Ok (Some url, Some (File_mimetype f), Some (File_size f))
      | None => Throw StorageError
      end
  end.

(** [createSubmission(req, res)] at the clock reading [now]; [newId] is the
    primary key the store would give a new row.  A lookup by an [undefined]
    key finds nothing. *)
Definition createSubmission (db : DB) (user : User) (body : SubmissionBody)
           (file : option File) (now : timestamp) (newId : uuid)
  : DB * Response Submission :=
  match Event_findByPk db (body_eventId body), body_eventId body with
  | Some event, Some eventId =>
      if negb (Event_isSubmissionOpen now event) then (db, closed_response)
      else
        match Team_findByPk_member db (body_teamId body) (User_id user),
              body_teamId body with
        | Throw _, _ => (db, create_failed_response)
        | Ok (Some team), Some teamId =>
            match Submission_findOne_nonDraft db teamId eventId with
            | Some existingSubmission => (db, already_submitted_response)
            | None =>
                let created :=
                  '(fileUrl, fileType, fileSize) <-
                     upload_file file eventId teamId (body_isPublic body) ;;
                  Submission_create db
                    {| v_eventId := eventId;
                       v_teamId := teamId;
                       v_submittedById := User_id user;
                       v_title := body_title body;
                       v_description := body_description body;
                       v_githubUrl := body_githubUrl body;
                       v_videoUrl := body_videoUrl body;
                       v_fileUrl := fileUrl;
                       v_fileType := fileType;
                       v_fileSize := fileSize;
                       v_submissionNote := body_submissionNote body;
                       v_isPublic := isPublic_or_false (body_isPublic body);
                       v_status := S_submitted |}
                    newId in
                match created with
                | Ok (db', submission) =>
                    (db', {| res_status := 201; res_success := true;
                             res_message :=
                               Some "Submission created successfully";
                             res_data := Some submission |})
                | Throw _ => (db, create_failed_response)
                end
            end
        | _, _ => (db, not_member_response)
        end
  | _, _ => (db, closed_response)
  end.

(** *** submitEvaluation *)

(** The attributes of the Evaluation model: those it defines, the
    timestamps, and the foreign keys its associations add. *)
Definition Evaluation_attributes : list string :=
  [ "id"; "score"; "criteriaScores"; "feedback"; "status"; "round";
    "metadata"; "createdAt"; "updatedAt"; "deletedAt";
    "submissionId"; "judgeId"; "eventId" ].

Definition is_defined (v : jsval) : bool :=
  match v with
  | JUndefined => false
  | _ => true
  end.

Definition attr (values : list (string * jsval)) (name : string) : jsval :=
  match own_property name values with
  | Some v => v
  | None => JUndefined
  end.

Definition uuid_of (v : jsval) : option uuid :=
  match v with
  | JStr s => Some s
  | _ => None
  end.

(** [Evaluation.build(values)]: keys that are not attributes of the model
    are ignored, attributes without a value take their defaults, and the
    attributes given a value count as changed. *)
Definition Evaluation_build (values : list (string * jsval)) (newId : uuid)
  : result EvaluationInstance :=
  let known :=
    filter (fun kv => existsb (String.eqb (fst kv)) Evaluation_attributes
                      && is_defined (snd kv))
           values in
  status <- match attr known "status" with
            | JUndefined => Ok E_draft
            | JStr s =>
                if String.eqb s "draft" then Ok E_draft
                else if String.eqb s "submitted" then Ok E_submitted
                else Throw DatabaseError
            | _ => Throw DatabaseError
            end ;;
  round <- match attr known "round" with
           | JUndefined => Ok 1%Z
           | JNum (Fin q) =>
               if (Qden q =? 1)%positive then Ok (Qnum q)
               else Throw DatabaseError
           | _ => Throw DatabaseError
           end ;;
  Ok {| inst_id := newId;
        inst_isNewRecord := true;
        inst_changed := map fst known;
        inst_submissionId := uuid_of (attr known "submissionId");
        inst_judgeId := uuid_of (attr known "judgeId");
        inst_eventId := uuid_of (attr known "eventId");
        inst_round := round;
        inst_score := attr known "score";
        inst_criteriaScores :=
          match attr known "criteriaScores" with
          | JUndefined => JObj []
          | v => v
          end;
        inst_feedback := attr known "feedback";
        inst_status := status |}.

(** Whether two rows agree on a column of a conflict target (a NULL never
    agrees with anything). *)
Definition same_on (field : string) (a b : Evaluation) : bool :=
  let both (x y : option uuid) :=
    match x, y with
    | Some u, Some v => String.eqb u v
    | _, _ => false
    end in
  if String.eqb field "submissionId"
  then both (Evaluation_submissionId a) (Evaluation_submissionId b)
  else if String.eqb field "judgeId"
  then both (Evaluation_judgeId a) (Evaluation_judgeId b)
  else if String.eqb field "eventId"
  then both (Evaluation_eventId a) (Evaluation_eventId b)
  else if String.eqb field "round"
  then (Evaluation_round a =? Evaluation_round b)%Z
  else if String.eqb field "id"
  then String.eqb (Evaluation_id a) (Evaluation_id b)
  else false.

Definition inst_as_update (this : EvaluationInstance) (id : uuid)
  : EvaluationInstance :=
  {| inst_id := id;
     inst_isNewRecord := false;
     inst_changed := inst_changed this;
     inst_submissionId := inst_submissionId this;
     inst_judgeId := inst_judgeId this;
     inst_eventId := inst_eventId this;
     inst_round := inst_round this;
     inst_score := inst_score this;
     inst_criteriaScores := inst_criteriaScores this;
     inst_feedback := inst_feedback this;
     inst_status := inst_status this |}.

Fixpoint replace_first {A : Type} (p : A -> bool) (new : A) (l : list A)
  : list A :=
  match l with
  | [] => []
  | x :: rest => if p x then new :: rest else x :: replace_first p new rest
  end.

(** The unique indexes of the Evaluation table: its primary key and
    [unique_judge_submission_round]. *)
Definition Evaluation_unique_indexes : list (list string) :=
  [ ["id"]; ["submissionId"; "judgeId"; "round"] ].

Definition same_columns (a b : list string) : bool :=
  forallb (fun c => existsb (String.eqb c) b) a
  && forallb (fun c => existsb (String.eqb c) a) b.

(** The arbiter of [ON CONFLICT (fields)]: the store takes the statement
    only when a unique index covers exactly these columns. *)
Definition arbiter_index (fields : list string) : bool :=
  existsb (same_columns fields) Evaluation_unique_indexes.

(** [Evaluation.upsert(values, { conflictFields, returning: true })]: the
    instance built from [values] is validated, then handed to the store as
    an INSERT with [ON CONFLICT (conflictFields) DO UPDATE].  Where the
    store takes the statement, the row is inserted unless a stored row
    agrees with it on every conflict field, and that row then takes the
    attributes that [values] gave.  The result is the store, the row as
    stored, and [created], which this store always reports as [null]
    ([None]). *)
Definition Evaluation_upsert (db : DB) (values : list (string * jsval))
           (conflictFields : list string) (newId : uuid)
  : result (DB * Evaluation * option bool) :=
  instance <- Evaluation_build values newId ;;
  row <- Evaluation_row_of instance (Evaluation_blank newId) ;;
  if negb (arbiter_index conflictFields) then Throw DatabaseError
  else
    let conflicts r := forallb (fun f => same_on f row r) conflictFields in
    match find conflicts (evaluations db) with
    | Some existing =>
        updated <- Evaluation_row_of
                     (inst_as_update instance (Evaluation_id existing))
                     existing ;;
        if clashes updated (evaluations db) then Throw DatabaseError
        else
          Ok (set_evaluations db
                (replace_first conflicts updated (evaluations db)),
              updated, None)
    | None =>
        if existsb (fun r => String.eqb (Evaluation_id r) newId)
                   (evaluations db)
           || clashes row (evaluations db)
        then Throw DatabaseError
        else Ok (set_evaluations db (evaluations db ++ [row]), row, None)
    end.

Record EvaluationBody : Type := {
  body_score : jsval;
  body_feedback : jsval;
  body_criteria : jsval;
}.

(** [submission.event.judges]: the accepted EventJudge rows of the event
    for this user. *)
Definition Event_judges (db : DB) (event : Event) (userId : uuid)
  : list EventJudge :=
  filter (fun j => live EventJudge_deletedAt j
                   && String.eqb (EventJudge_eventId j) (Event_id event)
                   && String.eqb (EventJudge_userId j) userId
                   && JudgeStatus_eqb (EventJudge_status j) J_accepted)
         (eventJudges db).

(** [new Date(submission.event.judgingEnd)]: the Event model defines no
    [judgingEnd] attribute, so the property is [undefined] and the date
    invalid ([None]). *)
Definition Event_judgingEnd (event : Event) : option timestamp := None.

(** [a > b] between dates; false when [b] is an invalid date. *)
Definition date_gtb (a : timestamp) (b : option timestamp) : bool :=
  match b with
  | Some t => (t <? a)%Z
  | None => false
  end.

(** [created ? a : b], for the [created] of an upsert. *)
Definition if_created {A : Type} (created : option bool) (a b : A) : A :=
  match created with
  | Some true => a
  | _ => b
  end.

(** [submitEvaluation(req, res)], for [req.params.id = id].  The includes
    of the first query name associations as they are declared; an event
    that the join does not find leaves [submission.event] null, and reading
    a property of it throws. *)
Definition submitEvaluation (db : DB) (user : User) (id : uuid)
           (body : EvaluationBody) (now : timestamp) (newId : uuid)
  : DB * Response Evaluation :=
  let failed := failure 500 "Failed to submit evaluation" in
  match (_ <- included_association Submission_associations
                                    "Event" (Some "event") ;;
         _ <- included_association Event_associations
                                    "EventJudge" (Some "judges") ;;
         Ok (Submission_findByPk db id)) with
  | Throw _ => (db, failed)
  | Ok None => (db, failure 404 "Submission not found")
  | Ok (Some submission) =>
      match Event_findByPk db (Some (Submission_eventId submission)) with
      | None => (db, failed)
      | Some event =>
          let isEventOrganizer :=
            String.eqb (Event_organizerId event) (User_id user) in
          match includes (User_roles user) "admin" with
          | Throw _ => (db, failed)
          | Ok isAdmin =>
              let isJudge :=
                (0 <? List.length (Event_judges db event (User_id user)))%nat in
              if negb isEventOrganizer && negb isAdmin && negb isJudge
              then (db, failure 403
                                "Not authorized to evaluate this submission")
              else if date_gtb now (Event_judgingEnd event) && negb isAdmin
              then (db, failure 400 "Judging period has ended")
              else
                match Evaluation_upsert db
                        [ ("submissionId", JStr id);
                          ("judgeId", JStr (User_id user));
                          ("score", body_score body);
                          ("feedback", body_feedback body);
                          ("criteria", body_criteria body);
                          ("status", JStr "submitted") ]
                        [ "submissionId"; "judgeId" ]
                        newId with
                | Throw _ => (db, failed)
                | Ok (db1, evaluation, created) =>
                    let db2 :=
                      fst (Submission_calculateScores db1 submission) in
                    (db2,
                     {| res_status := if_created created 201 200;
                        res_success := true;
                        res_message :=
                          Some (if_created created "Evaluation submitted"
                                           "Evaluation updated");
                        res_data := Some evaluation |})
                end
          end
      end
  end.

End Collaborators.

(** *** getLeaderboard *)

(** A row of the leaderboard: the plain submission with its aggregates and
    its rank. *)
Record LeaderboardRow : Type := {
  row_id : uuid;
  row_title : string;
  row_evaluationCount : nat;
  row_averageScore : option num;
  row_rank : jsval;
}.

(** The order of a float column: [-Infinity] below the finite numbers,
    [Infinity] above them and NaN above everything. *)
Definition num_class (n : num) : nat :=
  match n with
  | Inf true => 0
  | Fin _ => 1
  | Inf false => 2
  | NaN => 3
  end.

Definition sql_leb (x y : num) : bool :=
  match x, y with
  | Fin a, Fin b => Qle_bool a b
  | _, _ => (num_class x <=? num_class y)%nat
  end.

(** [ORDER BY "averageScore" DESC NULLS LAST, "evaluationCount" DESC]:
    whether [a] may stand before [b]. *)
Definition precedes {A : Type} (averageScore : A -> option num)
           (evaluationCount : A -> nat) (a b : A) : bool :=
  match averageScore a, averageScore b with
  | Some x, Some y =>
      if sql_leb x y
      then if sql_leb y x
           then (evaluationCount b <=? evaluationCount a)%nat
           else false
      else true
  | Some _, None => true
  | None, Some _ => false
  | None, None => (evaluationCount b <=? evaluationCount a)%nat
  end.

Fixpoint insert_by {A : Type} (le : A -> A -> bool) (x : A) (l : list A)
  : list A :=
  match l with
  | [] => [x]
  | y :: rest => if le x y then x :: l else y :: insert_by le x rest
  end.

(** A stable sort: rows that tie keep their table order. *)
Fixpoint sort_by {A : Type} (le : A -> A -> bool) (l : list A) : list A :=
  match l with
  | [] => []
  | x :: rest => insert_by le x (sort_by le rest)
  end.

(** [COUNT(evaluations.id)] and [AVG(evaluations.score)] over the
    non-deleted evaluations joined to a submission. *)
Definition evaluationCount (db : DB) (s : Submission) : nat :=
  List.length (Submission_getEvaluations db s).

Definition averageScore (db : DB) (s : Submission) : option num :=
  match Submission_getEvaluations db s with
  | [] => None
  | rows =>
      Some (div_len (fold_left (fun sum e => add sum (Evaluation_score e))
                               rows zero)
                    (List.length rows))
  end.

(** The submissions in scope: the event's, with status [submitted]. *)
Definition leaderboard_scope (db : DB) (eventId : uuid) : list Submission :=
  filter (fun s => live Submission_deletedAt s
                   && String.eqb (Submission_eventId s) eventId
                   && SubmissionStatus_eqb (Submission_status s) S_submitted)
         (submissions db).

(** The grouped and ordered query, before LIMIT and OFFSET. *)
Definition leaderboard_query (db : DB) (eventId : uuid) : list Submission :=
  sort_by (precedes (averageScore db) (evaluationCount db))
          (leaderboard_scope db eventId).

Record LeaderboardQuery : Type := {
  query_limit : option string;
  query_offset : option string;
}.

(** [parseInt(limit)] and [parseInt(offset)], with the defaults [10] and
    [0] of the destructuring. *)
Definition parsed (param : option string) (default : Z) : option Z :=
  match param with
  | None => Some default
  | Some s => parseInt_str s
  end.

(** [offset + index + 1]: [offset] is the query parameter as it came, a
    string when the request carries it and the number [0] otherwise. *)
Definition rank_of (offset : option string) (index : nat) : jsval :=
  match offset with
  | None => JNum (Fin (inject_Z (0 + Z.of_nat index + 1)))
  | Some s => JStr (s ++ string_of_nat index ++ string_of_nat 1)
  end.

Fixpoint map_index {A B : Type} (f : A -> nat -> B) (index : nat) (l : list A)
  : list B :=
  match l with
  | [] => []
  | x :: rest => f x index :: map_index f (S index) rest
  end.

(** The plain object returned for a submission at [index] of the page:
    its selected attributes and [rank: offset + index + 1]. *)
Definition leaderboard_row (db : DB) (offset : option string)
           (submission : Submission) (index : nat) : LeaderboardRow :=
  {| row_id := Submission_id submission;
     row_title := Submission_title submission;
     row_evaluationCount := evaluationCount db submission;
     row_averageScore := averageScore db submission;
     row_rank := rank_of offset index |}.

Record Pagination : Type := {
  page_total : nat;
  page_limit : Z;
  page_offset : Z;
}.

Record Leaderboard : Type := {
  lb_submissions : list LeaderboardRow;
  lb_pagination : Pagination;
}.

(** The Event model defines no [isLeaderboardPublic] attribute: the
    property reads [undefined]. *)
Definition Event_isLeaderboardPublic (event : Event) : jsval := JUndefined.

(** The columns that the grouped query of [getLeaderboard] selects outside
    an aggregate (the attributes of the Submission and those of the
    included Team) and the columns it groups by. *)
Definition leaderboard_selected : list (string * string) :=
  [ ("Submission", "id"); ("Submission", "title"); ("Submission", "createdAt");
    ("team", "id"); ("team", "name") ].

Definition leaderboard_group : list (string * string) :=
  [ ("Submission", "id") ].

(** The store takes a grouped SELECT only when every column selected
    outside an aggregate is grouped, or is of a table whose primary key
    [id] is grouped. *)
Definition grouped_select_allowed (selected group : list (string * string))
  : bool :=
  let grouped c :=
    existsb (fun g => String.eqb (fst g) (fst c) && String.eqb (snd g) (snd c))
            group in
  forallb (fun c => grouped c || grouped (fst c, "id")) selected.

(** [getLeaderboard(req, res)], for [req.params.eventId = eventId]; the
    route is registered before the authentication middleware, so [req.user]
    is absent there.  The options of the query are built with
    [sequelize.fn] and [sequelize.literal], and the controller binds no
    [sequelize]. *)
Definition getLeaderboard (db : DB) (user : option User) (eventId : uuid)
           (query : LeaderboardQuery) : Response Leaderboard :=
  let failed := failure 500 "Failed to fetch leaderboard" in
  match Event_findByPk db (Some eventId) with
  | None => failure 404 "Event not found"
  | Some event =>
      let isOrganizer := match user with
                         | Some u => String.eqb (Event_organizerId event)
                                                (User_id u)
                         | None => false
                         end in
      let restricted :=
        if truthy (Event_isLeaderboardPublic event) then Ok false
        else
          isAdmin <- match user with
                     | Some u => includes_if_any (User_roles u) "admin"
                     | None => Ok false
                     end ;;
          Ok (negb isAdmin && negb isOrganizer) in
      match restricted with
      | Throw _ => failed
      | Ok true => failure 403 "Leaderboard is not public for this event"
      | Ok false =>
          let listed :=
            _ <- reference "sequelize" ;;
            _ <- included_association Submission_associations
                                       "Team" (Some "team") ;;
            _ <- included_association Submission_associations
                                       "Evaluation" (Some "evaluations") ;;
            match parsed (query_limit query) 10,
                  parsed (query_offset query) 0 with
            | Some limit, Some offset =>
                if (limit <? 0)%Z || (offset <? 0)%Z
                   || negb (grouped_select_allowed leaderboard_selected
                                                   leaderboard_group)
                then Throw DatabaseError
                else
                  Ok (firstn (Z.to_nat limit)
                             (skipn (Z.to_nat offset)
                                    (leaderboard_query db eventId)),
                      limit, offset)
            | _, _ => Throw DatabaseError
            end in
          match listed with
          | Throw _ => failed
          | Ok (submissions, limit, offset) =>
              let rankedSubmissions :=
                map_index (leaderboard_row db (query_offset query))
                          0 submissions in
              let total := List.length (leaderboard_scope db eventId) in
              {| res_status := 200; res_success := true;
                 res_message := None;
                 res_data :=
                   Some {| lb_submissions := rankedSubmissions;
                           lb_pagination :=
                             {| page_total := total;
                                page_limit := limit;
                                page_offset := offset |} |} |}
          end
      end
  end.

(* ------------------------------------------------------------------ *)
(** ** Further operations of the models and the controllers *)
(* ------------------------------------------------------------------ *)

(** *** Event model: validators and date checks *)

(** An Event row together with the date attributes that the registration
    and run checks read besides [endDate]. *)
Record EventDates : Type := {
  Dates_event : Event;
  Dates_startDate : timestamp;
  Dates_registrationStart : timestamp;
  Dates_registrationEnd : timestamp;
}.

(** The validator [isAfterStartDate] of [endDate]. *)
Definition Event_isAfterStartDate (d : EventDates) : result unit :=
  if (Event_endDate (Dates_event d) <=? Dates_startDate d)%Z
  then Throw (Error "End date must be after start date")
  else Ok tt.

(** The validators [isAfterRegistrationStart] and [isBeforeEventStart] of
    [registrationEnd]. *)
Definition Event_isAfterRegistrationStart (d : EventDates) : result unit :=
  if (Dates_registrationEnd d <=? Dates_registrationStart d)%Z
  then Throw (Error "Registration end must be after registration start")
  else Ok tt.

Definition Event_isBeforeEventStart (d : EventDates) : result unit :=
  if (Dates_startDate d <=? Dates_registrationEnd d)%Z
  then Throw (Error "Registration must end before the event starts")
  else Ok tt.

(** The validator [isBeforeEndDate] of [submissionDeadline]. *)
Definition Event_isBeforeEndDate (e : Event) : result unit :=
  match Event_submissionDeadline e with
  | Some value =>
      if (Event_endDate e <? value)%Z
      then Throw (Error "Submission deadline must be before the event ends")
      else Ok tt
  | None => Ok tt
  end.

(** [Event.prototype.isRegistrationOpen] and [Event.prototype.isEventOngoing],
    at the clock reading [now]. *)
Definition Event_isRegistrationOpen (now : timestamp) (d : EventDates) : bool :=
  (Dates_registrationStart d <=? now)%Z && (now <=? Dates_registrationEnd d)%Z.

Definition Event_isEventOngoing (now : timestamp) (d : EventDates) : bool :=
  (Dates_startDate d <=? now)%Z && (now <=? Event_endDate (Dates_event d))%Z.

(** *** deleteEvent *)

Definition set_events (db : DB) (l : list Event) : DB :=
  {| events := l; teams := teams db; teamMembers := teamMembers db;
     eventJudges := eventJudges db; submissions := submissions db;
     evaluations := evaluations db |}.

Definition Event_with_deletedAt (e : Event) (t : option timestamp) : Event :=
  {| Event_id := Event_id e;
     Event_organizerId := Event_organizerId e;
     Event_endDate := Event_endDate e;
     Event_submissionDeadline := Event_submissionDeadline e;
     Event_judgingCriteria := Event_judgingCriteria e;
     Event_deletedAt := t |}.

(** [event.destroy()] on a paranoid model: the row with the instance's
    primary key gets [deletedAt = now]. *)
Definition Event_destroy (db : DB) (event : Event) (now : timestamp) : DB :=
  set_events db
    (map (fun r => if String.eqb (Event_id r) (Event_id event)
                   then Event_with_deletedAt r (Some now)
                   else r)
         (events db)).

(** [deleteEvent(req, res)], for [req.params.id = id], at the clock reading
    [now].  The test of the roles is only reached for a caller who is not
    the organizer. *)
Definition deleteEvent (db : DB) (user : User) (id : uuid) (now : timestamp)
  : DB * Response unit :=
  match Event_findByPk db (Some id) with
  | None => (db, failure 404 "Event not found")
  | Some event =>
      let refused :=
        if String.eqb (Event_organizerId event) (User_id user) then Ok false
        else
          isAdmin <- includes (User_roles user) "admin" ;;
          Ok (negb isAdmin) in
      match refused with
      | Throw _ => (db, failure 500 "Failed to delete event")
      | Ok true => (db, failure 403 "Not authorized to delete this event")
      | Ok false =>
          (Event_destroy db event now,
           {| res_status := 200; res_success := true;
              res_message := Some "Event deleted successfully";
              res_data := None |})
      end
  end.

(** *** Submission.prototype.getLeaderboardPosition *)

(** [array.findIndex(p)]; [None] is the [-1] of a failed search. *)
Fixpoint findIndex {A : Type} (p : A -> bool) (l : list A) : option nat :=
  match l with
  | [] => None
  | x :: rest => if p x then Some 0%nat else option_map S (findIndex p rest)
  end.

(** [ORDER BY "averageScore" DESC] on the stored column: whether [a] may
    stand before [b] (a NULL would come first). *)
Definition by_average_desc (a b : Submission) : bool :=
  match Submission_averageScore a, Submission_averageScore b with
  | Some x, Some y => sql_leb y x
  | None, _ => true
  | Some _, None => false
  end.

(** The [findAll] of [getLeaderboardPosition]: the event's submissions with
    status [submitted] and a stored average, best first. *)
Definition positioned (db : DB) (eventId : uuid) : list Submission :=
  sort_by by_average_desc
    (filter (fun s => live Submission_deletedAt s
                      && String.eqb (Submission_eventId s) eventId
                      && SubmissionStatus_eqb (Submission_status s) S_submitted
                      && match Submission_averageScore s with
                         | Some _ => true
                         | None => false
                         end)
            (submissions db)).

(** [Submission.prototype.getLeaderboardPosition]; [None] is [null]. *)
Definition Submission_getLeaderboardPosition (db : DB) (this : Submission)
  : option nat :=
  let submissions := positioned db (Submission_eventId this) in
  match findIndex (fun s => String.eqb (Submission_id s) (Submission_id this))
                  submissions with
  | None => None
  | Some position => Some (position + 1)%nat
  end.

(** *** Evaluation.getAverageScores *)

(** [parseInt(s, 10)]; [None] is NaN. *)
Definition parseInt10_str (s : string) : option Z :=
  let '(neg, r) := scan_sign (trimStart s) in
  let '(v, n, _) := scan_digits digit_of 10 0 0 r in
  match n with
  | O => None
  | S _ => Some (if neg then (- v)%Z else v)
  end.

(** Whether two values of the grouping column fall in one group (the NULLs
    form a group of their own). *)
Definition key_eqb (a b : option uuid) : bool :=
  match a, b with
  | Some x, Some y => String.eqb x y
  | None, None => true
  | _, _ => false
  end.

(** The distinct values of the grouping column, in the order in which the
    table first shows them. *)
Fixpoint group_keys (l : list (option uuid)) : list (option uuid) :=
  match l with
  | [] => []
  | k :: rest => k :: filter (fun k' => negb (key_eqb k k')) (group_keys rest)
  end.

(** A raw row of the grouped query: the key, [AVG(score)] and the text of
    [COUNT(id)]. *)
Record ScoreGroup : Type := {
  group_submissionId : option uuid;
  group_averageScore : num;
  group_evaluationCount : string;
}.

(** The rows that the [where] of [getAverageScores] keeps. *)
Definition round_scope (db : DB) (eventId : uuid) (round : Z)
  : list Evaluation :=
  filter (fun e => live Evaluation_deletedAt e
                   && opt_eqb (Evaluation_eventId e) eventId
                   && (Evaluation_round e =? round)%Z
                   && EvaluationStatus_eqb (Evaluation_status e) E_submitted)
         (evaluations db).

Definition group_of (rows : list Evaluation) (k : option uuid)
  : list Evaluation :=
  filter (fun e => key_eqb (Evaluation_submissionId e) k) rows.

Definition AVG (rows : list Evaluation) : num :=
  div_len (fold_left (fun sum e => add sum (Evaluation_score e)) rows zero)
          (List.length rows).

(** [ORDER BY AVG("score") DESC]. *)
Definition higher_group (a b : ScoreGroup) : bool :=
  sql_leb (group_averageScore b) (group_averageScore a).

(** The grouped and ordered query of [getAverageScores]. *)
Definition average_query (db : DB) (eventId : uuid) (round : Z)
  : list ScoreGroup :=
  let rows := round_scope db eventId round in
  sort_by higher_group
    (map (fun k => {| group_submissionId := k;
                      group_averageScore := AVG (group_of rows k);
                      group_evaluationCount :=
                        string_of_nat (List.length (group_of rows k)) |})
         (group_keys (map Evaluation_submissionId rows))).

(** An entry of the list that [getAverageScores] returns; the count is
    [None] when [parseInt] gave NaN. *)
Record AverageScore : Type := {
  avg_rank : nat;
  avg_submissionId : option uuid;
  avg_averageScore : string;
  avg_evaluationCount : option Z;
}.

Section AverageScores.

(** [n.toFixed(digits)], the decimal text of a number. *)
Variable toFixed : num -> nat -> string.

(** [Evaluation.getAverageScores(eventId, round = 1)]. *)
Definition Evaluation_getAverageScores (db : DB) (eventId : uuid)
           (round : option Z) : list AverageScore :=
  let round := match round with
               | Some r => r
               | None => 1%Z
               end in
  map_index (fun result index =>
               {| avg_rank := (index + 1)%nat;
                  avg_submissionId := group_submissionId result;
                  avg_averageScore :=
                    toFixed (parseFloat (JNum (group_averageScore result))) 2;
                  avg_evaluationCount :=
                    parseInt10_str (group_evaluationCount result) |})
            0 (average_query db eventId round).

End AverageScores.

(** *** createEvent: the slug *)

(** A JavaScript string as its UTF-16 code units. *)
Definition jsstring : Type := list N.

Definition hyphen : N := 45%N.

(** The class [\w] of a regular expression without flags. *)
Definition is_word (c : N) : bool :=
  ((48 <=? c) && (c <=? 57))%N || ((65 <=? c) && (c <=? 90))%N
  || ((97 <=? c) && (c <=? 122))%N || (c =? 95)%N.

(** The class [\s]: white space and line terminators. *)
Definition is_white (c : N) : bool :=
  ((9 <=? c) && (c <=? 13))%N || (c =? 32)%N || (c =? 160)%N
  || (c =? 5760)%N || ((8192 <=? c) && (c <=? 8202))%N
  || (c =? 8232)%N || (c =? 8233)%N || (c =? 8239)%N || (c =? 8287)%N
  || (c =? 12288)%N || (c =? 65279)%N.

(** [s.replace(/[^\w\s-]/g, '')]. *)
Definition strip_other (s : jsstring) : jsstring :=
  filter (fun c => is_word c || is_white c || (c =? hyphen)%N) s.

(** [s.replace(/\s+/g, '-')]: every maximal run of white space becomes one
    hyphen; [in_run] tells that the run at the head has been replaced. *)
Fixpoint spaces_to_hyphen (in_run : bool) (s : jsstring) : jsstring :=
  match s with
  | [] => []
  | c :: rest =>
      if is_white c
      then if in_run then spaces_to_hyphen true rest
           else hyphen :: spaces_to_hyphen true rest
      else c :: spaces_to_hyphen false rest
  end.

(** [s.replace(/--+/g, '-')]: every run of two or more hyphens becomes
    one. *)
Fixpoint squeeze_hyphens (s : jsstring) : jsstring :=
  match s with
  | [] => []
  | a :: rest =>
      match rest with
      | b :: _ =>
          if (a =? hyphen)%N && (b =? hyphen)%N
          then squeeze_hyphens rest
          else a :: squeeze_hyphens rest
      | [] => [a]
      end
  end.

Section Slug.

(** [String.prototype.toLowerCase]. *)
Variable toLowerCase : jsstring -> jsstring.

(** The slug that [createEvent] derives from the title. *)
Definition slug (title : jsstring) : jsstring :=
  squeeze_hyphens
    (spaces_to_hyphen false (strip_other (toLowerCase title))).

End Slug.

(* ------------------------------------------------------------------ *)
(** ** Notions used to state the properties *)
(* ------------------------------------------------------------------ *)

(** The value of a finite number ([0] for the others). *)
Definition finite_value (n : num) : Q :=
  match n with
  | Fin q => q
  | _ => 0%Q
  end.

Definition Qsum (l : list Q) : Q := fold_right Qplus 0%Q l.

(** The arithmetic mean of a list of rationals. *)
Definition mean (l : list Q) : Q :=
  (Qsum l / inject_Z (Z.of_nat (List.length l)))%Q.

Definition scores_of (l : list Evaluation) : list Q :=
  map (fun e => finite_value (Evaluation_score e)) l.

(** The non-deleted, non-draft submissions of a team for an event. *)
Definition nonDraft_rows (db : DB) (teamId eventId : uuid) : list Submission :=
  filter (fun s => live Submission_deletedAt s
                   && String.eqb (Submission_teamId s) teamId
                   && String.eqb (Submission_eventId s) eventId
                   && negb (SubmissionStatus_eqb (Submission_status s) S_draft))
         (submissions db).

Definition holds_nonDraft (db : DB) (teamId eventId : uuid) : Prop :=
  exists s, In s (submissions db)
            /\ Submission_teamId s = teamId
            /\ Submission_eventId s = eventId
            /\ Submission_status s <> S_draft
            /\ Submission_deletedAt s = None.

Definition at_most_one_nonDraft (db : DB) : Prop :=
  forall teamId eventId,
    (List.length (nonDraft_rows db teamId eventId) <= 1)%nat.

(** The rows of a leaderboard response (none when the request failed). *)
Definition rows_of (r : Response Leaderboard) : list LeaderboardRow :=
  match res_data r with
  | Some lb => lb_submissions lb
  | None => []
  end.

(** The order of float values, as propositions. *)
Definition num_lt (x y : num) : Prop :=
  match x, y with
  | Fin a, Fin b => (a < b)%Q
  | _, _ => (num_class x < num_class y)%nat
  end.

Definition num_equiv (x y : num) : Prop :=
  match x, y with
  | Fin a, Fin b => (a == b)%Q
  | _, _ => num_class x = num_class y
  end.

(** The criterion score of [criteriaScores] for [c] is present, numeric
    and within [[0, maxScore]]. *)
Definition scored_in_range (criteriaScores : jsval) (c : Criterion) : Prop :=
  has_property (Criterion_id c) criteriaScores = Some true
  /\ exists q m,
       parseFloat_at (Criterion_id c) criteriaScores = Fin q
       /\ Criterion_maxScore c = Fin m
       /\ (0 <= q)%Q /\ (q <= m)%Q.

(** No score is given for [c]. *)
Definition score_missing (criteriaScores : jsval) (c : Criterion) : Prop :=
  has_property (Criterion_id c) criteriaScores = Some false.

(** A score is given for [c], but it is not a number or lies outside
    [[0, maxScore]]. *)
Definition score_out_of_range (criteriaScores : jsval) (c : Criterion) : Prop :=
  has_property (Criterion_id c) criteriaScores = Some true
  /\ exists m,
       Criterion_maxScore c = Fin m
       /\ match parseFloat_at (Criterion_id c) criteriaScores with
          | Fin q => (q < 0)%Q \/ (m < q)%Q
          | _ => True
          end.

(** The criteria that [submit] checks and the scores it checks them on. *)
Definition criteria_of (event : Event) : list Criterion :=
  match Event_judgingCriteria event with
  | Some l => l
  | None => []
  end.

Definition criteriaScores_of (this : EvaluationInstance) : jsval :=
  or (inst_criteriaScores this) (JObj []).

(** An instance that was loaded from the store and whose score was not
    assigned since carries the stored score. *)
Definition score_in_sync (db : DB) (this : EvaluationInstance) : Prop :=
  inst_isNewRecord this = false ->
  inst_has_changed this "score" = false ->
  exists r,
    find (fun r => String.eqb (Evaluation_id r) (inst_id this))
         (evaluations db) = Some r
    /\ inst_score this = JNum (Evaluation_score r).

(** The row of a successful [save] or [submit] (a blank row otherwise). *)
Definition saved_row (r : result (option Evaluation)) : Evaluation :=
  match r with
  | Ok (Some row) => row
  | _ => Evaluation_blank ""
  end.

(** The user holds a non-deleted, accepted EventJudge row for the event. *)
Definition accepted_judge (db : DB) (eventId userId : uuid) : Prop :=
  exists j, In j (eventJudges db)
            /\ EventJudge_eventId j = eventId
            /\ EventJudge_userId j = userId
            /\ EventJudge_status j = J_accepted
            /\ EventJudge_deletedAt j = None.


(** The instance that a query returns for a stored row: every attribute as
    stored, none changed. *)
Definition loaded (row : Evaluation) : EvaluationInstance :=
  {| inst_id := Evaluation_id row;
     inst_isNewRecord := false;
     inst_changed := [];
     inst_submissionId := Evaluation_submissionId row;
     inst_judgeId := Evaluation_judgeId row;
     inst_eventId := Evaluation_eventId row;
     inst_round := Evaluation_round row;
     inst_score := JNum (Evaluation_score row);
     inst_criteriaScores := Evaluation_criteriaScores row;
     inst_feedback := Evaluation_feedback row;
     inst_status := Evaluation_status row |}.

(** A submission that [getLeaderboardPosition] lists for an event: not
    deleted, of the event, with status [submitted] and a stored average. *)
Definition listed (db : DB) (eventId : uuid) (s : Submission) : Prop :=
  In s (submissions db)
  /\ Submission_deletedAt s = None
  /\ Submission_eventId s = eventId
  /\ Submission_status s = S_submitted
  /\ Submission_averageScore s <> None.

(** The characters of a settled slug: lower-case ASCII letters, digits,
    the underscore and the hyphen. *)
Definition is_slug_char (c : N) : bool :=
  ((48 <=? c) && (c <=? 57))%N || ((97 <=? c) && (c <=? 122))%N
  || (c =? 95)%N || (c =? hyphen)%N.

(** An upper-case ASCII letter. *)
Definition is_upper (c : N) : bool := ((65 <=? c) && (c <=? 90))%N.

(** The string holds two hyphens side by side. *)
Definition adjacent_hyphens (s : jsstring) : Prop :=
  exists before after, s = before ++ hyphen :: hyphen :: after.

(** The score that the aggregate counts for an evaluation: its [score],
    and 0 for a score that is NaN or zero. *)
Definition counted_score (e : Evaluation) : num :=
  or_zero (Evaluation_score e).

(** The sum of a list of doubles, added from 0 in the order of the list,
    and their mean: that sum divided by their number. *)
Definition double_sum (l : list num) : num := fold_left add l zero.

Definition double_mean (l : list num) : num :=
  div_len (double_sum l) (List.length l).

(** The arithmetic mean of score fields, where they have one: NaN and the
    infinities have none. *)
Fixpoint finite_values (l : list num) : option (list Q) :=
  match l with
  | [] => Some []
  | Fin q :: rest => option_map (cons q) (finite_values rest)
  | _ :: _ => None
  end.

Definition arithmetic_mean (l : list num) : option Q :=
  option_map mean (finite_values l).

(** The claim on [averageScore] as worded: it is the arithmetic mean of
    the score fields of the non-deleted evaluations. *)
Definition average_is_mean (db : DB) (this : Submission) : Prop :=
  exists m q,
    arithmetic_mean (map Evaluation_score (Submission_getEvaluations db this))
    = Some m
    /\ Submission_averageScore (snd (Submission_calculateScores db this))
       = Some (Fin q)
    /\ (q == m)%Q.

(** The number is the integer [z]. *)
Definition is_integer (n : num) (z : Z) : Prop :=
  exists q, n = Fin q /\ (q == inject_Z z)%Q.

Definition Zsum (l : list Z) : Z := fold_right Z.add 0%Z l.

(* ------------------------------------------------------------------ *)
(** ** A sample store *)
(* ------------------------------------------------------------------ *)

Module Sample.

Local Open Scope Z_scope.

Definition submission (id eventId teamId : uuid) (status : SubmissionStatus)
  : Submission :=
  {| Submission_id := id;
     Submission_eventId := eventId;
     Submission_teamId := teamId;
     Submission_submittedById := "alice";
     Submission_title := "Project " ++ id;
     Submission_description := "A project";
     Submission_githubUrl := None;
     Submission_videoUrl := None;
     Submission_fileUrl := None;
     Submission_fileType := None;
     Submission_fileSize := None;
     Submission_submissionNote := None;
     Submission_isPublic := false;
     Submission_status := status;
     Submission_averageScore := None;
     Submission_totalEvaluations := 0;
     Submission_deletedAt := None |}.

Definition evaluation (id submissionId judgeId : uuid) (round : Z) (score : Q)
           (deletedAt : option timestamp) : Evaluation :=
  {| Evaluation_id := id;
     Evaluation_submissionId := Some submissionId;
     Evaluation_judgeId := Some judgeId;
     Evaluation_eventId := Some "E1";
     Evaluation_round := round;
     Evaluation_score := Fin score;
     Evaluation_criteriaScores := JObj [];
     Evaluation_feedback := JNull;
     Evaluation_status := E_submitted;
     Evaluation_deletedAt := deletedAt |}.

Definition criteria : list Criterion :=
  [ {| Criterion_id := "c1"; Criterion_name := "Innovation";
       Criterion_maxScore := Fin 10 |};
    {| Criterion_id := "c2"; Criterion_name := "Execution";
       Criterion_maxScore := Fin 20 |} ].

(** [E1] takes submissions until time 1000 and ends at 2000; [E2] has no
    submission deadline and the single criterion [c1], of at most 10. *)
Definition E1 : Event :=
  {| Event_id := "E1"; Event_organizerId := "org";
     Event_endDate := 2000; Event_submissionDeadline := Some 1000;
     Event_judgingCriteria := Some criteria; Event_deletedAt := None |}.

Definition E2_criterion : Criterion :=
  {| Criterion_id := "c1"; Criterion_name := "c1";
     Criterion_maxScore := Fin 10 |}.

Definition E2_criteria : list Criterion := [E2_criterion].

Definition E2 : Event :=
  {| Event_id := "E2"; Event_organizerId := "org";
     Event_endDate := 2000; Event_submissionDeadline := None;
     Event_judgingCriteria := Some E2_criteria;
     Event_deletedAt := None |}.

Definition member (teamId userId : uuid) : TeamMember :=
  {| TeamMember_teamId := teamId; TeamMember_userId := userId;
     TeamMember_status := M_accepted; TeamMember_deletedAt := None |}.

Definition base : DB :=
  {| events := [E1; E2];
     teams := [ {| Team_id := "T1"; Team_eventId := "E1";
                   Team_deletedAt := None |};
                {| Team_id := "T2"; Team_eventId := "E1";
                   Team_deletedAt := None |};
                {| Team_id := "T3"; Team_eventId := "E2";
                   Team_deletedAt := None |} ];
     teamMembers := [ member "T1" "alice"; member "T1" "bob";
                      member "T2" "carol"; member "T3" "dave" ];
     eventJudges := [ {| EventJudge_eventId := "E1";
                         EventJudge_userId := "judge1";
                         EventJudge_status := J_accepted;
                         EventJudge_deletedAt := None |} ];
     submissions := [];
     evaluations := [] |}.

(** A submission scored 80, 90 and 100 by three judges over two rounds,
    with one deleted evaluation and one evaluation of another submission
    beside them. *)
Definition P : Submission := submission "P" "E1" "T1" S_submitted.

Definition scored : DB :=
  set_evaluations
    (set_submissions base [P; submission "Q" "E1" "T2" S_submitted])
    [ evaluation "e1" "P" "judge1" 1 80 None;
      evaluation "e2" "Q" "judge1" 1 40 None;
      evaluation "e3" "P" "judge2" 1 90 None;
      evaluation "e4" "P" "judge3" 1 10 (Some 500);
      evaluation "e5" "P" "judge1" 2 100 None ].

Definition alice : User :=
  {| User_id := "alice"; User_role := "participant" |}.
Definition bob : User := {| User_id := "bob"; User_role := "participant" |}.
Definition judge1 : User := {| User_id := "judge1"; User_role := "judge" |}.

Definition body (teamId eventId : uuid) (status : option string)
  : SubmissionBody :=
  {| body_eventId := Some eventId;
     body_teamId := Some teamId;
     body_title := Some "Solar tracker";
     body_description := Some "Tracks the sun";
     body_githubUrl := None;
     body_videoUrl := None;
     body_submissionNote := None;
     body_isPublic := Some "true";
     body_status := status |}.

(** Team [T1] has submitted for [E1]. *)
Definition submitted_once : DB :=
  set_submissions base [submission "S1" "E1" "T1" S_submitted].

Definition isUrl (s : string) : bool := String.prefix "http" s.

Definition uploadToStorage (f : File) (folder : string)
           (public : option string) : option string :=
  Some ("https://files.example/" ++ folder)%string.

(** A store that reads [true], [false], [1] and [0] as booleans, and keeps
    in a FLOAT column a number as it is and a numeric text as the double
    nearest to it. *)
Definition boolean_column (v : jsval) : option bool :=
  match v with
  | JBool b => Some b
  | JStr s =>
      if String.eqb s "true" || String.eqb s "1" then Some true
      else if String.eqb s "false" || String.eqb s "0" then Some false
      else None
  | _ => None
  end.

Definition float_column (v : jsval) : result num :=
  match v with
  | JNum n => Ok n
  | JStr s =>
      if String.eqb s "NaN" then Ok NaN
      else match scan_float s with
           | (NaN, _) => Throw DatabaseError
           | (n, EmptyString) => Ok n
           | (_, String _ _) => Throw DatabaseError
           end
  | _ => Throw DatabaseError
  end.

Definition createSubmission :=
  createSubmission isUrl uploadToStorage boolean_column.

Definition submitEvaluation := submitEvaluation float_column.

Definition Evaluation_submit := Evaluation_submit float_column.

Definition dave : User := {| User_id := "dave"; User_role := "participant" |}.

(** Submissions [A] (two evaluations of 90), [B] (five of 90), [C] (none)
    and [D] (one of 75), all submitted for [E1]; beside them a draft with
    a perfect score and a submission for another event. *)
Definition board : DB :=
  set_evaluations
    (set_submissions base
       [ submission "A" "E1" "T1" S_submitted;
         submission "X" "E1" "T2" S_draft;
         submission "B" "E1" "T2" S_submitted;
         submission "C" "E1" "T1" S_submitted;
         submission "Y" "E2" "T3" S_submitted;
         submission "D" "E1" "T2" S_submitted ])
    [ evaluation "a1" "A" "judge1" 1 90 None;
      evaluation "a2" "A" "judge2" 1 90 None;
      evaluation "b1" "B" "judge1" 1 90 None;
      evaluation "b2" "B" "judge2" 1 90 None;
      evaluation "b3" "B" "judge3" 1 90 None;
      evaluation "b4" "B" "judge4" 1 90 None;
      evaluation "b5" "B" "judge5" 1 90 None;
      evaluation "d1" "D" "judge1" 1 75 None;
      evaluation "x1" "X" "judge1" 1 100 None;
      evaluation "y1" "Y" "judge1" 1 100 None ].

Definition organizer : User := {| User_id := "org"; User_role := "organizer" |}.

Definition root : User := {| User_id := "root"; User_role := "admin" |}.

Definition page (limit offset : option string) : LeaderboardQuery :=
  {| query_limit := limit; query_offset := offset |}.

(** Submission [P] entered for [E1], not yet evaluated. *)
Definition entered : DB := set_submissions base [P].

Definition payload (score : Q) (feedback : string) (c1 c2 : Q)
  : EvaluationBody :=
  {| body_score := JNum (Fin score);
     body_feedback := JStr feedback;
     body_criteria := JObj [("c1", JNum (Fin c1)); ("c2", JNum (Fin c2))] |}.

(** A new, unsaved evaluation by [judge1] of a submission. *)
Definition draft_evaluation (submissionId : uuid) (score criteriaScores : jsval)
  : EvaluationInstance :=
  {| inst_id := "n1";
     inst_isNewRecord := true;
     inst_changed := ["submissionId"; "judgeId"; "criteriaScores"];
     inst_submissionId := Some submissionId;
     inst_judgeId := Some "judge1";
     inst_eventId := None;
     inst_round := 1;
     inst_score := score;
     inst_criteriaScores := criteriaScores;
     inst_feedback := JNull;
     inst_status := E_draft |}.

(** [E3] scores two criteria of at most 60 each; [R] is entered for it. *)
Definition E3 : Event :=
  {| Event_id := "E3"; Event_organizerId := "org";
     Event_endDate := 2000; Event_submissionDeadline := Some 1000;
     Event_judgingCriteria :=
       Some [ {| Criterion_id := "c1"; Criterion_name := "Design";
                 Criterion_maxScore := Fin 60 |};
              {| Criterion_id := "c2"; Criterion_name := "Impact";
                 Criterion_maxScore := Fin 60 |} ];
     Event_deletedAt := None |}.

Definition generous : DB :=
  {| events := [E3]; teams := []; teamMembers := []; eventJudges := [];
     submissions := [submission "R" "E3" "T1" S_submitted];
     evaluations := [] |}.

(** The submissions of [board] with stored aggregates: [A] at 70, [B] at
    90 and [D] at 80, [C] without an average. *)
Definition standings : DB :=
  set_submissions base
    [ Submission_with_scores (submission "A" "E1" "T1" S_submitted)
                             (Some (Fin 70)) 2;
      Submission_with_scores (submission "B" "E1" "T2" S_submitted)
                             (Some (Fin 90)) 1;
      submission "C" "E1" "T1" S_submitted;
      Submission_with_scores (submission "D" "E1" "T2" S_submitted)
                             (Some (Fin 80)) 1 ].

(** [E1] with registration from 100 to 400 and a start at 500. *)
Definition calendar : EventDates :=
  {| Dates_event := E1; Dates_startDate := 500;
     Dates_registrationStart := 100; Dates_registrationEnd := 400 |}.

(** A new, unsaved evaluation by [judge4], built with a score. *)
Definition built_evaluation (submissionId : uuid) (score : Q)
  : EvaluationInstance :=
  {| inst_id := "n2";
     inst_isNewRecord := true;
     inst_changed := ["submissionId"; "judgeId"; "score"];
     inst_submissionId := Some submissionId;
     inst_judgeId := Some "judge4";
     inst_eventId := None;
     inst_round := 1;
     inst_score := JNum (Fin score);
     inst_criteriaScores := JObj [];
     inst_feedback := JNull;
     inst_status := E_draft |}.

Definition Evaluation_save := Evaluation_save float_column.

(** [toFixed] on the numbers of this model: the nearest decimal with the
    given number of digits, halves away from zero. *)
Fixpoint pad_left (width : nat) (s : string) : string :=
  match width with
  | O => s
  | S w => if (String.length s <=? w)%nat
           then ("0" ++ pad_left w s)%string
           else s
  end.

Definition toFixed (n : num) (digits : nat) : string :=
  match n with
  | NaN => "NaN"%string
  | Inf true => "-Infinity"%string
  | Inf false => "Infinity"%string
  | Fin q =>
      let scale := 10 ^ Z.of_nat digits in
      let den := Zpos (Qden q) in
      let scaled := (2 * Z.abs (Qnum q) * scale + den) / (2 * den) in
      let text :=
        (string_of_nat (Z.to_nat (scaled / scale))
         ++ match digits with
            | O => ""
            | S _ => "." ++ pad_left digits
                                     (string_of_nat (Z.to_nat (scaled mod scale)))
            end)%string in
      if Qnum q <? 0 then ("-" ++ text)%string else text
  end.

Definition Evaluation_getAverageScores := Evaluation_getAverageScores toFixed.

(** The code units of an ASCII text, and [toLowerCase] on such texts. *)
Definition units (s : string) : jsstring :=
  map N_of_ascii (list_ascii_of_string s).

Definition toLowerCase (s : jsstring) : jsstring :=
  map (fun c => if is_upper c then (c + 32)%N else c) s.

(** [P] with a score that is not a number beside a score of 80, and [P]
    scored 80, 90 and 95. *)
Definition evaluation_scored (id submissionId judgeId : uuid) (score : num)
  : Evaluation :=
  {| Evaluation_id := id;
     Evaluation_submissionId := Some submissionId;
     Evaluation_judgeId := Some judgeId;
     Evaluation_eventId := Some "E1";
     Evaluation_round := 1;
     Evaluation_score := score;
     Evaluation_criteriaScores := JObj [];
     Evaluation_feedback := JNull;
     Evaluation_status := E_submitted;
     Evaluation_deletedAt := None |}.

Definition unrated : DB :=
  set_evaluations entered
    [ evaluation_scored "u1" "P" "judge1" NaN;
      evaluation_scored "u2" "P" "judge2" (Fin 80) ].

Definition thirds : DB :=
  set_evaluations entered
    [ evaluation "t1" "P" "judge1" 1 80 None;
      evaluation "t2" "P" "judge2" 1 90 None;
      evaluation "t3" "P" "judge3" 1 95 None ].

(** Submission [Y] entered for [E2], not yet evaluated. *)
Definition registered : DB :=
  set_submissions base [submission "Y" "E2" "T3" S_submitted].

End Sample.


(* ------------------------------------------------------------------ *)
(** ** Double arithmetic *)
(* ------------------------------------------------------------------ *)

Lemma Qred_integer (q : Q) (z : Z) :
  (q == inject_Z z)%Q -> Qred q = inject_Z z.
Proof.
  intros H.
  assert (Hr : (Qred q == inject_Z z)%Q) by (rewrite Qred_correct; exact H).
  pose proof (gcd_Qred q) as Hg.
  destruct (Qred q) as [n d]. unfold Qeq in Hr. simpl in Hr, Hg.
  rewrite Z.mul_1_r in Hr. subst n.
  rewrite Z.mul_comm, Z.gcd_comm, Z.gcd_mul_diag_l in Hg by lia.
  unfold inject_Z. f_equal; lia.
Qed.

Lemma round_double_comp (p q : Q) :
  (p == q)%Q -> round_double p = round_double q.
Proof.
  intros H. unfold round_double. rewrite (Qred_complete p q H). reflexivity.
Qed.

Lemma round_half_even_whole (n : Z) : round_half_even n 1 = n.
Proof.
  unfold round_half_even. rewrite Z.mod_1_r, Z.div_1_r. reflexivity.
Qed.

Lemma floor_log2_whole (n : Z) : (0 < n)%Z -> floor_log2 n 1 = Z.log2 n.
Proof.
  intros Hn. unfold floor_log2. change (Z.log2 1) with 0%Z.
  rewrite Z.sub_0_r.
  pose proof (Z.log2_nonneg n) as H0.
  destruct (Z.leb_spec 0 (Z.log2 n)); [|lia].
  pose proof (Z.log2_spec n Hn) as [Hlo _].
  destruct (Z.leb_spec (1 * 2 ^ Z.log2 n) n); [reflexivity|lia].
Qed.

(** An integer of at most 53 bits is a double, and rounding keeps it. *)
Lemma round_double_integer (q : Q) (z : Z) :
  (q == inject_Z z)%Q -> (Z.abs z < 2 ^ 53)%Z ->
  round_double q = Fin (inject_Z z).
Proof.
  intros Hq Hz. unfold round_double. rewrite (Qred_integer q z Hq).
  cbn [Qnum Qden inject_Z]. cbv zeta.
  destruct (Z.eqb_spec (Z.abs z) 0) as [E|E].
  { assert (z = 0%Z) by lia. subst z. reflexivity. }
  assert (Hn : (0 < Z.abs z)%Z) by lia.
  rewrite (floor_log2_whole _ Hn).
  assert (HL : (Z.log2 (Z.abs z) < 53)%Z).
  { apply Z.log2_lt_pow2; [exact Hn|exact Hz]. }
  pose proof (Z.log2_nonneg (Z.abs z)) as HL0.
  set (L := Z.log2 (Z.abs z)) in *.
  replace (Z.max (L - 52) (-1074)) with (L - 52)%Z by lia.
  destruct (Z.leb_spec 0 (L - 52)) as [He|He].
  - assert (L = 52%Z) by lia.
    replace (L - 52)%Z with 0%Z by lia.
    change (2 ^ 0)%Z with 1%Z. change (1 * 1)%Z with 1%Z.
    rewrite Z.mul_1_r, round_half_even_whole.
    assert (Hbig : (Z.abs z < 2 ^ 1024)%Z).
    { eapply Z.lt_trans; [exact Hz|]. apply Z.pow_lt_mono_r; lia. }
    destruct (Z.leb_spec (2 ^ 1024) (Z.abs z)); [lia|].
    destruct (Z.ltb_spec z 0); do 2 f_equal; lia.
  - rewrite round_half_even_whole.
    set (k := (- (L - 52))%Z).
    assert (Hk : (0 < 2 ^ k)%Z) by (apply Z.pow_pos_nonneg; lia).
    f_equal. apply Qred_integer.
    unfold Qeq, inject_Z. cbn [Qnum Qden].
    rewrite Z2Pos.id by exact Hk.
    destruct (Z.ltb_spec z 0); lia.
Qed.

Lemma add_integers (p q : Q) (a b : Z) :
  (p == inject_Z a)%Q -> (q == inject_Z b)%Q -> (Z.abs (a + b) < 2 ^ 53)%Z ->
  add (Fin p) (Fin q) = Fin (inject_Z (a + b)).
Proof.
  intros Hp Hq Hab. cbn [add]. apply round_double_integer; [|exact Hab].
  rewrite Hp, Hq, inject_Z_plus. reflexivity.
Qed.
(* ------------------------------------------------------------------ *)
(** ** Score aggregation *)
(* ------------------------------------------------------------------ *)

Lemma Submission_save_rows (db : DB) (this : Submission) (r : Submission) :
  In r (submissions (Submission_save db this)) ->
  Submission_id r = Submission_id this ->
  Submission_averageScore r = Submission_averageScore this
  /\ Submission_totalEvaluations r = Submission_totalEvaluations this.
Proof.
  unfold Submission_save. simpl. intros Hin Hid.
  apply in_map_iff in Hin. destruct Hin as (r0 & Hr & _).
  destruct (String.eqb (Submission_id r0) (Submission_id this)) eqn:E.
  - subst r. split; reflexivity.
  - subst r0. apply String.eqb_neq in E. contradiction.
Qed.

Lemma reduce_counted (l : list Evaluation) (a : num) :
  fold_left (fun sum evalItem => add sum (or_zero (Evaluation_score evalItem)))
            l a
  = fold_left add (map counted_score l) a.
Proof.
  revert a. induction l as [|e l IH]; intros a; simpl; [reflexivity|].
  apply IH.
Qed.

Lemma or_zero_integer (n : num) (z : Z) :
  is_integer n z -> is_integer (or_zero n) z.
Proof.
  intros (q & -> & Hq). unfold or_zero, num_truthy.
  destruct (Qeq_bool q 0) eqn:E; simpl.
  - exists 0%Q. split; [reflexivity|].
    apply Qeq_bool_iff in E. rewrite <- Hq, E. reflexivity.
  - exists q. split; [reflexivity|exact Hq].
Qed.

(** Integers whose sums stay below [2^53] are added without rounding. *)
Lemma double_sum_integers (l : list num) (zs : list Z) :
  Forall2 is_integer l zs ->
  Forall (fun z => (0 <= z)%Z) zs ->
  forall a : Z,
    (0 <= a)%Z -> (a + Zsum zs < 2 ^ 53)%Z ->
    fold_left add l (Fin (inject_Z a)) = Fin (inject_Z (a + Zsum zs)).
Proof.
  induction 1 as [|n z l zs (q & -> & Hq) _ IH]; intros Hpos a Ha Hsum.
  - simpl. rewrite Z.add_0_r. reflexivity.
  - inversion Hpos as [|? ? Hz Hzs]; subst.
    assert (Hrest : (0 <= Zsum zs)%Z).
    { clear -Hzs. induction Hzs; simpl; lia. }
    cbn [fold_left Zsum fold_right] in *. fold (Zsum zs) in *.
    rewrite (add_integers _ _ a z (Qeq_refl _) Hq) by lia.
    rewrite (IH Hzs (a + z)%Z) by lia.
    do 2 f_equal. lia.
Qed.

Lemma Qsum_integers (l : list num) (zs : list Z) :
  Forall2 is_integer l zs ->
  (Qsum (map finite_value l) == inject_Z (Zsum zs))%Q.
Proof.
  induction 1 as [|n z l zs (q & -> & Hq) _ IH]; simpl.
  - reflexivity.
  - rewrite IH, Hq, inject_Z_plus. reflexivity.
Qed.

Lemma calculateScores_average (db : DB) (this : Submission)
      (e : Evaluation) (l : list Evaluation) :
  Submission_getEvaluations db this = e :: l ->
  Submission_averageScore (snd (Submission_calculateScores db this))
  = Some (double_mean (map counted_score (e :: l))).
Proof.
  intros E. unfold Submission_calculateScores. rewrite E.
  cbn [List.length snd Submission_averageScore Submission_with_scores].
  rewrite reduce_counted. unfold double_mean, double_sum.
  rewrite length_map. reflexivity.
Qed.

(** C1.  After [calculateScores], the submission's [totalEvaluations] is
    the number of its non-deleted evaluations, whatever their round or
    judge; its [averageScore] is [null] when there is none and otherwise
    the mean of their scores in double arithmetic, a score that is NaN or
    zero counting as 0: the scores are added from 0 in order, each sum
    rounded, and the total is divided by their number.  When the scores
    are non-negative integers with a sum below [2^53], that is the double
    nearest to their arithmetic mean.  The stored row carries the same
    values. *)
Theorem calculateScores_mean (db : DB) (this : Submission) :
  let rows := Submission_getEvaluations db this in
  let db' := fst (Submission_calculateScores db this) in
  let this' := snd (Submission_calculateScores db this) in
  Submission_totalEvaluations this' = List.length rows
  /\ match rows with
     | [] => Submission_averageScore this' = None
     | _ :: _ =>
         Submission_averageScore this'
         = Some (double_mean (map counted_score rows))
     end
  /\ (forall zs,
        rows <> [] ->
        Forall2 is_integer (map Evaluation_score rows) zs ->
        Forall (fun z => (0 <= z)%Z) zs ->
        (Zsum zs < 2 ^ 53)%Z ->
        Submission_averageScore this'
        = Some (round_double (mean (scores_of rows))))
  /\ (forall r, In r (submissions db') ->
                Submission_id r = Submission_id this ->
                Submission_averageScore r = Submission_averageScore this'
                /\ Submission_totalEvaluations r
                   = Submission_totalEvaluations this')
  /\ (forall e, In e rows <->
                In e (evaluations db)
                /\ Evaluation_submissionId e = Some (Submission_id this)
                /\ Evaluation_deletedAt e = None).
Proof.
  intros rows db' this'. subst db' this'.
  split; [|split; [|split; [|split]]].
  - unfold Submission_calculateScores. fold rows. destruct rows; reflexivity.
  - destruct rows as [|e l] eqn:E.
    + unfold Submission_calculateScores. fold rows. rewrite E. reflexivity.
    + apply (calculateScores_average db this e l E).
  - intros zs Hne Hint Hpos Hsum.
    destruct rows as [|e l] eqn:E; [contradiction|].
    rewrite (calculateScores_average db this e l E). f_equal.
    unfold double_mean, double_sum, zero.
    assert (Hcounted : Forall2 is_integer (map counted_score (e :: l)) zs).
    { clear -Hint. revert zs Hint.
      generalize (e :: l) as rows. induction rows as [|x rows IH];
        intros zs H; inversion H; subst; constructor.
      - apply or_zero_integer. assumption.
      - apply IH. assumption. }
    change 0%Q with (inject_Z 0).
    rewrite (double_sum_integers _ zs Hcounted Hpos 0%Z) by lia.
    rewrite Z.add_0_l, length_map.
    cbn [div_len List.length]. apply round_double_comp.
    unfold mean, scores_of. rewrite <- (map_map Evaluation_score finite_value).
    rewrite (Qsum_integers _ zs Hint), !length_map. reflexivity.
  - intros r Hin Hid. unfold Submission_calculateScores in *.
    fold rows in Hin |- *.
    destruct rows; cbn [List.length fst snd] in *;
      apply (Submission_save_rows _ _ _ Hin Hid).
  - intros e. unfold rows, Submission_getEvaluations.
    rewrite filter_In. unfold live, opt_eqb.
    split.
    + intros (Hin & Hb). split; [exact Hin|].
      destruct (Evaluation_deletedAt e); [discriminate|].
      destruct (Evaluation_submissionId e) as [sid|]; [|discriminate].
      simpl in Hb. apply String.eqb_eq in Hb. subst. split; reflexivity.
    + intros (Hin & Hs & Hd). split; [exact Hin|].
      rewrite Hs, Hd. simpl. apply String.eqb_refl.
Qed.

(** Scores 80, 90 and 100 over two rounds average to 90, and scores 80, 90
    and 95 to the double nearest to 265/3. *)
Lemma calculateScores_mean_witness :
  (let this' := snd (Submission_calculateScores Sample.scored Sample.P) in
   Submission_totalEvaluations this' = 3
   /\ Submission_averageScore this' = Some (Fin 90))
  /\ Submission_averageScore
       (snd (Submission_calculateScores Sample.thirds Sample.P))
     = Some (Fin (6215905735693653 # 70368744177664)%Q).
Proof.
  split.
  - destruct (calculateScores_mean Sample.scored Sample.P)
      as (Hn & _ & Hm & _).
    split; [exact Hn|].
    rewrite (Hm [80; 90; 100]%Z).
    + reflexivity.
    + discriminate.
    + repeat constructor; eexists; (split; [reflexivity|reflexivity]).
    + repeat constructor; lia.
    + reflexivity.
  - destruct (calculateScores_mean Sample.thirds Sample.P)
      as (_ & _ & Hm & _).
    rewrite (Hm [80; 90; 95]%Z).
    + reflexivity.
    + discriminate.
    + repeat constructor; eexists; (split; [reflexivity|reflexivity]).
    + repeat constructor; lia.
    + reflexivity.
Defined.

(** C1, as first worded, fails on two stores: a score that is NaN (which
    the validators of the column let through) has no arithmetic mean with
    80, and the stored average is 40; and the mean of 80, 90 and 95 is
    265/3, which no double is. *)
Lemma calculateScores_mean_counterexample :
  (Submission_averageScore
     (snd (Submission_calculateScores Sample.unrated Sample.P))
   = Some (Fin 40)
   /\ ~ average_is_mean Sample.unrated Sample.P)
  /\ (arithmetic_mean
        (map Evaluation_score
             (Submission_getEvaluations Sample.thirds Sample.P))
      = Some (265 # 3)%Q
      /\ ~ average_is_mean Sample.thirds Sample.P).
Proof.
  split; split.
  - reflexivity.
  - intros (m & q & Hm & _). discriminate Hm.
  - reflexivity.
  - intros (m & q & Hm & Hq & Heq).
    injection Hm as <-. vm_compute in Hq. injection Hq as <-.
    vm_compute in Heq. discriminate Heq.
Qed.
(* ------------------------------------------------------------------ *)
(** ** Creating submissions *)
(* ------------------------------------------------------------------ *)

Lemma SubmissionStatus_eqb_eq (a b : SubmissionStatus) :
  SubmissionStatus_eqb a b = true <-> a = b.
Proof. destruct a, b; simpl; split; congruence. Qed.

(** The include of [createSubmission] names no alias, and TeamMember is
    associated to Team under the alias [members] only: the lookup of a
    team by a key throws, whatever the store holds. *)
Lemma Team_findByPk_member_throws (db : DB) (teamId userId : uuid) :
  Team_findByPk_member db (Some teamId) userId = Throw EagerLoadingError.
Proof. reflexivity. Qed.

Section CreateSubmission.

Variable isUrl : string -> bool.
Variable uploadToStorage : File -> string -> option string -> option string.
Variable boolean_column : jsval -> option bool.



(** C7.  For a team that holds a non-deleted, non-draft submission for an
    open event, a further [createSubmission] for the pair creates no row,
    but it is not answered with the already-submitted rejection: the
    lookup of the team throws before the test for an earlier submission,
    and the answer is the 500 of the handler.  As no call writes, a store
    with at most one non-draft submission per team and event stays so. *)
Theorem createSubmission_conflict_unreached (db : DB) (user : User) (body : SubmissionBody)
        (file : option File) (now : timestamp) (newId : uuid)
        (teamId eventId : uuid) (event : Event) :
  body_teamId body = Some teamId ->
  body_eventId body = Some eventId ->
  Event_findByPk db (Some eventId) = Some event ->
  Event_isSubmissionOpen now event = true ->
  holds_nonDraft db teamId eventId ->
  let out := createSubmission isUrl uploadToStorage boolean_column
                              db user body file now newId in
  out = (db, create_failed_response)
  /\ res_status (snd out) = 500
  /\ snd out <> already_submitted_response
  /\ (at_most_one_nonDraft db -> at_most_one_nonDraft (fst out)).
Proof.
  intros Bt Be Fe Ho _ out.
  assert (E : out = (db, create_failed_response)).
  { subst out. unfold createSubmission. rewrite Be, Fe, Ho, Bt.
    cbn [negb]. rewrite Team_findByPk_member_throws. reflexivity. }
  rewrite E. cbn [fst snd]. repeat split.
  - discriminate.
  - intros H. exact H.
Qed.

(** C9.  An event whose [submissionDeadline] is [null] is never open for
    submissions, whatever the clock reads, and [createSubmission] for it
    answers with the closed-window rejection and writes nothing. *)
Theorem createSubmission_no_deadline (db : DB) (user : User)
        (body : SubmissionBody) (file : option File) (now : timestamp)
        (newId : uuid) (event : Event) :
  Event_findByPk db (body_eventId body) = Some event ->
  Event_submissionDeadline event = None ->
  Event_isSubmissionOpen now event = false
  /\ createSubmission isUrl uploadToStorage boolean_column db user body file now newId
     = (db, closed_response).
Proof.
  intros Fe Hd.
  assert (Ho : Event_isSubmissionOpen now event = false).
  { unfold Event_isSubmissionOpen. rewrite Hd. reflexivity. }
  split; [exact Ho|].
  unfold createSubmission. rewrite Fe, Ho.
  destruct (body_eventId body); reflexivity.
Qed.


End CreateSubmission.

Lemma createSubmission_conflict_unreached_witness :
  Sample.createSubmission Sample.submitted_once Sample.bob
                          (Sample.body "T1" "E1" None) None 500%Z "S2"
  = (Sample.submitted_once, create_failed_response)
  /\ at_most_one_nonDraft
       (fst (Sample.createSubmission Sample.submitted_once Sample.bob
               (Sample.body "T1" "E1" None) None 500%Z "S2")).
Proof.
  assert (Hheld : holds_nonDraft Sample.submitted_once "T1" "E1").
  { eexists. split; [left; reflexivity|]. simpl.
    repeat split; discriminate. }
  destruct (createSubmission_conflict_unreached
              Sample.isUrl Sample.uploadToStorage Sample.boolean_column
              Sample.submitted_once Sample.bob (Sample.body "T1" "E1" None)
              None 500%Z "S2" "T1" "E1" Sample.E1
              eq_refl eq_refl eq_refl eq_refl Hheld)
    as (Hout & _ & _ & Hinv).
  split; [exact Hout|].
  apply Hinv. intros teamId eventId. unfold nonDraft_rows. simpl.
  repeat match goal with
         | |- context [if ?c then _ else _] => destruct c
         end; simpl; lia.
Defined.

Lemma createSubmission_no_deadline_witness :
  Event_isSubmissionOpen 1500%Z Sample.E2 = false
  /\ Sample.createSubmission Sample.base Sample.dave
       (Sample.body "T3" "E2" None) None 1500%Z "S9"
     = (Sample.base, closed_response).
Proof.
  apply (createSubmission_no_deadline
           Sample.isUrl Sample.uploadToStorage Sample.boolean_column
           Sample.base Sample.dave (Sample.body "T3" "E2" None) None 1500%Z
           "S9" Sample.E2); reflexivity.
Defined.

(* ------------------------------------------------------------------ *)
(** ** The leaderboard *)
(* ------------------------------------------------------------------ *)

(** The query options of [getLeaderboard] read [sequelize], which the
    controller does not bind. *)
Lemma reference_sequelize :
  reference "sequelize" = Throw (ReferenceError "sequelize").
Proof. reflexivity. Qed.

(** And the grouped query selects the columns of the team, which it does
    not group by. *)
Lemma leaderboard_query_refused :
  grouped_select_allowed leaderboard_selected leaderboard_group = false.
Proof. reflexivity. Qed.

(** The three answers of [getLeaderboard]. *)
Lemma getLeaderboard_cases (db : DB) (user : option User) (eventId : uuid)
      (query : LeaderboardQuery) :
  match Event_findByPk db (Some eventId) with
  | None =>
      getLeaderboard db user eventId query = failure 404 "Event not found"
  | Some event =>
      match user with
      | Some u =>
          if String.eqb (Event_organizerId event) (User_id u)
          then getLeaderboard db user eventId query
               = failure 500 "Failed to fetch leaderboard"
          else getLeaderboard db user eventId query
               = failure 403 "Leaderboard is not public for this event"
      | None =>
          getLeaderboard db user eventId query
          = failure 403 "Leaderboard is not public for this event"
      end
  end.
Proof.
  unfold getLeaderboard.
  destruct (Event_findByPk db (Some eventId)) as [event|]; [|reflexivity].
  destruct user as [u|]; [|reflexivity].
  unfold Event_isLeaderboardPublic, User_roles.
  cbn [truthy includes_if_any bind negb andb].
  destruct (String.eqb (Event_organizerId event) (User_id u)); reflexivity.
Qed.

(** C3.  [getLeaderboard] lists nothing: whatever the store, the caller
    and the query, the answer is a failure without rows, 404 for an event
    that is not found, 403 for a caller who is not the organizer of the
    event, and 500 for the organizer, whose request reaches the query. *)
Theorem getLeaderboard_lists_nothing (db : DB) (user : option User) (eventId : uuid)
        (query : LeaderboardQuery) :
  let r := getLeaderboard db user eventId query in
  res_success r = false
  /\ rows_of r = []
  /\ (res_status r = 404 \/ res_status r = 403 \/ res_status r = 500)
  /\ (forall u event,
         user = Some u ->
         Event_findByPk db (Some eventId) = Some event ->
         Event_organizerId event = User_id u ->
         r = failure 500 "Failed to fetch leaderboard").
Proof.
  intros r. subst r.
  pose proof (getLeaderboard_cases db user eventId query) as H.
  destruct (Event_findByPk db (Some eventId)) as [event|].
  - destruct user as [u|].
    + destruct (String.eqb (Event_organizerId event) (User_id u)) eqn:Eo;
        rewrite H; repeat split; auto.
      intros u' event' Hu He Ho. injection Hu as <-. injection He as <-.
      apply String.eqb_neq in Eo. contradiction.
    + rewrite H. repeat split; auto. discriminate.
  - rewrite H. repeat split; auto. discriminate.
Qed.

(** The submissions A (90, two evaluations), B (90, five), C (none) and D
    (75, one) of event [E1] are not listed for its organizer. *)
Lemma getLeaderboard_lists_nothing_witness :
  getLeaderboard Sample.board (Some Sample.organizer) "E1"
                 (Sample.page None None)
  = failure 500 "Failed to fetch leaderboard"
  /\ map (fun s => (Submission_id s, averageScore Sample.board s,
                    evaluationCount Sample.board s))
         (leaderboard_scope Sample.board "E1")
     = [ ("A", Some (Fin 90), 2); ("B", Some (Fin 90), 5);
         ("C", None, 0); ("D", Some (Fin 75), 1) ].
Proof.
  split; [|reflexivity].
  destruct (getLeaderboard_lists_nothing Sample.board (Some Sample.organizer) "E1"
              (Sample.page None None)) as (_ & _ & _ & H).
  apply (H Sample.organizer Sample.E1); reflexivity.
Defined.

(** C4.  The answer of [getLeaderboard] does not depend on [limit] and
    [offset], and it carries no row, hence no rank: the handler fails
    before [rank: offset + index + 1] is evaluated. *)
Theorem getLeaderboard_no_rank (db : DB) (user : option User)
        (eventId : uuid) (query query' : LeaderboardQuery) :
  getLeaderboard db user eventId query = getLeaderboard db user eventId query'
  /\ map row_rank (rows_of (getLeaderboard db user eventId query)) = [].
Proof.
  pose proof (getLeaderboard_cases db user eventId query) as H.
  pose proof (getLeaderboard_cases db user eventId query') as H'.
  destruct (Event_findByPk db (Some eventId)) as [event|];
    [destruct user as [u|];
     [destruct (String.eqb (Event_organizerId event) (User_id u))|]|];
    rewrite H, H'; split; reflexivity.
Qed.

(** The pages [limit=2, offset=0] and [limit=2, offset=2] over the four
    submissions of [E1]: 500 for the organizer, 403 without a caller. *)
Lemma getLeaderboard_no_rank_witness :
  getLeaderboard Sample.board (Some Sample.organizer) "E1"
                 (Sample.page (Some "2") (Some "0"))
  = failure 500 "Failed to fetch leaderboard"
  /\ getLeaderboard Sample.board (Some Sample.organizer) "E1"
                    (Sample.page (Some "2") (Some "2"))
     = failure 500 "Failed to fetch leaderboard"
  /\ getLeaderboard Sample.board None "E1"
                    (Sample.page (Some "2") (Some "2"))
     = failure 403 "Leaderboard is not public for this event".
Proof.
  pose proof (getLeaderboard_no_rank Sample.board (Some Sample.organizer)
                "E1" (Sample.page (Some "2") (Some "0"))
                (Sample.page (Some "2") (Some "2"))) as (H & _).
  rewrite <- H. repeat split; reflexivity.
Defined.

(** X13.  For an event that is found, [getLeaderboard] answers 403
    exactly to the callers who are not its organizer, the request without
    a caller among them: no attribute of the event makes its leaderboard
    public, and no role of the caller opens it. *)
Theorem getLeaderboard_private (db : DB) (user : option User)
        (eventId : uuid) (query : LeaderboardQuery) (event : Event)
        (Hevent : Event_findByPk db (Some eventId) = Some event) :
  (res_status (getLeaderboard db user eventId query) = 403
   <-> forall u, user = Some u -> User_id u <> Event_organizerId event)
  /\ (res_status (getLeaderboard db user eventId query) = 403 ->
      getLeaderboard db user eventId query
      = failure 403 "Leaderboard is not public for this event").
Proof.
  pose proof (getLeaderboard_cases db user eventId query) as H.
  rewrite Hevent in H.
  destruct user as [u|].
  - destruct (String.eqb (Event_organizerId event) (User_id u)) eqn:Eo;
      rewrite H; cbn [res_status failure]; split.
    + split; [discriminate|]. intros Hu.
      apply String.eqb_eq in Eo. exfalso.
      apply (Hu u eq_refl). symmetry. exact Eo.
    + discriminate.
    + split; [|reflexivity]. intros _ u' Hu. injection Hu as <-.
      apply String.eqb_neq in Eo. congruence.
    + reflexivity.
  - rewrite H. cbn [res_status failure]. split; [|reflexivity].
    split; [|reflexivity]. intros _ u Hu. discriminate Hu.
Qed.

Lemma getLeaderboard_private_witness :
  res_status (getLeaderboard Sample.board (Some Sample.root) "E1"
                             (Sample.page None None)) = 403
  /\ res_status (getLeaderboard Sample.board None "E1"
                                (Sample.page None None)) = 403
  /\ res_status (getLeaderboard Sample.board (Some Sample.organizer) "E1"
                                (Sample.page None None)) <> 403.
Proof.
  split; [|split].
  - apply (getLeaderboard_private Sample.board (Some Sample.root) "E1"
             (Sample.page None None) Sample.E1 eq_refl).
    intros u Hu. injection Hu as <-. discriminate.
  - apply (getLeaderboard_private Sample.board None "E1"
             (Sample.page None None) Sample.E1 eq_refl).
    intros u Hu. discriminate Hu.
  - intros H.
    destruct (getLeaderboard_private Sample.board (Some Sample.organizer)
                "E1" (Sample.page None None) Sample.E1 eq_refl)
      as ((Hto & _) & _).
    apply (Hto H Sample.organizer eq_refl). reflexivity.
Defined.
(* ------------------------------------------------------------------ *)
(** ** Evaluating through the controller *)
(* ------------------------------------------------------------------ *)

(** No unique index of the Evaluation table covers exactly (submissionId,
    judgeId): the store refuses every upsert with that conflict target. *)
Lemma Evaluation_upsert_refused (float_column : jsval -> result num)
      (db : DB) (values : list (string * jsval)) (newId : uuid) :
  exists e,
    Evaluation_upsert float_column db values ["submissionId"; "judgeId"] newId
    = Throw e.
Proof.
  unfold Evaluation_upsert.
  destruct (Evaluation_build values newId) as [instance|e];
    [|exists e; reflexivity].
  cbn [bind].
  destruct (Evaluation_row_of float_column instance (Evaluation_blank newId))
    as [row|e]; [|exists e; reflexivity].
  exists DatabaseError. reflexivity.
Qed.

Section SubmitEvaluation.

Variable float_column : jsval -> result num.

(** C2.  No [submitEvaluation] writes: every call leaves the store as it
    is and answers 404, when the submission is not found, or else 500, so
    no sequence of calls leaves a row keyed by (S, J, R) that the store did
    not hold before.  The handler reads [req.user.roles], which the User
    that the middleware loads does not have; and the upsert it would reach
    names a conflict target that no unique index covers, so the store
    refuses it. *)
Theorem submitEvaluation_never_writes (db : DB) (user : User) (id : uuid)
        (body : EvaluationBody) (now : timestamp) (newId : uuid) :
  let out := submitEvaluation float_column db user id body now newId in
  fst out = db
  /\ res_success (snd out) = false
  /\ res_data (snd out) = None
  /\ match Submission_findByPk db id with
     | None => snd out = failure 404 "Submission not found"
     | Some _ => snd out = failure 500 "Failed to submit evaluation"
     end
  /\ includes (User_roles user) "admin" = Throw TypeError
  /\ (forall db0 values newId0,
         exists e,
           Evaluation_upsert float_column db0 values
                             ["submissionId"; "judgeId"] newId0
           = Throw e).
Proof.
  intros out. subst out. unfold submitEvaluation.
  cbn [included_association Submission_associations Event_associations
       filter fst snd String.eqb Ascii.eqb Bool.eqb existsb orb bind].
  destruct (Submission_findByPk db id) as [submission|].
  - destruct (Event_findByPk db (Some (Submission_eventId submission)))
      as [event|]; cbn [includes User_roles fst snd];
      repeat split; try reflexivity;
      intros; apply Evaluation_upsert_refused.
  - cbn [fst snd]. repeat split; try reflexivity.
    intros; apply Evaluation_upsert_refused.
Qed.

End SubmitEvaluation.

(** Judge1, an accepted judge of [E1], evaluates [P] twice: both calls are
    answered 500 and no Evaluation row is stored. *)
Lemma submitEvaluation_never_writes_witness :
  let first := Sample.payload 80 "Solid work" 8 15 in
  let second := Sample.payload 70 "Less convincing" 5 10 in
  let out1 :=
    Sample.submitEvaluation Sample.entered Sample.judge1 "P" first
                            100%Z "v1" in
  let out2 :=
    Sample.submitEvaluation (fst out1) Sample.judge1 "P" second 200%Z "v2" in
  accepted_judge Sample.entered "E1" "judge1"
  /\ snd out1 = failure 500 "Failed to submit evaluation"
  /\ snd out2 = failure 500 "Failed to submit evaluation"
  /\ evaluations (fst out2) = [].
Proof.
  intros first second out1 out2.
  destruct (submitEvaluation_never_writes Sample.float_column Sample.entered
              Sample.judge1 "P" first 100%Z "v1")
    as (Hdb1 & _ & _ & Hres1 & _).
  destruct (submitEvaluation_never_writes Sample.float_column (fst out1)
              Sample.judge1 "P" second 200%Z "v2")
    as (Hdb2 & _ & _ & Hres2 & _).
  split; [|split; [|split]].
  - eexists. split; [left; reflexivity|]. repeat split.
  - exact Hres1.
  - exact Hres2.
  - unfold out2, Sample.submitEvaluation. rewrite Hdb2.
    unfold out1, Sample.submitEvaluation. rewrite Hdb1. reflexivity.
Defined.
(* ------------------------------------------------------------------ *)
(** ** Submitting an evaluation instance *)
(* ------------------------------------------------------------------ *)

Section CriteriaValidation.

Variable criteriaScores : jsval.

(** Steps the loop over a criterion whose score is in range. *)
Ltac pass_criterion Hin Hq Hm H0 H1 :=
  rewrite Hin, Hq, Hm; simpl;
  apply Qle_bool_iff in H0, H1; unfold gtb, ltb; rewrite H0, H1; simpl.

Lemma check_criteria_ok (criteria : list Criterion) :
  Forall (scored_in_range criteriaScores) criteria ->
  check_criteria criteria criteriaScores = Ok tt.
Proof.
  induction 1 as [|c l (Hin & q & m & Hq & Hm & H0 & H1) _ IH]; simpl;
    [reflexivity|].
  pass_criterion Hin Hq Hm H0 H1. exact IH.
Qed.

Lemma check_criteria_missing (before after : list Criterion) (c : Criterion) :
  Forall (scored_in_range criteriaScores) before ->
  score_missing criteriaScores c ->
  check_criteria (before ++ c :: after) criteriaScores
  = Throw (Error (required_message (Criterion_name c))).
Proof.
  induction 1 as [|c' l (Hin & q & m & Hq & Hm & H0 & H1) _ IH]; simpl;
    intros Hc.
  - rewrite Hc. reflexivity.
  - pass_criterion Hin Hq Hm H0 H1. apply IH. exact Hc.
Qed.

Lemma check_criteria_out_of_range (before after : list Criterion)
      (c : Criterion) :
  Forall (scored_in_range criteriaScores) before ->
  score_out_of_range criteriaScores c ->
  check_criteria (before ++ c :: after) criteriaScores
  = Throw (Error (invalid_message (Criterion_name c))).
Proof.
  induction 1 as [|c' l (Hin & q & m & Hq & Hm & H0 & H1) _ IH]; simpl;
    intros Hc.
  - destruct Hc as (Hin & m & Hm & Hc). rewrite Hin, Hm.
    destruct (parseFloat_at (Criterion_id c) criteriaScores) as [| [] | q];
      try reflexivity.
    simpl. unfold gtb, ltb. destruct Hc as [Hneg|Hgt].
    + apply Qlt_not_le in Hneg.
      destruct (Qle_bool 0 q) eqn:E; [|reflexivity].
      apply Qle_bool_iff in E. contradiction.
    + apply Qlt_not_le in Hgt.
      destruct (Qle_bool q m) eqn:E.
      * apply Qle_bool_iff in E. contradiction.
      * simpl. rewrite orb_true_r. reflexivity.
  - pass_criterion Hin Hq Hm H0 H1. apply IH. exact Hc.
Qed.

(** On a plain object, every criterion with a finite maximum is in exactly
    one of the three situations. *)
Lemma criterion_cases (props : list (string * jsval)) (c : Criterion) (m : Q) :
  criteriaScores = JObj props ->
  Criterion_maxScore c = Fin m ->
  scored_in_range criteriaScores c
  \/ score_missing criteriaScores c
  \/ score_out_of_range criteriaScores c.
Proof.
  intros -> Hm.
  unfold scored_in_range, score_missing, score_out_of_range.
  destruct (has_property (Criterion_id c) (JObj props)) as [[|]|] eqn:Hin;
    [|right; left; reflexivity|discriminate].
  destruct (parseFloat_at (Criterion_id c) (JObj props)) as [| [] | q] eqn:Hq;
    try (right; right; split; [reflexivity|exists m; split; [exact Hm|exact I]]).
  destruct (Qlt_le_dec q 0) as [Hneg|H0];
    [right; right; split; [reflexivity|];
     exists m; split; [exact Hm|left; exact Hneg]|].
  destruct (Qlt_le_dec m q) as [Hgt|H1].
  - right; right. split; [reflexivity|].
    exists m. split; [exact Hm|right; exact Hgt].
  - left. split; [reflexivity|]. exists q, m. repeat split; assumption.
Qed.

End CriteriaValidation.

Section Submit.

Variable float_column : jsval -> result num.
Variable db : DB.
Variable this : EvaluationInstance.
Variable submission : Submission.
Variable event : Event.

Hypothesis Hdraft : inst_status this = E_draft.
Hypothesis Hsubmission :
  Evaluation_getSubmission db (inst_submissionId this) = Some submission.
Hypothesis Hevent :
  Event_findByPk db (Some (Submission_eventId submission)) = Some event.

Let criteria := criteria_of event.
Let criteriaScores := criteriaScores_of this.

(** The instance that [submit] saves once the criteria are accepted. *)
Let accepted : EvaluationInstance :=
  inst_set_status
    (if negb (truthy (inst_score this))
     then inst_set_score this (criteria_total criteriaScores)
     else this)
    E_submitted.

Lemma Evaluation_submit_unfold :
  Evaluation_submit float_column db this
  = match check_criteria criteria criteriaScores with
    | Throw e => (db, Throw e)
    | Ok _ => Evaluation_save float_column db accepted
    end.
Proof.
  unfold Evaluation_submit. rewrite Hdraft, Hsubmission, Hevent. reflexivity.
Qed.

(** C5.  When every criterion of the event has a score in
    [criteriaScores] that is numeric and within [[0, maxScore]], [submit]
    passes the validation and goes on to save.  Otherwise it throws at the
    first criterion that has not: an error naming that criterion as
    required when its score is missing, as invalid when the score is not a
    number or out of range.  On a plain object, a criterion with a numeric
    maximum is always in one of these three cases. *)
Theorem Evaluation_submit_criteria :
  (Forall (scored_in_range criteriaScores) criteria ->
   Evaluation_submit float_column db this
   = Evaluation_save float_column db accepted)
  /\ (forall before c after,
         criteria = before ++ c :: after ->
         Forall (scored_in_range criteriaScores) before ->
         (score_missing criteriaScores c ->
          Evaluation_submit float_column db this
          = (db, Throw (Error (required_message (Criterion_name c)))))
         /\ (score_out_of_range criteriaScores c ->
             Evaluation_submit float_column db this
             = (db, Throw (Error (invalid_message (Criterion_name c))))))
  /\ (forall props c m,
         criteriaScores = JObj props ->
         In c criteria ->
         Criterion_maxScore c = Fin m ->
         scored_in_range criteriaScores c
         \/ score_missing criteriaScores c
         \/ score_out_of_range criteriaScores c).
Proof.
  rewrite Evaluation_submit_unfold. split; [|split].
  - intros Hall. rewrite (check_criteria_ok _ _ Hall). reflexivity.
  - intros before c after -> Hbefore. split; intros Hc.
    + rewrite (check_criteria_missing _ _ _ _ Hbefore Hc). reflexivity.
    + rewrite (check_criteria_out_of_range _ _ _ _ Hbefore Hc). reflexivity.
  - intros props c m Hobj _ Hm. eapply criterion_cases; eassumption.
Qed.

End Submit.

Lemma Evaluation_submit_criteria_witness :
  let submit cs :=
    Sample.Evaluation_submit Sample.registered
      (Sample.draft_evaluation "Y" JUndefined (JObj cs)) in
  submit [("c1", JNum (Fin 11))]
  = (Sample.registered, Throw (Error (invalid_message "c1")))
  /\ submit [] = (Sample.registered, Throw (Error (required_message "c1")))
  /\ exists db' row,
       submit [("c1", JNum (Fin 10))] = (db', Ok (Some row))
       /\ Evaluation_score row = Fin 10.
Proof.
  intros submit. subst submit.
  assert (H : forall cs,
             let this := Sample.draft_evaluation "Y" JUndefined (JObj cs) in
             inst_status this = E_draft
             /\ Evaluation_getSubmission Sample.registered
                                         (inst_submissionId this)
                = Some (Sample.submission "Y" "E2" "T3" S_submitted)
             /\ Event_findByPk Sample.registered (Some "E2")
                = Some Sample.E2).
  { intros cs. repeat split. }
  split; [|split].
  - destruct (H [("c1", JNum (Fin 11))]) as (H1 & H2 & H3).
    destruct (Evaluation_submit_criteria Sample.float_column _ _ _ _ H1 H2 H3)
      as (_ & Hthrow & _).
    destruct (Hthrow [] Sample.E2_criterion [] eq_refl (Forall_nil _))
      as (_ & Hout).
    apply Hout. split; [reflexivity|].
    exists 10%Q. split; [reflexivity|]. right. reflexivity.
  - destruct (H []) as (H1 & H2 & H3).
    destruct (Evaluation_submit_criteria Sample.float_column _ _ _ _ H1 H2 H3)
      as (_ & Hthrow & _).
    destruct (Hthrow [] Sample.E2_criterion [] eq_refl (Forall_nil _))
      as (Hmiss & _).
    apply Hmiss. reflexivity.
  - destruct (H [("c1", JNum (Fin 10))]) as (H1 & H2 & H3).
    destruct (Evaluation_submit_criteria Sample.float_column _ _ _ _ H1 H2 H3)
      as (Hpass & _).
    unfold Sample.Evaluation_submit. rewrite Hpass.
    + do 2 eexists. split; reflexivity.
    + repeat constructor. exists 10%Q, 10%Q.
      repeat split; try reflexivity; discriminate.
Defined.

(** The score of a criterion is what [parseFloat] reads, a double: a text
    that exceeds the maximum by less than the rounding reads as the
    maximum and is in range. *)
Lemma scored_in_range_rounded :
  let criteriaScores := JObj [("c1", JStr "10.0000000000000000001")] in
  let out :=
    Sample.Evaluation_submit Sample.registered
      (Sample.draft_evaluation "Y" JUndefined criteriaScores) in
  scored_in_range criteriaScores Sample.E2_criterion
  /\ snd out = Ok (Some (saved_row (snd out)))
  /\ Evaluation_score (saved_row (snd out)) = Fin 10.
Proof.
  intros criteriaScores out. split; [|split].
  - split; [reflexivity|]. exists 10%Q, 10%Q.
    split; [vm_compute; reflexivity|].
    repeat split; try reflexivity; discriminate.
  - vm_compute. reflexivity.
  - vm_compute. reflexivity.
Qed.
(* ------------------------------------------------------------------ *)
(** ** The score computed by [submit] *)
(* ------------------------------------------------------------------ *)

(** The total that [submit] computes is the sum of the values as
    [parseFloat] reads them, added from 0 in their order. *)
Lemma criteria_total_sum (criteriaScores : jsval) :
  criteria_total criteriaScores
  = double_sum (map parseFloat (values criteriaScores)).
Proof.
  unfold criteria_total, double_sum. generalize zero.
  induction (values criteriaScores) as [|v l IH]; intros a; simpl;
    [reflexivity|apply IH].
Qed.

Lemma Evaluation_beforeSave_evaluations (db : DB) (i : EvaluationInstance) :
  evaluations (Evaluation_beforeSave db i) = evaluations db.
Proof.
  unfold Evaluation_beforeSave.
  destruct (inst_has_changed i "score"); [|reflexivity].
  destruct (inst_submissionId i); [|reflexivity].
  destruct (Evaluation_getSubmission db (Some u)); [|reflexivity].
  unfold Submission_calculateScores.
  destruct (List.length _); reflexivity.
Qed.

Lemma inst_has_changed_accepted (this : EvaluationInstance) (total : num) :
  inst_has_changed (inst_set_status (inst_set_score this total) E_submitted)
                   "score"
  = negb (isEqual_num (inst_score this) total) || inst_has_changed this "score".
Proof.
  unfold inst_has_changed, inst_set_status, inst_set_score. simpl.
  destruct (EvaluationStatus_eqb (inst_status this) E_submitted),
           (isEqual_num (inst_score this) total); reflexivity.
Qed.

Lemma isEqual_num_equiv (old : jsval) (n : num) :
  isEqual_num old n = true -> exists m, old = JNum m /\ num_equiv m n.
Proof.
  destruct old as [| | | m | |]; try discriminate.
  intros H. exists m. split; [reflexivity|].
  destruct m as [|s|x], n as [|t|y]; try discriminate; simpl in *.
  - reflexivity.
  - apply Bool.eqb_prop in H. subst. reflexivity.
  - apply Qeq_bool_iff. exact H.
Qed.

Lemma Evaluation_row_of_score (float_column : jsval -> result num)
      (i : EvaluationInstance) (base row : Evaluation) :
  Evaluation_row_of float_column i base = Ok row ->
  if inst_isNewRecord i || inst_has_changed i "score"
  then Evaluation_validate_score float_column (inst_score i)
       = Ok (Evaluation_score row)
  else Evaluation_score row = Evaluation_score base.
Proof.
  unfold Evaluation_row_of.
  destruct (inst_isNewRecord i || inst_has_changed i "score").
  - destruct (Evaluation_validate_score float_column (inst_score i));
      [|discriminate].
    cbn [bind].
    repeat match goal with
           | |- bind ?r _ = _ -> _ => destruct r; cbn [bind]; [|discriminate]
           end.
    intros H. injection H as <-. reflexivity.
  - cbn [bind].
    repeat match goal with
           | |- bind ?r _ = _ -> _ => destruct r; cbn [bind]; [|discriminate]
           end.
    intros H. injection H as <-. reflexivity.
Qed.

(** A successful [save] that reports a row has written it to the store, on
    top of the stored row with the same key if the record is not new, and
    the row clashes with no other on the unique index. *)
Lemma Evaluation_save_written (float_column : jsval -> result num)
      (db db' : DB) (i : EvaluationInstance) (row : Evaluation) :
  Evaluation_save float_column db i = (db', Ok (Some row)) ->
  In row (evaluations db')
  /\ clashes row (evaluations db) = false
  /\ exists base,
       Evaluation_row_of float_column i base = Ok row
       /\ (inst_isNewRecord i = false ->
           find (fun r => String.eqb (Evaluation_id r) (inst_id i))
                (evaluations db) = Some base).
Proof.
  unfold Evaluation_save.
  set (stored := find _ (evaluations db)).
  destruct (Evaluation_row_of float_column i _) as [row0|] eqn:Hrow;
    [|discriminate].
  rewrite Evaluation_beforeSave_evaluations.
  destruct (inst_isNewRecord i) eqn:Hnew.
  - destruct stored eqn:Hst; [discriminate|].
    destruct (clashes row0 (evaluations db)) eqn:Hc; [discriminate|].
    intros H. injection H as <- <-. split; [|split].
    + simpl. apply in_or_app. right. left. reflexivity.
    + exact Hc.
    + eexists. split; [exact Hrow|discriminate].
  - destruct stored as [r|] eqn:Hst; [|discriminate].
    destruct (clashes row0 (evaluations db)) eqn:Hc; [discriminate|].
    intros H. injection H as <- <-. split; [|split].
    + simpl. subst stored. apply find_some in Hst. destruct Hst as (Hin & Hid).
      apply in_map_iff. exists r. rewrite Hid. split; [reflexivity|exact Hin].
    + exact Hc.
    + exists r. split; [exact Hrow|]. intros _. reflexivity.
Qed.

Lemma num_equiv_refl (n : num) : num_equiv n n.
Proof. destruct n; simpl; reflexivity. Qed.

Lemma num_equiv_integer (n m : num) (z : Z) :
  num_equiv n m -> m = Fin (inject_Z z) -> is_integer n z.
Proof.
  intros H ->. destruct n as [|[]|q]; simpl in H; try discriminate.
  exists q. split; [reflexivity|exact H].
Qed.

Section SubmitScore.

Variable float_column : jsval -> result num.

(** The store keeps a number as it is. *)
Hypothesis float_column_number :
  forall n, float_column (JNum n) = Ok n.

Lemma validate_score_number (n s : num) :
  Evaluation_validate_score float_column (JNum n) = Ok s -> s = n.
Proof.
  unfold Evaluation_validate_score. cbn [parseFloat].
  destruct (_ && _); [|discriminate].
  rewrite float_column_number. intros H. injection H as <-. reflexivity.
Qed.

(** When [submit] finds the score falsy and succeeds, the row it stores
    carries the total of the values of [criteriaScores]. *)
Lemma Evaluation_submit_total (db db' : DB) (this : EvaluationInstance)
      (row : Evaluation) :
  Evaluation_submit float_column db this = (db', Ok (Some row)) ->
  truthy (inst_score this) = false ->
  ((forall n, inst_score this <> JNum n) ->
   Evaluation_score row = criteria_total (criteriaScores_of this))
  /\ (score_in_sync db this ->
      num_equiv (Evaluation_score row)
                (criteria_total (criteriaScores_of this)))
  /\ In row (evaluations db').
Proof.
  unfold Evaluation_submit. intros Hok Hfalsy.
  destruct (EvaluationStatus_eqb (inst_status this) E_submitted);
    [discriminate|].
  destruct (Evaluation_getSubmission db (inst_submissionId this));
    [|discriminate].
  destruct (Event_findByPk db _); [|discriminate].
  fold (criteriaScores_of this) in Hok.
  destruct (check_criteria _ _); [|discriminate].
  rewrite Hfalsy in Hok. cbn [negb] in Hok.
  set (total := criteria_total (criteriaScores_of this)) in *.
  apply Evaluation_save_written in Hok.
  destruct Hok as (Hin & _ & base & Hrow & Hbase).
  apply Evaluation_row_of_score in Hrow.
  rewrite inst_has_changed_accepted in Hrow.
  change (inst_isNewRecord (inst_set_status (inst_set_score this total)
                                            E_submitted))
    with (inst_isNewRecord this) in *.
  change (inst_id (inst_set_status (inst_set_score this total) E_submitted))
    with (inst_id this) in *.
  change (inst_score (inst_set_status (inst_set_score this total)
                                      E_submitted))
    with (JNum total) in *.
  destruct (inst_isNewRecord this
            || (negb (isEqual_num (inst_score this) total)
                || inst_has_changed this "score")) eqn:W.
  - apply validate_score_number in Hrow.
    split; [intros _; exact Hrow|]. split; [|exact Hin].
    intros _. rewrite Hrow. apply num_equiv_refl.
  - apply orb_false_iff in W. destruct W as (Hnew & W).
    apply orb_false_iff in W. destruct W as (Heq & Hch).
    apply negb_false_iff in Heq.
    destruct (isEqual_num_equiv _ _ Heq) as (m & Hm & Hequiv).
    split; [intros Hnot; exfalso; exact (Hnot m Hm)|].
    split; [|exact Hin].
    intros Hsync.
    destruct (Hsync Hnew Hch) as (r & Hfind & Hr).
    rewrite (Hbase Hnew) in Hfind. injection Hfind as ->.
    rewrite Hm in Hr. injection Hr as ->.
    rewrite Hrow. exact Hequiv.
Qed.

(** C6.  An evaluation submitted with no score of its own ([undefined] or
    [null]) is stored with the plain sum of the values of its
    [criteriaScores], as [parseFloat] reads them and as doubles add, from
    0 in their order: no division by their number, no rescaling.  When
    the values read as non-negative integers with a sum below [2^53], the
    stored score is that sum exactly. *)
Theorem Evaluation_submit_default_score (db db' : DB)
        (this : EvaluationInstance) (row : Evaluation) :
  inst_score this = JUndefined \/ inst_score this = JNull ->
  Evaluation_submit float_column db this = (db', Ok (Some row)) ->
  Evaluation_score row
  = double_sum (map parseFloat (values (criteriaScores_of this)))
  /\ (forall zs,
         Forall2 is_integer (map parseFloat (values (criteriaScores_of this)))
                 zs ->
         Forall (fun z => (0 <= z)%Z) zs ->
         (Zsum zs < 2 ^ 53)%Z ->
         Evaluation_score row = Fin (inject_Z (Zsum zs)))
  /\ In row (evaluations db').
Proof.
  intros Hscore Hok.
  assert (Hfalsy : truthy (inst_score this) = false).
  { destruct Hscore as [-> | ->]; reflexivity. }
  destruct (Evaluation_submit_total db db' this row Hok Hfalsy)
    as (Hexact & _ & Hin).
  assert (Hrow : Evaluation_score row
                 = double_sum (map parseFloat
                                   (values (criteriaScores_of this)))).
  { rewrite <- criteria_total_sum. apply Hexact.
    intros n Hn. destruct Hscore as [H|H]; rewrite H in Hn; discriminate. }
  split; [exact Hrow|]. split; [|exact Hin].
  intros zs Hint Hpos Hsum. rewrite Hrow. unfold double_sum, zero.
  change 0%Q with (inject_Z 0).
  rewrite (double_sum_integers _ zs Hint Hpos 0%Z) by lia.
  rewrite Z.add_0_l. reflexivity.
Qed.

(** C10.  Whenever [submit] finds the score falsy, an explicit [0]
    included, the stored score is the sum of the values of
    [criteriaScores] (as [parseFloat] reads them and as doubles add): the
    zero is not kept. *)
Theorem Evaluation_submit_falsy_score (db db' : DB)
        (this : EvaluationInstance) (row : Evaluation) :
  truthy (inst_score this) = false ->
  score_in_sync db this ->
  Evaluation_submit float_column db this = (db', Ok (Some row)) ->
  num_equiv (Evaluation_score row)
            (double_sum (map parseFloat (values (criteriaScores_of this))))
  /\ (forall zs,
         Forall2 is_integer (map parseFloat (values (criteriaScores_of this)))
                 zs ->
         Forall (fun z => (0 <= z)%Z) zs ->
         (Zsum zs < 2 ^ 53)%Z ->
         is_integer (Evaluation_score row) (Zsum zs))
  /\ In row (evaluations db').
Proof.
  intros Hfalsy Hsync Hok.
  destruct (Evaluation_submit_total db db' this row Hok Hfalsy)
    as (_ & Hequiv & Hin).
  specialize (Hequiv Hsync). rewrite criteria_total_sum in Hequiv.
  split; [exact Hequiv|]. split; [|exact Hin].
  intros zs Hint Hpos Hsum.
  apply (num_equiv_integer _ _ _ Hequiv).
  unfold double_sum, zero. change 0%Q with (inject_Z 0).
  rewrite (double_sum_integers _ zs Hint Hpos 0%Z) by lia.
  rewrite Z.add_0_l. reflexivity.
Qed.

End SubmitScore.

(** With criteria scores 8 and '15' the stored score is 23, neither the
    average 11.5 nor a rescaled value; with '0.1' and '0.2' it is the
    double 0.30000000000000004. *)
Lemma Evaluation_submit_default_score_witness :
  (let this :=
     Sample.draft_evaluation "P" JUndefined
       (JObj [("c1", JNum (Fin 8)); ("c2", JStr "15")]) in
   let out := Sample.Evaluation_submit Sample.entered this in
   snd out = Ok (Some (saved_row (snd out)))
   /\ Evaluation_score (saved_row (snd out)) = Fin 23)
  /\ (let this :=
        Sample.draft_evaluation "P" JUndefined
          (JObj [("c1", JStr "0.1"); ("c2", JStr "0.2")]) in
      let out := Sample.Evaluation_submit Sample.entered this in
      snd out = Ok (Some (saved_row (snd out)))
      /\ Evaluation_score (saved_row (snd out))
         = Fin (1351079888211149 # 4503599627370496)%Q).
Proof.
  split; intros this out; (split; [vm_compute; reflexivity|]).
  - destruct (Evaluation_submit_default_score
                Sample.float_column (fun n => eq_refl) Sample.entered
                (fst out) this (saved_row (snd out))
                (or_introl eq_refl) eq_refl)
      as (_ & Hint & _).
    apply (Hint [8; 15]%Z).
    + apply Forall2_cons; [|apply Forall2_cons; [|apply Forall2_nil]].
      * exists 8%Q. split; reflexivity.
      * exists 15%Q. split; [vm_compute; reflexivity|reflexivity].
    + repeat constructor; lia.
    + reflexivity.
  - destruct (Evaluation_submit_default_score
                Sample.float_column (fun n => eq_refl) Sample.entered
                (fst out) this (saved_row (snd out))
                (or_introl eq_refl) eq_refl)
      as (Hsum & _).
    rewrite Hsum. vm_compute. reflexivity.
Defined.

Lemma Evaluation_submit_falsy_score_witness :
  let this :=
    Sample.draft_evaluation "P" (JNum (Fin 0))
      (JObj [("c1", JNum (Fin 5)); ("c2", JNum (Fin 7))]) in
  let out := Sample.Evaluation_submit Sample.entered this in
  snd out = Ok (Some (saved_row (snd out)))
  /\ is_integer (Evaluation_score (saved_row (snd out))) 12
  /\ ~ is_integer (Evaluation_score (saved_row (snd out))) 0.
Proof.
  intros this out. split; [vm_compute; reflexivity|].
  assert (Hsync : score_in_sync Sample.entered this).
  { intros Hnew. discriminate Hnew. }
  destruct (Evaluation_submit_falsy_score
              Sample.float_column (fun n => eq_refl) Sample.entered
              (fst out) this (saved_row (snd out))
              eq_refl Hsync eq_refl)
    as (_ & Hint & _).
  assert (H12 : is_integer (Evaluation_score (saved_row (snd out))) 12).
  { apply (Hint [5; 7]%Z).
    - apply Forall2_cons; [|apply Forall2_cons; [|apply Forall2_nil]].
      + exists 5%Q. split; reflexivity.
      + exists 7%Q. split; reflexivity.
    - repeat constructor; lia.
    - reflexivity. }
  split; [exact H12|].
  intros (q0 & Hq0 & Hz). destruct H12 as (q & Hq & Hz12).
  rewrite Hq in Hq0. injection Hq0 as <-.
  rewrite Hz in Hz12. discriminate Hz12.
Defined.
(* ------------------------------------------------------------------ *)
(** ** Saving and submitting evaluations *)
(* ------------------------------------------------------------------ *)

Lemma calculateScores_evaluations (db : DB) (s : Submission) :
  evaluations (fst (Submission_calculateScores db s)) = evaluations db.
Proof.
  unfold Submission_calculateScores.
  destruct (List.length _); reflexivity.
Qed.

Lemma Submission_findByPk_some (db : DB) (id : uuid) (s : Submission) :
  Submission_findByPk db id = Some s ->
  In s (submissions db) /\ Submission_id s = id
  /\ Submission_deletedAt s = None.
Proof.
  unfold Submission_findByPk. intros F. apply find_some in F.
  destruct F as (Hin & Hb). apply andb_prop in Hb. destruct Hb as (Hl & He).
  apply String.eqb_eq in He. unfold live in Hl.
  destruct (Submission_deletedAt s); [discriminate|]. auto.
Qed.


(** What [save] writes for the keys and the status of a new record or of
    changed attributes. *)
Lemma Evaluation_row_of_keys (float_column : jsval -> result num)
      (i : EvaluationInstance) (base r : Evaluation) :
  Evaluation_row_of float_column i base = Ok r ->
  Evaluation_id r = inst_id i
  /\ Evaluation_deletedAt r = Evaluation_deletedAt base
  /\ (inst_isNewRecord i || inst_has_changed i "submissionId" = true ->
      Evaluation_submissionId r = inst_submissionId i)
  /\ (inst_isNewRecord i || inst_has_changed i "status" = true ->
      Evaluation_status r = inst_status i).
Proof.
  unfold Evaluation_row_of.
  repeat match goal with
         | |- bind ?r _ = _ -> _ => destruct r; cbn [bind]; [|discriminate]
         end.
  intros H. injection H as <-. cbn.
  repeat split; intros ->; reflexivity.
Qed.

Section EvaluationModel.

Variable float_column : jsval -> result num.

(** X5.  The [beforeSave] hook runs before the row is written: when a new
    evaluation of a submission is saved, the aggregate that the hook stores
    for the submission counts the evaluations as they were before, one
    fewer than the store then holds. *)
Theorem Evaluation_save_stale_aggregate (db db' : DB)
        (this : EvaluationInstance) (row : Evaluation) (sid : uuid)
        (s : Submission)
        (Hsave : Evaluation_save float_column db this = (db', Ok (Some row)))
        (Hnew : inst_isNewRecord this = true)
        (Hscore : inst_has_changed this "score" = true)
        (Hsid : inst_submissionId this = Some sid)
        (Hs : Submission_findByPk db sid = Some s) :
  (forall r, In r (submissions db') -> Submission_id r = sid ->
             Submission_totalEvaluations r = evaluationCount db s)
  /\ evaluationCount db' s = S (evaluationCount db s).
Proof.
  revert Hsave. unfold Evaluation_save.
  destruct (Evaluation_row_of float_column this _) as [row0|] eqn:Hrow;
    [|discriminate].
  rewrite Hnew.
  destruct (find _ (evaluations db)); [discriminate|].
  destruct (clashes row0 _); [discriminate|].
  intros H. injection H as <- <-.
  apply Evaluation_row_of_keys in Hrow.
  destruct Hrow as (_ & Hd & Hsub & _).
  rewrite Hnew in Hsub. specialize (Hsub eq_refl). rewrite Hsid in Hsub.
  cbn [Evaluation_deletedAt Evaluation_blank] in Hd.
  pose proof (Submission_findByPk_some _ _ _ Hs) as (_ & Hid & _).
  unfold Evaluation_beforeSave. rewrite Hscore, Hsid.
  cbn [Evaluation_getSubmission]. rewrite Hs. split.
  - cbn [submissions set_evaluations]. intros r Hin Hr.
    unfold Submission_calculateScores in Hin. unfold evaluationCount.
    destruct (Submission_getEvaluations db s) eqn:G;
      cbn [List.length fst] in Hin;
      apply Submission_save_rows in Hin;
      try (cbn [Submission_id Submission_with_scores]; congruence);
      destruct Hin as (_ & Ht); rewrite Ht; reflexivity.
  - unfold evaluationCount, Submission_getEvaluations.
    cbn [evaluations set_evaluations].
    rewrite calculateScores_evaluations, filter_app, length_app.
    cbn [filter]. unfold live at 2. rewrite Hd, Hsub, Hid.
    cbn [opt_eqb]. rewrite String.eqb_refl. cbn. lia.
Qed.

(** X6.  A successful [submit] stores the evaluation under its key with
    status [submitted], so the evaluation as then loaded from the store
    cannot be submitted a second time, whatever the store has become. *)
Theorem Evaluation_submit_once (db db' : DB) (this : EvaluationInstance)
        (row : Evaluation)
        (Hok : Evaluation_submit float_column db this = (db', Ok (Some row))) :
  In row (evaluations db')
  /\ Evaluation_id row = inst_id this
  /\ Evaluation_status row = E_submitted
  /\ forall later,
       Evaluation_submit float_column later (loaded row)
       = (later, Throw (Error "Evaluation has already been submitted")).
Proof.
  revert Hok. unfold Evaluation_submit at 1.
  destruct (EvaluationStatus_eqb (inst_status this) E_submitted) eqn:Est;
    [discriminate|].
  destruct (Evaluation_getSubmission db (inst_submissionId this));
    [|discriminate].
  destruct (Event_findByPk db _); [|discriminate].
  destruct (check_criteria _ _); [|discriminate].
  intros Hok. apply Evaluation_save_written in Hok.
  destruct Hok as (Hin & _ & base & Hrow & _).
  apply Evaluation_row_of_keys in Hrow.
  destruct Hrow as (Hid & _ & _ & Hst).
  assert (Hstatus : Evaluation_status row = E_submitted).
  { apply Hst. unfold inst_has_changed, inst_set_status.
    cbn [inst_changed inst_isNewRecord].
    match goal with
    | |- context [EvaluationStatus_eqb (inst_status ?i) E_submitted] =>
        replace (EvaluationStatus_eqb (inst_status i) E_submitted) with false
    end.
    - cbn. rewrite orb_true_r. reflexivity.
    - destruct (negb (truthy (inst_score this))); cbn; rewrite Est;
        reflexivity. }
  split; [exact Hin|]. split.
  - rewrite Hid. destruct (negb (truthy (inst_score this))); reflexivity.
  - split; [exact Hstatus|]. intros later. unfold Evaluation_submit.
    cbn [loaded inst_status]. rewrite Hstatus. reflexivity.
Qed.

(** X7.  A [submit] that is refused writes nothing: whatever it throws,
    short of the store's own refusal of the INSERT, the store is as it
    was. *)
Theorem Evaluation_submit_refused (db : DB) (this : EvaluationInstance)
        (e : exn)
        (Hthrow : snd (Evaluation_submit float_column db this) = Throw e)
        (He : e <> DatabaseError) :
  fst (Evaluation_submit float_column db this) = db.
Proof.
  revert Hthrow. unfold Evaluation_submit.
  destruct (EvaluationStatus_eqb (inst_status this) E_submitted);
    [reflexivity|].
  destruct (Evaluation_getSubmission db (inst_submissionId this));
    [|reflexivity].
  destruct (Event_findByPk db _); [|reflexivity].
  destruct (check_criteria _ _); [|reflexivity].
  unfold Evaluation_save.
  destruct (Evaluation_row_of float_column _ _); [|reflexivity].
  destruct (inst_isNewRecord _); destruct (find _ (evaluations db));
    try destruct (clashes _ _);
    cbn [fst snd]; try discriminate;
    intros H; injection H as <-; contradiction.
Qed.

(** X8.  When the criteria scores pass the check of [submit] but their
    sum, as the doubles add up, is more than 100, an evaluation with no
    score of its own cannot be submitted: the total is refused as the
    score and nothing is written.  An event whose criteria maxima exceed
    100 in sum therefore rejects its best evaluations. *)
Theorem Evaluation_submit_total_over_100 (db : DB)
        (this : EvaluationInstance) (submission : Submission) (event : Event)
        (t : Q)
        (Hdraft : inst_status this = E_draft)
        (Hsubmission : Evaluation_getSubmission db (inst_submissionId this)
                       = Some submission)
        (Hevent : Event_findByPk db (Some (Submission_eventId submission))
                  = Some event)
        (Hcriteria : Forall (scored_in_range (criteriaScores_of this))
                            (criteria_of event))
        (Hscore : inst_score this = JUndefined \/ inst_score this = JNull)
        (Htotal : double_sum (map parseFloat
                                  (values (criteriaScores_of this)))
                  = Fin t)
        (Hsum : (100 < t)%Q) :
  Evaluation_submit float_column db this
  = (db, Throw (ValidationError "score")).
Proof.
  rewrite (Evaluation_submit_unfold float_column db this submission event
             Hdraft Hsubmission Hevent).
  rewrite (check_criteria_ok _ _ Hcriteria).
  rewrite <- criteria_total_sum in Htotal.
  assert (Hfalsy : truthy (inst_score this) = false).
  { destruct Hscore as [-> | ->]; reflexivity. }
  rewrite Hfalsy. cbn [negb].
  fold (criteriaScores_of this). rewrite Htotal.
  unfold Evaluation_save.
  assert (Hrow : forall base,
             Evaluation_row_of float_column
               (inst_set_status (inst_set_score this (Fin t)) E_submitted) base
             = Throw (ValidationError "score")).
  { intros base. unfold Evaluation_row_of.
    rewrite inst_has_changed_accepted.
    replace (isEqual_num (inst_score this) (Fin t)) with false
      by (destruct Hscore as [-> | ->]; reflexivity).
    cbn [negb orb]. rewrite orb_true_r.
    change (inst_score (inst_set_status (inst_set_score this (Fin t))
                                        E_submitted))
      with (JNum (Fin t)).
    unfold Evaluation_validate_score. cbn [parseFloat isNaN orb].
    unfold gtb, ltb, zero. rewrite !negb_involutive.
    replace (Qle_bool t 100) with false.
    - rewrite andb_false_r. reflexivity.
    - symmetry. destruct (Qle_bool t 100) eqn:E; [|reflexivity].
      apply Qle_bool_iff in E.
      apply Qlt_not_le in Hsum. contradiction. }
  rewrite Hrow. reflexivity.
Qed.

End EvaluationModel.

Lemma inst_has_changed_status (this : EvaluationInstance)
      (st : EvaluationStatus) :
  inst_has_changed (inst_set_status this st) "score"
  = inst_has_changed this "score".
Proof.
  unfold inst_has_changed, inst_set_status. cbn [inst_changed].
  destruct (EvaluationStatus_eqb (inst_status this) st); reflexivity.
Qed.

Section ExplicitScore.

Variable float_column : jsval -> result num.

(** The store keeps a finite number as it is. *)
Hypothesis float_column_finite :
  forall q, float_column (JNum (Fin q)) = Ok (Fin q).

(** X9.  An evaluation that carries a non-zero score of its own is stored
    by [submit] with that score, whatever its criteria scores add up to;
    and a [submit] that stores it has found the score within [[0, 100]]. *)
Theorem Evaluation_submit_keeps_score (db db' : DB)
        (this : EvaluationInstance) (row : Evaluation) (q : Q)
        (Hok : Evaluation_submit float_column db this = (db', Ok (Some row)))
        (Hscore : inst_score this = JNum (Fin q))
        (Hq : ~ (q == 0)%Q)
        (Hw : inst_isNewRecord this = true
              \/ inst_has_changed this "score" = true) :
  Evaluation_score row = Fin q /\ (0 <= q)%Q /\ (q <= 100)%Q.
Proof.
  revert Hok. unfold Evaluation_submit.
  destruct (EvaluationStatus_eqb (inst_status this) E_submitted);
    [discriminate|].
  destruct (Evaluation_getSubmission db (inst_submissionId this));
    [|discriminate].
  destruct (Event_findByPk db _); [|discriminate].
  destruct (check_criteria _ _); [|discriminate].
  assert (Ht : truthy (inst_score this) = true).
  { rewrite Hscore. cbn. destruct (Qeq_bool q 0) eqn:E; [|reflexivity].
    apply Qeq_bool_iff in E. contradiction. }
  rewrite Ht. cbn [negb]. intros Hok.
  apply Evaluation_save_written in Hok.
  destruct Hok as (_ & _ & base & Hrow & _).
  apply Evaluation_row_of_score in Hrow.
  rewrite inst_has_changed_status in Hrow.
  change (inst_isNewRecord (inst_set_status this E_submitted))
    with (inst_isNewRecord this) in Hrow.
  change (inst_score (inst_set_status this E_submitted))
    with (inst_score this) in Hrow.
  assert (W : inst_isNewRecord this || inst_has_changed this "score" = true).
  { destruct Hw as [-> | ->]; [reflexivity|apply orb_true_r]. }
  rewrite W, Hscore in Hrow.
  split.
  { revert Hrow. unfold Evaluation_validate_score. cbn [parseFloat].
    destruct (_ && _); [|discriminate].
    rewrite float_column_finite. intros H. injection H as <-. reflexivity. }
  revert Hrow. unfold Evaluation_validate_score. cbn [parseFloat isNaN orb].
  unfold gtb, ltb, zero. rewrite !negb_involutive.
  destruct (Qle_bool 0 q) eqn:E0; [|discriminate].
  destruct (Qle_bool q 100) eqn:E1; [|discriminate].
  intros _. split; apply Qle_bool_iff; assumption.
Qed.

End ExplicitScore.


Lemma Evaluation_save_stale_aggregate_witness :
  let out := Sample.Evaluation_save Sample.scored
               (Sample.built_evaluation "P" 70) in
  Submission_totalEvaluations (nth 0 (submissions (fst out)) Sample.P) = 3%nat
  /\ evaluationCount (fst out) Sample.P = 4%nat.
Proof.
  intros out.
  destruct (Evaluation_save_stale_aggregate Sample.float_column Sample.scored
              (fst out) (Sample.built_evaluation "P" 70) (saved_row (snd out))
              "P" Sample.P eq_refl eq_refl eq_refl eq_refl eq_refl)
    as (Hstored & Hcount).
  split; [|exact Hcount].
  apply (Hstored (nth 0 (submissions (fst out)) Sample.P)).
  - left. reflexivity.
  - reflexivity.
Defined.

Lemma Evaluation_submit_once_witness :
  let this :=
    Sample.draft_evaluation "P" JUndefined
      (JObj [("c1", JNum (Fin 8)); ("c2", JNum (Fin 15))]) in
  let out := Sample.Evaluation_submit Sample.entered this in
  Evaluation_status (saved_row (snd out)) = E_submitted
  /\ Sample.Evaluation_submit (fst out) (loaded (saved_row (snd out)))
     = (fst out, Throw (Error "Evaluation has already been submitted")).
Proof.
  intros this out.
  destruct (Evaluation_submit_once Sample.float_column Sample.entered
              (fst out) this (saved_row (snd out)) eq_refl)
    as (_ & _ & Hst & Hagain).
  split; [exact Hst|]. apply Hagain.
Defined.

Lemma Evaluation_submit_refused_witness :
  let this := Sample.draft_evaluation "P" JUndefined (JObj [("c1", JStr "8")]) in
  snd (Sample.Evaluation_submit Sample.scored this)
  = Throw (Error (required_message "Execution"))
  /\ fst (Sample.Evaluation_submit Sample.scored this) = Sample.scored.
Proof.
  intros this. split; [reflexivity|].
  apply (Evaluation_submit_refused Sample.float_column Sample.scored this
           (Error (required_message "Execution")) eq_refl).
  discriminate.
Defined.

Lemma Evaluation_submit_keeps_score_witness :
  let this :=
    Sample.draft_evaluation "P" (JNum (Fin 95))
      (JObj [("c1", JNum (Fin 2)); ("c2", JNum (Fin 3))]) in
  let out := Sample.Evaluation_submit Sample.entered this in
  snd out = Ok (Some (saved_row (snd out)))
  /\ Evaluation_score (saved_row (snd out)) = Fin 95.
Proof.
  intros this out. split; [reflexivity|].
  apply (Evaluation_submit_keeps_score Sample.float_column (fun q => eq_refl)
           Sample.entered (fst out) this (saved_row (snd out)) 95 eq_refl
           eq_refl).
  - discriminate.
  - left. reflexivity.
Defined.

Lemma Evaluation_submit_total_over_100_witness :
  Sample.Evaluation_submit Sample.generous
    (Sample.draft_evaluation "R" JUndefined
       (JObj [("c1", JNum (Fin 55)); ("c2", JNum (Fin 50))]))
  = (Sample.generous, Throw (ValidationError "score")).
Proof.
  apply (Evaluation_submit_total_over_100 Sample.float_column
           Sample.generous
           (Sample.draft_evaluation "R" JUndefined
              (JObj [("c1", JNum (Fin 55)); ("c2", JNum (Fin 50))]))
           (Sample.submission "R" "E3" "T1" S_submitted) Sample.E3
           105%Q eq_refl eq_refl eq_refl).
  - apply Forall_cons; [|apply Forall_cons; [|apply Forall_nil]];
      (split; [reflexivity|]);
      do 2 eexists; (split; [reflexivity|]); (split; [reflexivity|]);
      split; discriminate.
  - left. reflexivity.
  - reflexivity.
  - reflexivity.
Defined.

(** Criteria scores of 60 and 40.00000000000001 add up, as doubles, to
    exactly 100: that total is within the range of the score and the
    evaluation is stored with it. *)
Lemma Evaluation_submit_total_rounds_to_100 :
  let this :=
    Sample.draft_evaluation "R" JUndefined
      (JObj [("c1", JNum (Fin 60)); ("c2", JStr "40.00000000000001")]) in
  let out := Sample.Evaluation_submit Sample.generous this in
  snd out = Ok (Some (saved_row (snd out)))
  /\ Evaluation_score (saved_row (snd out)) = Fin 100.
Proof. split; vm_compute; reflexivity. Qed.

(* ------------------------------------------------------------------ *)
(** ** Reading numbers back from their decimal text *)
(* ------------------------------------------------------------------ *)

Lemma scan_digits_uint (d : Decimal.uint) :
  forall (a count : nat),
    scan_digits digit_of 10 (Z.of_nat a) count (NilEmpty.string_of_uint d)
    = (Z.of_nat (Nat.of_uint_acc d a), (count + DecimalNat.Unsigned.usize d)%nat,
       EmptyString).
Proof.
  induction d as [|d IH|d IH|d IH|d IH|d IH|d IH|d IH|d IH|d IH|d IH];
    intros a count;
    [ cbn; rewrite Nat.add_0_r; reflexivity | .. ];
    cbn [NilEmpty.string_of_uint scan_digits];
    match goal with
    | |- context [digit_of ?c] =>
        let v := eval cbv in (digit_of c) in
        change (digit_of c) with v
    end;
    cbv iota beta;
    cbn [Nat.of_uint_acc DecimalNat.Unsigned.usize];
    rewrite Nat.tail_mul_spec;
    match goal with
    | |- scan_digits _ _ ?z _ _ = (Z.of_nat (Nat.of_uint_acc _ ?n), _, _) =>
        replace z with (Z.of_nat n) by lia
    end;
    rewrite IH; f_equal; f_equal; lia.
Qed.

(** A decimal text as [string_of_nat] writes it: its head is a digit and
    the character after a leading [0] is not an [x]. *)
Lemma string_of_nat_read (n : nat) :
  let s := string_of_nat n in
  trimStart s = s
  /\ scan_sign s = (false, s)
  /\ starts_with "0x" s || starts_with "0X" s = false
  /\ scan_digits digit_of 10 0 0 s
     = (Z.of_nat n, DecimalNat.Unsigned.usize
                      (match Nat.to_uint n with
                       | Decimal.Nil => Decimal.D0 Decimal.Nil
                       | d => d
                       end), EmptyString).
Proof.
  cbv zeta. unfold string_of_nat.
  pose proof (DecimalNat.Unsigned.of_to n) as Hn.
  unfold Nat.of_uint in Hn.
  destruct (Nat.to_uint n) as [|d|d|d|d|d|d|d|d|d|d] eqn:E;
    [ cbn in Hn; subst n; repeat split; reflexivity | .. ];
    (split; [reflexivity|]); (split; [reflexivity|]);
    (split; [ try reflexivity;
              destruct d; reflexivity |]);
    unfold NilZero.string_of_uint;
    rewrite (scan_digits_uint _ 0 0), Hn; reflexivity.
Qed.

Lemma parseInt10_str_string_of_nat (n : nat) :
  parseInt10_str (string_of_nat n) = Some (Z.of_nat n).
Proof.
  destruct (string_of_nat_read n) as (Ht & Hs & _ & Hd).
  unfold parseInt10_str. rewrite Ht, Hs, Hd.
  destruct (Nat.to_uint n); reflexivity.
Qed.


(* ------------------------------------------------------------------ *)
(** ** The order of a float column *)
(* ------------------------------------------------------------------ *)

Lemma sql_leb_total (x y : num) : sql_leb x y = false -> sql_leb y x = true.
Proof.
  destruct x as [| [] | a], y as [| [] | b]; simpl; try discriminate;
    try reflexivity.
  intros H. apply Qle_bool_iff. apply Qlt_le_weak. apply Qnot_le_lt.
  intros Hle. apply Qle_bool_iff in Hle. congruence.
Qed.

Lemma sql_leb_trans (x y z : num) :
  sql_leb x y = true -> sql_leb y z = true -> sql_leb x z = true.
Proof.
  destruct x as [| [] | a], y as [| [] | b], z as [| [] | c]; simpl;
    try discriminate; try reflexivity.
  rewrite !Qle_bool_iff. apply Qle_trans.
Qed.


Lemma map_index_length {A B : Type} (f : A -> nat -> B) (l : list A) :
  forall i, List.length (map_index f i l) = List.length l.
Proof.
  induction l as [|x l IH]; intros i; simpl; [reflexivity|].
  rewrite IH. reflexivity.
Qed.


(* ------------------------------------------------------------------ *)
(** ** Sorting by any total preorder *)
(* ------------------------------------------------------------------ *)

Section SortBy.

Context {A : Type}.
Variable le : A -> A -> bool.

Lemma insert_by_permutation (x : A) (l : list A) :
  Permutation (x :: l) (insert_by le x l).
Proof.
  induction l as [|y l IH]; simpl; [reflexivity|].
  destruct (le x y); [reflexivity|].
  rewrite perm_swap. apply perm_skip. exact IH.
Qed.

Lemma sort_by_permutation (l : list A) : Permutation l (sort_by le l).
Proof.
  induction l as [|x l IH]; simpl; [reflexivity|].
  rewrite <- insert_by_permutation. apply perm_skip. exact IH.
Qed.

Hypothesis le_total : forall a b, le a b = false -> le b a = true.
Hypothesis le_trans :
  forall a b c, le a b = true -> le b c = true -> le a c = true.

Lemma insert_by_StronglySorted (x : A) (l : list A) :
  StronglySorted (fun a b => le a b = true) l ->
  StronglySorted (fun a b => le a b = true) (insert_by le x l).
Proof.
  induction 1 as [|y l Hs IH Hy]; simpl.
  - constructor; constructor.
  - destruct (le x y) eqn:E.
    + constructor; [constructor; assumption|].
      constructor; [exact E|].
      rewrite Forall_forall in *. intros z Hz.
      eapply le_trans; [exact E|]. apply Hy. exact Hz.
    + constructor; [exact IH|].
      rewrite Forall_forall in *. intros z Hz.
      apply (Permutation_in _ (Permutation_sym (insert_by_permutation x l)))
        in Hz.
      destruct Hz as [<-|Hz]; [apply le_total; exact E|].
      apply Hy. exact Hz.
Qed.

Lemma sort_by_StronglySorted (l : list A) :
  StronglySorted (fun a b => le a b = true) (sort_by le l).
Proof.
  induction l as [|x l IH]; simpl; [constructor|].
  apply insert_by_StronglySorted. exact IH.
Qed.

End SortBy.

Lemma StronglySorted_nth_error {A : Type} (R : A -> A -> Prop) (l : list A) :
  StronglySorted R l ->
  forall i j a b,
    (i < j)%nat -> nth_error l i = Some a -> nth_error l j = Some b -> R a b.
Proof.
  induction 1 as [|x l Hs IH Hx]; intros i j a b Hij Ha Hb.
  - destruct i; discriminate.
  - destruct j as [|j]; [lia|]. simpl in Hb.
    destruct i as [|i].
    + simpl in Ha. injection Ha as <-.
      rewrite Forall_forall in Hx. apply Hx.
      eapply nth_error_In. exact Hb.
    + simpl in Ha. apply (IH i j); [lia|assumption|assumption].
Qed.

Lemma NoDup_map_eq {A B : Type} (f : A -> B) (l : list A) (x y : A) :
  NoDup (map f l) -> In x l -> In y l -> f x = f y -> x = y.
Proof.
  induction l as [|z l IH]; simpl; intros Hnd Hx Hy Hf; [contradiction|].
  inversion Hnd as [|? ? Hz Hnd']; subst.
  destruct Hx as [<-|Hx], Hy as [<-|Hy].
  - reflexivity.
  - exfalso. apply Hz. rewrite Hf. apply in_map. exact Hy.
  - exfalso. apply Hz. rewrite <- Hf. apply in_map. exact Hx.
  - apply IH; assumption.
Qed.

Lemma filter_keeps_keys_distinct (keep : Submission -> bool)
      (rows : list Submission) :
  NoDup (map Submission_id rows) ->
  NoDup (map Submission_id (filter keep rows)).
Proof.
  intros Hkeys. induction rows as [|r rows IH]; [exact Hkeys|].
  cbn [map] in Hkeys. apply NoDup_cons_iff in Hkeys.
  destruct Hkeys as (Hr & Hrest).
  cbn [filter]. destruct (keep r); [|exact (IH Hrest)].
  cbn [map]. apply NoDup_cons; [|exact (IH Hrest)].
  intros Hin. apply Hr. apply in_map_iff in Hin.
  destruct Hin as (y & Hy & Hin). apply filter_In in Hin.
  apply in_map_iff. exists y. tauto.
Qed.

(* ------------------------------------------------------------------ *)
(** ** Submission.prototype.getLeaderboardPosition *)
(* ------------------------------------------------------------------ *)

Lemma findIndex_None {A : Type} (p : A -> bool) (l : list A) :
  findIndex p l = None <-> forall x, In x l -> p x = false.
Proof.
  induction l as [|y l IH]; simpl.
  - split; [intros _ x []|reflexivity].
  - destruct (p y) eqn:E.
    + split; [discriminate|]. intros H.
      rewrite (H y (or_introl eq_refl)) in E. discriminate.
    + destruct (findIndex p l) as [i|]; simpl.
      * split; [discriminate|]. intros H.
        assert (Hn : Some i = None); [|discriminate].
        apply IH. intros x Hx. apply H. right. exact Hx.
      * split; [|reflexivity]. intros _ x [<-|Hx]; [exact E|].
        apply IH; [reflexivity|exact Hx].
Qed.

Lemma findIndex_Some {A : Type} (p : A -> bool) (l : list A) (i : nat) :
  findIndex p l = Some i ->
  exists x, nth_error l i = Some x /\ p x = true
            /\ forall j y, (j < i)%nat -> nth_error l j = Some y -> p y = false.
Proof.
  revert i. induction l as [|y l IH]; simpl; intros i; [discriminate|].
  destruct (p y) eqn:E.
  - intros H. injection H as <-. exists y.
    split; [reflexivity|]. split; [exact E|]. intros j z Hj. lia.
  - destruct (findIndex p l) as [k|]; simpl; [|discriminate].
    intros H. injection H as <-.
    destruct (IH k eq_refl) as (x & Hx & Hp & Hbefore).
    exists x. split; [exact Hx|]. split; [exact Hp|].
    intros j z Hj Hz. destruct j as [|j].
    + simpl in Hz. injection Hz as <-. exact E.
    + simpl in Hz. apply (Hbefore j); [lia|exact Hz].
Qed.

Lemma by_average_desc_total (a b : Submission) :
  by_average_desc a b = false -> by_average_desc b a = true.
Proof.
  unfold by_average_desc.
  destruct (Submission_averageScore a) as [x|],
           (Submission_averageScore b) as [y|];
    try discriminate; try reflexivity.
  apply sql_leb_total.
Qed.

Lemma by_average_desc_trans (a b c : Submission) :
  by_average_desc a b = true -> by_average_desc b c = true ->
  by_average_desc a c = true.
Proof.
  unfold by_average_desc.
  destruct (Submission_averageScore a) as [x|],
           (Submission_averageScore b) as [y|],
           (Submission_averageScore c) as [z|];
    try discriminate; try reflexivity.
  intros H1 H2. eapply sql_leb_trans; eassumption.
Qed.

Lemma positioned_listed (db : DB) (eventId : uuid) (s : Submission) :
  In s (positioned db eventId) <-> listed db eventId s.
Proof.
  unfold positioned, listed. split.
  - intros Hin.
    apply (Permutation_in _ (Permutation_sym (sort_by_permutation _ _))) in Hin.
    apply filter_In in Hin. destruct Hin as (Hin & Hb).
    apply andb_prop in Hb. destruct Hb as (Hb & Ha).
    apply andb_prop in Hb. destruct Hb as (Hb & Hs).
    apply andb_prop in Hb. destruct Hb as (Hl & He).
    apply String.eqb_eq in He. apply SubmissionStatus_eqb_eq in Hs.
    unfold live in Hl.
    destruct (Submission_deletedAt s); [discriminate|].
    destruct (Submission_averageScore s); [|discriminate].
    repeat split; try assumption. discriminate.
  - intros (Hin & Hd & He & Hs & Ha).
    apply (Permutation_in _ (sort_by_permutation _ _)).
    apply filter_In. split; [exact Hin|].
    unfold live. rewrite Hd, He, Hs, String.eqb_refl.
    destruct (Submission_averageScore s); [reflexivity|contradiction].
Qed.

Lemma getLeaderboardPosition_None (db : DB) (this : Submission) :
  Submission_getLeaderboardPosition db this = None
  <-> forall s, listed db (Submission_eventId this) s ->
                Submission_id s <> Submission_id this.
Proof.
  unfold Submission_getLeaderboardPosition. cbv zeta.
  destruct (findIndex _ (positioned db (Submission_eventId this)))
    as [i|] eqn:F.
  - split; [discriminate|]. intros Hno. exfalso.
    apply findIndex_Some in F. destruct F as (s & Hs & Hp & _).
    apply (Hno s).
    + apply positioned_listed. eapply nth_error_In. exact Hs.
    + apply String.eqb_eq. exact Hp.
  - split; [|reflexivity]. intros _ s Hl Hid.
    apply positioned_listed in Hl.
    apply (proj1 (findIndex_None _ _) F) in Hl.
    rewrite Hid, String.eqb_refl in Hl. discriminate.
Qed.

(** X16.  [getLeaderboardPosition] is null exactly when the store holds no
    submission under the instance's key that is not deleted, belongs to the
    instance's event, has status [submitted] and a stored average;
    otherwise it is a position between 1 and the number of such
    submissions of the event, and the submission listed at that position
    carries the key. *)
Theorem getLeaderboardPosition_null (db : DB) (this : Submission) :
  (Submission_getLeaderboardPosition db this = None
   <-> ~ exists s, listed db (Submission_eventId this) s
                   /\ Submission_id s = Submission_id this)
  /\ forall position,
       Submission_getLeaderboardPosition db this = Some position ->
       (1 <= position
        <= List.length (positioned db (Submission_eventId this)))%nat
       /\ exists s,
            nth_error (positioned db (Submission_eventId this)) (position - 1)
            = Some s
            /\ listed db (Submission_eventId this) s
            /\ Submission_id s = Submission_id this.
Proof.
  unfold Submission_getLeaderboardPosition. cbv zeta.
  destruct (findIndex _ (positioned db (Submission_eventId this)))
    as [i|] eqn:F.
  - split.
    + split; [discriminate|]. intros Hno. exfalso. apply Hno.
      apply findIndex_Some in F. destruct F as (s & Hs & Hp & _).
      exists s. split.
      * apply positioned_listed. eapply nth_error_In. exact Hs.
      * apply String.eqb_eq. exact Hp.
    + intros position H. injection H as <-.
      apply findIndex_Some in F. destruct F as (s & Hs & Hp & _).
      replace (i + 1 - 1)%nat with i by lia. split.
      * assert (i < List.length (positioned db (Submission_eventId this)))%nat
          by (apply nth_error_Some; congruence).
        lia.
      * exists s. split; [exact Hs|]. split.
        -- apply positioned_listed. eapply nth_error_In. exact Hs.
        -- apply String.eqb_eq. exact Hp.
  - split; [|discriminate].
    split; [|reflexivity]. intros _ (s & Hl & Hid).
    apply positioned_listed in Hl.
    apply (proj1 (findIndex_None _ _) F) in Hl.
    rewrite Hid, String.eqb_refl in Hl. discriminate.
Qed.

Lemma num_lt_sql_leb (x y : num) : num_lt y x -> sql_leb x y = false.
Proof.
  unfold num_lt, sql_leb.
  destruct x as [| [] | a], y as [| [] | b]; simpl; intros H;
    try (apply Nat.leb_gt; exact H); try lia.
  destruct (Qle_bool a b) eqn:E; [|reflexivity].
  apply Qle_bool_iff in E. apply Qlt_not_le in H. contradiction.
Qed.

(** X17.  With unique primary keys, of two submissions that
    [getLeaderboardPosition] lists for an event, the one whose stored
    average is strictly higher has the strictly better position. *)
Theorem getLeaderboardPosition_order (db : DB) (a b : Submission) (x y : num)
        (Hkeys : NoDup (map Submission_id (submissions db)))
        (Ha : listed db (Submission_eventId a) a)
        (Hb : listed db (Submission_eventId a) b)
        (Hx : Submission_averageScore a = Some x)
        (Hy : Submission_averageScore b = Some y)
        (Hlt : num_lt y x) :
  exists pa pb,
    Submission_getLeaderboardPosition db a = Some pa
    /\ Submission_getLeaderboardPosition db b = Some pb
    /\ (pa < pb)%nat.
Proof.
  assert (He : Submission_eventId b = Submission_eventId a)
    by (destruct Hb as (_ & _ & He & _); exact He).
  unfold Submission_getLeaderboardPosition. cbv zeta. rewrite He.
  set (l := positioned db (Submission_eventId a)).
  assert (Hsorted : StronglySorted (fun u v => by_average_desc u v = true) l).
  { apply sort_by_StronglySorted.
    - exact by_average_desc_total.
    - exact by_average_desc_trans. }
  assert (Hnd : NoDup (map Submission_id l)).
  { eapply Permutation_NoDup.
    - apply Permutation_map. apply sort_by_permutation.
    - apply filter_keeps_keys_distinct. exact Hkeys. }
  assert (Hfind : forall s, In s l ->
            exists i, findIndex (fun r => String.eqb (Submission_id r)
                                                     (Submission_id s)) l
                      = Some i
                      /\ nth_error l i = Some s).
  { intros s Hs.
    destruct (findIndex (fun r => String.eqb (Submission_id r)
                                             (Submission_id s)) l)
      as [i|] eqn:F.
    - exists i. split; [reflexivity|].
      apply findIndex_Some in F. destruct F as (s' & Hs' & Hp & _).
      apply String.eqb_eq in Hp.
      rewrite Hs'. f_equal.
      apply (NoDup_map_eq Submission_id l); try assumption.
      eapply nth_error_In. exact Hs'.
    - apply (proj1 (findIndex_None _ _) F) in Hs.
      rewrite String.eqb_refl in Hs. discriminate. }
  destruct (Hfind a (proj2 (positioned_listed _ _ _) Ha)) as (i & Fi & Ni).
  destruct (Hfind b (proj2 (positioned_listed _ _ _) Hb)) as (j & Fj & Nj).
  rewrite Fi, Fj. exists (i + 1)%nat, (j + 1)%nat.
  split; [reflexivity|]. split; [reflexivity|].
  pose proof (num_lt_sql_leb _ _ Hlt) as Hleb.
  destruct (Nat.lt_trichotomy i j) as [Hij|[Hij|Hij]]; [lia| |].
  - exfalso. subst j. rewrite Ni in Nj. injection Nj as ->.
    rewrite Hx in Hy. injection Hy as ->.
    pose proof (sql_leb_total _ _ Hleb). congruence.
  - exfalso.
    pose proof (StronglySorted_nth_error _ _ Hsorted j i b a Hij Nj Ni) as H.
    unfold by_average_desc in H. rewrite Hx, Hy in H. congruence.
Qed.

Lemma Submission_with_scores_twice (r : Submission) (a : option num)
      (n : nat) (a' : option num) (n' : nat) :
  Submission_with_scores (Submission_with_scores r a' n') a n
  = Submission_with_scores r a n.
Proof. reflexivity. Qed.

(** X18.  [calculateScores] is idempotent: run again on the instance and
    the store it left, with no evaluation written in between, it changes
    neither. *)
Theorem calculateScores_idempotent (db : DB) (this : Submission) :
  let out := Submission_calculateScores db this in
  Submission_calculateScores (fst out) (snd out) = out.
Proof.
  cbv zeta.
  assert (Hev : Submission_getEvaluations
                  (fst (Submission_calculateScores db this))
                  (snd (Submission_calculateScores db this))
                = Submission_getEvaluations db this).
  { unfold Submission_getEvaluations.
    rewrite calculateScores_evaluations.
    unfold Submission_calculateScores.
    destruct (List.length _); reflexivity. }
  unfold Submission_calculateScores at 1. rewrite Hev.
  assert (Hsave : forall a n,
             Submission_save
               (Submission_save db (Submission_with_scores this a n))
               (Submission_with_scores this a n)
             = Submission_save db (Submission_with_scores this a n)).
  { intros a n. unfold Submission_save, set_submissions. cbn.
    f_equal. rewrite map_map. apply map_ext. intros r.
    destruct (String.eqb (Submission_id r) (Submission_id this)) eqn:E.
    - cbn. rewrite E. reflexivity.
    - rewrite E. reflexivity. }
  unfold Submission_calculateScores.
  destruct (List.length (Submission_getEvaluations db this)) eqn:L;
    cbn [fst snd]; rewrite Submission_with_scores_twice, Hsave; reflexivity.
Qed.

(** X19.  After [calculateScores], a submission that is stored, not
    deleted and has status [submitted] has a leaderboard position exactly
    when it has at least one non-deleted evaluation. *)
Theorem calculateScores_position (db : DB) (this : Submission)
        (Hin : In this (submissions db))
        (Hlive : Submission_deletedAt this = None)
        (Hstatus : Submission_status this = S_submitted) :
  let out := Submission_calculateScores db this in
  Submission_getLeaderboardPosition (fst out) (snd out) = None
  <-> Submission_getEvaluations db this = [].
Proof.
  cbv zeta. rewrite getLeaderboardPosition_None.
  unfold Submission_calculateScores.
  destruct (Submission_getEvaluations db this) as [|e rows] eqn:G;
    cbn [List.length fst snd].
  - split; [reflexivity|]. intros _ s (Hs & _ & _ & _ & Havg) Hid.
    apply Submission_save_rows in Hs; [|exact Hid].
    destruct Hs as (Hnone & _). apply Havg. exact Hnone.
  - split; [|discriminate]. intros Hno. exfalso.
    match goal with
    | H : forall s, listed (Submission_save db ?t) _ s -> _ |- _ =>
        apply (H t)
    end; [|reflexivity].
    unfold listed. cbn [Submission_deletedAt Submission_eventId
                        Submission_status Submission_averageScore
                        Submission_with_scores].
    split; [|repeat split; try assumption; discriminate].
    unfold Submission_save. cbn [submissions set_submissions].
    apply in_map_iff. exists this. split; [|exact Hin].
    cbn [Submission_id Submission_with_scores].
    rewrite String.eqb_refl. reflexivity.
Qed.


Lemma getLeaderboardPosition_order_witness :
  let A := nth 0 (submissions Sample.standings) Sample.P in
  let B := nth 1 (submissions Sample.standings) Sample.P in
  Submission_getLeaderboardPosition Sample.standings B = Some 1%nat
  /\ Submission_getLeaderboardPosition Sample.standings A = Some 3%nat
  /\ exists pa pb,
       Submission_getLeaderboardPosition Sample.standings B = Some pa
       /\ Submission_getLeaderboardPosition Sample.standings A = Some pb
       /\ (pa < pb)%nat.
Proof.
  intros A B. split; [reflexivity|]. split; [reflexivity|].
  apply (getLeaderboardPosition_order Sample.standings B A (Fin 90) (Fin 70)).
  - repeat (apply NoDup_cons;
            [simpl; intros H;
             repeat (destruct H as [H|H]; [discriminate|]); exact H|]).
    apply NoDup_nil.
  - split; [right; left; reflexivity|].
    repeat split; try reflexivity. discriminate.
  - split; [left; reflexivity|].
    repeat split; try reflexivity. discriminate.
  - reflexivity.
  - reflexivity.
  - reflexivity.
Defined.

Lemma calculateScores_position_witness :
  let out := Submission_calculateScores Sample.scored Sample.P in
  Submission_getLeaderboardPosition (fst out) (snd out) = Some 1%nat
  /\ (Submission_getLeaderboardPosition (fst out) (snd out) = None
      <-> Submission_getEvaluations Sample.scored Sample.P = []).
Proof.
  intros out. split; [reflexivity|].
  apply (calculateScores_position Sample.scored Sample.P).
  - left. reflexivity.
  - reflexivity.
  - reflexivity.
Defined.

(* ------------------------------------------------------------------ *)
(** ** Evaluation.getAverageScores *)
(* ------------------------------------------------------------------ *)

Lemma key_eqb_eq (a b : option uuid) : key_eqb a b = true <-> a = b.
Proof.
  destruct a as [x|], b as [y|]; simpl; split; try congruence.
  - intros H. apply String.eqb_eq in H. congruence.
  - intros H. injection H as ->. apply String.eqb_refl.
Qed.

Lemma group_keys_In (l : list (option uuid)) (k : option uuid) :
  In k (group_keys l) <-> In k l.
Proof.
  induction l as [|x l IH]; simpl; [reflexivity|].
  rewrite filter_In, IH. split.
  - intros [H|[H _]]; auto.
  - intros [H|H]; [left; exact H|].
    destruct (key_eqb x k) eqn:E.
    + left. apply key_eqb_eq. exact E.
    + right. split; [exact H|reflexivity].
Qed.

Lemma group_keys_NoDup (l : list (option uuid)) : NoDup (group_keys l).
Proof.
  induction l as [|x l IH]; simpl; constructor.
  - intros H. apply filter_In in H. destruct H as (_ & H).
    rewrite (proj2 (key_eqb_eq x x) eq_refl) in H. discriminate.
  - apply NoDup_filter. exact IH.
Qed.

Lemma list_sum_cons (x : nat) (l : list nat) :
  list_sum (x :: l) = (x + list_sum l)%nat.
Proof. reflexivity. Qed.

Lemma list_sum_perm (l l' : list nat) :
  Permutation l l' -> list_sum l = list_sum l'.
Proof. induction 1; simpl; lia. Qed.

Lemma indicator_sum (x : option uuid) (ks : list (option uuid)) :
  NoDup ks ->
  list_sum (map (fun k => if key_eqb x k then 1 else 0)%nat ks)
  = if existsb (key_eqb x) ks then 1%nat else 0%nat.
Proof.
  induction 1 as [|k ks Hk Hnd IH]; simpl; [reflexivity|].
  rewrite IH. destruct (key_eqb x k) eqn:E; simpl; [|reflexivity].
  apply key_eqb_eq in E. subst k.
  destruct (existsb (key_eqb x) ks) eqn:Ex; [|reflexivity].
  apply existsb_exists in Ex. destruct Ex as (y & Hy & Exy).
  apply key_eqb_eq in Exy. subst y. contradiction.
Qed.

Lemma group_of_cons (e : Evaluation) (rows : list Evaluation)
      (k : option uuid) :
  List.length (group_of (e :: rows) k)
  = ((if key_eqb (Evaluation_submissionId e) k then 1 else 0)
     + List.length (group_of rows k))%nat.
Proof.
  unfold group_of. simpl.
  destruct (key_eqb (Evaluation_submissionId e) k); reflexivity.
Qed.

(** Grouping loses and repeats nothing: the sizes of the groups of a list
    add up to its length. *)
Lemma group_sizes (rows : list Evaluation) (ks : list (option uuid)) :
  NoDup ks ->
  (forall e, In e rows -> In (Evaluation_submissionId e) ks) ->
  list_sum (map (fun k => List.length (group_of rows k)) ks)
  = List.length rows.
Proof.
  intros Hnd. induction rows as [|e rows IH]; intros Hall.
  - clear. induction ks as [|k ks IHk]; simpl; [reflexivity|exact IHk].
  - transitivity
      (list_sum (map (fun k => if key_eqb (Evaluation_submissionId e) k
                               then 1 else 0)%nat ks)
       + list_sum (map (fun k => List.length (group_of rows k)) ks))%nat.
    + clear. induction ks as [|k ks IHk]; [reflexivity|].
      rewrite !map_cons, !list_sum_cons, IHk, group_of_cons. lia.
    + rewrite IH by (intros x Hx; apply Hall; right; exact Hx).
      rewrite indicator_sum by exact Hnd.
      replace (existsb (key_eqb (Evaluation_submissionId e)) ks) with true;
        [reflexivity|].
      symmetry. apply existsb_exists.
      exists (Evaluation_submissionId e).
      split; [apply Hall; left; reflexivity|].
      apply key_eqb_eq. reflexivity.
Qed.

Lemma map_index_map {A B C : Type} (f : A -> nat -> B) (g : B -> C)
      (h : A -> C) (l : list A) :
  (forall x i, g (f x i) = h x) ->
  forall i, map g (map_index f i l) = map h l.
Proof.
  intros H. induction l as [|x l IH]; intros i; simpl; [reflexivity|].
  rewrite H, IH. reflexivity.
Qed.

Lemma map_index_nth_error {A B : Type} (f : A -> nat -> B) (l : list A) :
  forall start y,
    In y (map_index f start l) ->
    exists i x, nth_error l i = Some x /\ y = f x (start + i)%nat.
Proof.
  induction l as [|x l IH]; intros start y; simpl; [intros []|].
  intros [<-|Hin].
  - exists 0%nat, x. rewrite Nat.add_0_r. split; reflexivity.
  - destruct (IH _ _ Hin) as (i & z & Hz & ->).
    exists (S i), z. split; [exact Hz|]. f_equal. lia.
Qed.

Lemma higher_group_total (a b : ScoreGroup) :
  higher_group a b = false -> higher_group b a = true.
Proof. unfold higher_group. apply sql_leb_total. Qed.

Lemma higher_group_trans (a b c : ScoreGroup) :
  higher_group a b = true -> higher_group b c = true ->
  higher_group a c = true.
Proof.
  unfold higher_group. intros H1 H2. eapply sql_leb_trans; eassumption.
Qed.

(** The raw rows of the grouped query: one per key, with the aggregates of
    the key's group. *)
Lemma average_query_rows (db : DB) (eventId : uuid) (round : Z)
      (g : ScoreGroup) :
  In g (average_query db eventId round) ->
  let rows := round_scope db eventId round in
  In (group_submissionId g) (map Evaluation_submissionId rows)
  /\ group_averageScore g = AVG (group_of rows (group_submissionId g))
  /\ group_evaluationCount g
     = string_of_nat (List.length (group_of rows (group_submissionId g))).
Proof.
  unfold average_query. cbv zeta. intros Hin.
  apply (Permutation_in _ (Permutation_sym (sort_by_permutation _ _))) in Hin.
  apply in_map_iff in Hin. destruct Hin as (k & <- & Hk).
  apply (proj1 (group_keys_In _ _)) in Hk.
  cbn [group_submissionId group_averageScore group_evaluationCount].
  split; [exact Hk|]. split; reflexivity.
Qed.

Lemma average_query_keys (db : DB) (eventId : uuid) (round : Z) :
  Permutation
    (map group_submissionId (average_query db eventId round))
    (group_keys (map Evaluation_submissionId (round_scope db eventId round))).
Proof.
  unfold average_query. cbv zeta.
  rewrite <- sort_by_permutation, map_map. cbn. rewrite map_id. reflexivity.
Qed.

Section AverageScoresProperties.

Variable toFixed : num -> nat -> string.

(** X20.  [getAverageScores] returns one entry for each submission that
    has a non-deleted evaluation with status [submitted] for the event and
    the round (round 1 by default), and none for the others; an entry's
    [evaluationCount] is the number of those evaluations, at least 1, and
    the counts add up to the number of evaluations in scope. *)
Theorem getAverageScores_groups (db : DB) (eventId : uuid) (round : option Z) :
  let entries := Evaluation_getAverageScores toFixed db eventId round in
  let scope := round_scope db eventId (match round with
                                       | Some r => r
                                       | None => 1%Z
                                       end) in
  NoDup (map avg_submissionId entries)
  /\ (forall k, In k (map avg_submissionId entries)
                <-> exists e, In e scope /\ Evaluation_submissionId e = k)
  /\ (forall entry, In entry entries ->
        avg_evaluationCount entry
        = Some (Z.of_nat (List.length
                            (group_of scope (avg_submissionId entry))))
        /\ (1 <= List.length (group_of scope (avg_submissionId entry)))%nat)
  /\ list_sum (map (fun entry =>
                      List.length (group_of scope (avg_submissionId entry)))
                   entries)
     = List.length scope.
Proof.
  cbv zeta. unfold Evaluation_getAverageScores.
  set (r := match round with Some r => r | None => 1%Z end).
  set (scope := round_scope db eventId r).
  set (F := fun (result : ScoreGroup) (index : nat) => _).
  assert (Hkeys : map avg_submissionId (map_index F 0 (average_query db eventId r))
                  = map group_submissionId (average_query db eventId r)).
  { apply map_index_map. reflexivity. }
  pose proof (average_query_keys db eventId r) as Hperm. fold scope in Hperm.
  split; [|split; [|split]].
  - rewrite Hkeys. eapply Permutation_NoDup.
    + apply Permutation_sym. exact Hperm.
    + apply group_keys_NoDup.
  - intros k. rewrite Hkeys. split.
    + intros Hin. apply (Permutation_in _ Hperm) in Hin.
      apply (proj1 (group_keys_In _ _)) in Hin.
      apply in_map_iff in Hin.
      destruct Hin as (e & He & Hin). exists e. auto.
    + intros (e & Hin & He).
      apply (Permutation_in _ (Permutation_sym Hperm)).
      apply (proj2 (group_keys_In _ _)).
      apply in_map_iff. exists e. auto.
  - intros entry Hin.
    apply map_index_nth_error in Hin. destruct Hin as (i & g & Hg & ->).
    apply nth_error_In, average_query_rows in Hg. cbv zeta in Hg.
    fold scope in Hg. destruct Hg as (Hk & _ & Hcount).
    subst F. cbn [avg_evaluationCount avg_submissionId].
    rewrite Hcount, parseInt10_str_string_of_nat. split; [reflexivity|].
    apply in_map_iff in Hk. destruct Hk as (e & He & Hin).
    assert (Hm : In e (group_of scope (group_submissionId g))).
    { apply filter_In. split; [exact Hin|]. apply key_eqb_eq. exact He. }
    destruct (group_of scope (group_submissionId g)); [contradiction|].
    simpl. lia.
  - rewrite <- (map_map avg_submissionId
                        (fun k => List.length (group_of scope k))).
    rewrite Hkeys.
    rewrite (list_sum_perm _ _ (Permutation_map _ Hperm)).
    apply group_sizes; [apply group_keys_NoDup|].
    intros e He. apply (proj2 (group_keys_In _ _)). apply in_map. exact He.
Qed.

(** X21.  The entries of [getAverageScores] are ranked 1, 2, 3, ... in
    the order returned, and an entry with a smaller rank never has the
    lower average: the ranks follow the averages of the groups, highest
    first. *)
Theorem getAverageScores_ranks (db : DB) (eventId : uuid) (round : option Z) :
  let entries := Evaluation_getAverageScores toFixed db eventId round in
  let scope := round_scope db eventId (match round with
                                       | Some r => r
                                       | None => 1%Z
                                       end) in
  map avg_rank entries = seq 1 (List.length entries)
  /\ forall a b, In a entries -> In b entries ->
                 (avg_rank a < avg_rank b)%nat ->
                 sql_leb (AVG (group_of scope (avg_submissionId b)))
                         (AVG (group_of scope (avg_submissionId a))) = true.
Proof.
  cbv zeta. unfold Evaluation_getAverageScores.
  set (r := match round with Some r => r | None => 1%Z end).
  set (scope := round_scope db eventId r).
  set (F := fun (result : ScoreGroup) (index : nat) => _).
  split.
  - rewrite map_index_length.
    assert (H : forall l start,
               map avg_rank (map_index F start l)
               = seq (start + 1) (List.length l)).
    { induction l as [|g l IH]; intros start; [reflexivity|].
      cbn [map_index map List.length seq]. rewrite IH.
      subst F. cbn [avg_rank].
      replace (S start + 1)%nat with (S (start + 1)) by lia. reflexivity. }
    apply (H _ 0%nat).
  - intros a b Ha Hb Hlt.
    apply map_index_nth_error in Ha, Hb.
    destruct Ha as (i & ga & Hga & ->). destruct Hb as (j & gb & Hgb & ->).
    subst F. cbn [avg_rank avg_submissionId] in *.
    assert (Hsorted : StronglySorted (fun u v => higher_group u v = true)
                                     (average_query db eventId r)).
    { unfold average_query. apply sort_by_StronglySorted.
      - exact higher_group_total.
      - exact higher_group_trans. }
    assert (Hij : (i < j)%nat) by lia.
    pose proof (StronglySorted_nth_error _ _ Hsorted i j ga gb Hij Hga Hgb)
      as Hle.
    unfold higher_group in Hle.
    apply nth_error_In, average_query_rows in Hga, Hgb. cbv zeta in Hga, Hgb.
    fold scope in Hga, Hgb.
    destruct Hga as (_ & <- & _). destruct Hgb as (_ & <- & _). exact Hle.
Qed.

End AverageScoresProperties.

(* ------------------------------------------------------------------ *)
(** ** deleteEvent *)
(* ------------------------------------------------------------------ *)

Lemma Event_findByPk_id (db : DB) (id : uuid) (event : Event) :
  Event_findByPk db (Some id) = Some event ->
  Event_id event = id /\ In event (events db)
  /\ Event_deletedAt event = None.
Proof.
  unfold Event_findByPk. intros F. apply find_some in F.
  destruct F as (Hin & Hb). apply andb_prop in Hb. destruct Hb as (Hl & He).
  apply String.eqb_eq in He. unfold live in Hl.
  destruct (Event_deletedAt event); [discriminate|]. auto.
Qed.

Lemma Event_findByPk_destroy (db : DB) (event : Event) (now : timestamp)
      (id : uuid) :
  Event_findByPk (Event_destroy db event now) (Some id)
  = if String.eqb id (Event_id event) then None
    else Event_findByPk db (Some id).
Proof.
  unfold Event_findByPk, Event_destroy. cbn [events set_events].
  induction (events db) as [|r l IH]; cbn [map find].
  - destruct (String.eqb id (Event_id event)); reflexivity.
  - destruct (String.eqb (Event_id r) (Event_id event)) eqn:Er.
    + apply String.eqb_eq in Er.
      cbn [live Event_deletedAt Event_with_deletedAt Event_id andb].
      rewrite IH. rewrite Er.
      destruct (String.eqb id (Event_id event)) eqn:Ei; [reflexivity|].
      rewrite String.eqb_sym, Ei, andb_false_r. reflexivity.
    + rewrite IH.
      destruct (String.eqb id (Event_id event)) eqn:Ei; [|reflexivity].
      apply String.eqb_eq in Ei. subst id.
      rewrite Er, andb_false_r. reflexivity.
Qed.
(** X23.  [deleteEvent] succeeds exactly for the organizer of an event
    that is found.  Every other caller of such an event, whatever the role,
    is answered 500 and never 403: the handler reads [req.user.roles],
    which the User does not have.  A call that does not succeed leaves the
    store as it was.  A success is a soft delete: no row leaves the table,
    the event is no longer found, every other event is found as before,
    and the submissions and evaluations of the event stay in place. *)
Theorem deleteEvent_effect (db : DB) (user : User) (id : uuid)
        (now : timestamp) :
  let out := deleteEvent db user id now in
  (res_status (snd out) = 200
   <-> exists event,
         Event_findByPk db (Some id) = Some event
         /\ Event_organizerId event = User_id user)
  /\ (forall event,
         Event_findByPk db (Some id) = Some event ->
         Event_organizerId event <> User_id user ->
         out = (db, failure 500 "Failed to delete event"))
  /\ res_status (snd out) <> 403
  /\ (res_status (snd out) <> 200 -> fst out = db)
  /\ (res_status (snd out) = 200 ->
      Event_findByPk (fst out) (Some id) = None
      /\ map Event_id (events (fst out)) = map Event_id (events db)
      /\ (forall other, other <> id ->
            Event_findByPk (fst out) (Some other)
            = Event_findByPk db (Some other))
      /\ submissions (fst out) = submissions db
      /\ evaluations (fst out) = evaluations db).
Proof.
  cbv zeta. unfold deleteEvent.
  destruct (Event_findByPk db (Some id)) as [event|] eqn:F.
  - destruct (String.eqb (Event_organizerId event) (User_id user)) eqn:Eo;
      cbn [User_roles includes bind fst snd res_status failure].
    + apply String.eqb_eq in Eo.
      split; [split; [intros _; exists event; split; [reflexivity|exact Eo]
                     |reflexivity]|].
      split; [intros event' He Hne; injection He as <-; contradiction|].
      split; [discriminate|].
      split; [intros H; contradiction|]. intros _.
      apply Event_findByPk_id in F. destruct F as (Hid & _).
      rewrite Event_findByPk_destroy, Hid, String.eqb_refl.
      split; [reflexivity|].
      split.
      { unfold Event_destroy. cbn [events set_events].
        rewrite map_map. apply map_ext. intros r.
        destruct (String.eqb (Event_id r) (Event_id event)); reflexivity. }
      split; [|split; reflexivity].
      intros other Hother. rewrite Event_findByPk_destroy, Hid.
      apply String.eqb_neq in Hother. rewrite Hother. reflexivity.
    + apply String.eqb_neq in Eo.
      split.
      { split; [discriminate|]. intros (event' & H & Ho).
        injection H as <-. contradiction. }
      split; [intros; reflexivity|].
      split; [discriminate|].
      split; [reflexivity|discriminate].
  - cbn [fst snd res_status failure].
    split.
    { split; [discriminate|]. intros (event & H & _). discriminate. }
    split; [intros event H; discriminate H|].
    split; [discriminate|].
    split; [reflexivity|discriminate].
Qed.

(** The organizer of [E1] deletes it; a user whose role is [admin] is
    answered 500 and the event stays. *)
Lemma deleteEvent_effect_witness :
  res_status (snd (deleteEvent Sample.board Sample.organizer "E1" 1200%Z))
  = 200
  /\ deleteEvent Sample.board Sample.root "E1" 1200%Z
     = (Sample.board, failure 500 "Failed to delete event").
Proof.
  split.
  - apply (deleteEvent_effect Sample.board Sample.organizer "E1" 1200%Z).
    exists Sample.E1. split; reflexivity.
  - destruct (deleteEvent_effect Sample.board Sample.root "E1" 1200%Z)
      as (_ & H & _).
    apply (H Sample.E1); [reflexivity|discriminate].
Defined.

Section AfterDeleteEvent.

Variable isUrl : string -> bool.
Variable uploadToStorage : File -> string -> option string -> option string.
Variable boolean_column : jsval -> option bool.
Variable float_column : jsval -> result num.

Lemma deleteEvent_gone (db : DB) (user : User) (id : uuid) (now : timestamp) :
  res_status (snd (deleteEvent db user id now)) = 200 ->
  Event_findByPk (fst (deleteEvent db user id now)) (Some id) = None
  /\ submissions (fst (deleteEvent db user id now)) = submissions db.
Proof.
  unfold deleteEvent.
  destruct (Event_findByPk db (Some id)) as [event|] eqn:F; [|discriminate].
  destruct (String.eqb (Event_organizerId event) (User_id user));
    cbn [User_roles includes bind]; [|discriminate]. intros _.
  apply Event_findByPk_id in F. destruct F as (Hid & _).
  cbn [fst]. rewrite Event_findByPk_destroy, Hid, String.eqb_refl.
  split; reflexivity.
Qed.

(** X24.  Once [deleteEvent] has succeeded the event is gone for the
    other operations: [createSubmission] for it answers that the event is
    not found or closed, [getLeaderboard] answers 404 even to an admin,
    and a second [deleteEvent] answers 404; none of them writes. *)
Theorem deleteEvent_then_gone (db : DB) (user : User) (id : uuid)
        (now : timestamp)
        (Hdeleted : res_status (snd (deleteEvent db user id now)) = 200) :
  let db' := fst (deleteEvent db user id now) in
  (forall caller body file later newId,
      body_eventId body = Some id ->
      createSubmission isUrl uploadToStorage boolean_column
                       db' caller body file later newId
      = (db', closed_response))
  /\ (forall caller query,
        res_status (getLeaderboard db' caller id query) = 404)
  /\ (forall caller later,
        deleteEvent db' caller id later = (db', failure 404 "Event not found")).
Proof.
  cbv zeta. destruct (deleteEvent_gone db user id now Hdeleted) as (Hgone & _).
  split; [|split].
  - intros caller body file later newId Hb.
    unfold createSubmission. rewrite Hb, Hgone. reflexivity.
  - intros caller query. unfold getLeaderboard. rewrite Hgone. reflexivity.
  - intros caller later. unfold deleteEvent at 1. rewrite Hgone. reflexivity.
Qed.

(** X25.  Deleting an event does not reach its submissions: each is still
    found afterwards, but [submitEvaluation] on it then fails with 500 for
    every caller and writes nothing. *)
Theorem deleteEvent_orphans (db : DB) (user : User) (id : uuid)
        (now : timestamp) (sid : uuid) (s : Submission)
        (Hdeleted : res_status (snd (deleteEvent db user id now)) = 200)
        (Hs : Submission_findByPk db sid = Some s)
        (Hevent : Submission_eventId s = id) :
  let db' := fst (deleteEvent db user id now) in
  Submission_findByPk db' sid = Some s
  /\ forall caller body later newId,
       submitEvaluation float_column db' caller sid body later newId
       = (db', failure 500 "Failed to submit evaluation").
Proof.
  cbv zeta.
  destruct (deleteEvent_gone db user id now Hdeleted) as (Hgone & Hsub).
  assert (Hfind : Submission_findByPk (fst (deleteEvent db user id now)) sid
                  = Some s).
  { unfold Submission_findByPk. rewrite Hsub. exact Hs. }
  split; [exact Hfind|].
  intros caller body later newId. unfold submitEvaluation.
  cbn [included_association Submission_associations Event_associations
       filter fst snd String.eqb Ascii.eqb Bool.eqb existsb orb bind].
  rewrite Hfind, Hevent, Hgone. reflexivity.
Qed.

End AfterDeleteEvent.

Lemma deleteEvent_then_gone_witness :
  let db' := fst (deleteEvent Sample.board Sample.organizer "E1" 1200%Z) in
  Sample.createSubmission db' Sample.alice (Sample.body "T1" "E1" None) None
                          500%Z "S9"
  = (db', closed_response)
  /\ res_status (getLeaderboard db' (Some Sample.organizer) "E1"
                                (Sample.page None None)) = 404.
Proof.
  intros db'.
  destruct (deleteEvent_then_gone Sample.isUrl Sample.uploadToStorage
              Sample.boolean_column Sample.board Sample.organizer "E1"
              1200%Z eq_refl) as (Hcreate & Hboard & _).
  split.
  - apply Hcreate. reflexivity.
  - apply Hboard.
Defined.

Lemma deleteEvent_orphans_witness :
  let db' := fst (deleteEvent Sample.scored Sample.organizer "E1" 1200%Z) in
  Submission_findByPk db' "P" = Some Sample.P
  /\ Sample.submitEvaluation db' Sample.judge1 "P"
       (Sample.payload 80 "Good" 8 16) 1500%Z "n1"
     = (db', failure 500 "Failed to submit evaluation").
Proof.
  intros db'.
  destruct (deleteEvent_orphans Sample.float_column Sample.scored
              Sample.organizer "E1" 1200%Z "P" Sample.P eq_refl eq_refl
              eq_refl) as (Hfound & Hfail).
  split; [exact Hfound|]. apply Hfail.
Defined.

(* ------------------------------------------------------------------ *)
(** ** The Event model: validated dates *)
(* ------------------------------------------------------------------ *)

(** X26.  For an event whose [submissionDeadline] passed its validator,
    submissions are open exactly while a deadline is set and not yet
    passed: the test against [endDate] never decides, and there is no
    opening time, so an open window is open at every earlier moment. *)
Theorem Event_isSubmissionOpen_valid (e : Event) (now : timestamp)
        (Hvalid : Event_isBeforeEndDate e = Ok tt) :
  (Event_isSubmissionOpen now e = true
   <-> exists deadline, Event_submissionDeadline e = Some deadline
                        /\ (now <= deadline)%Z)
  /\ forall earlier, (earlier <= now)%Z ->
                     Event_isSubmissionOpen now e = true ->
                     Event_isSubmissionOpen earlier e = true.
Proof.
  revert Hvalid. unfold Event_isBeforeEndDate, Event_isSubmissionOpen.
  destruct (Event_submissionDeadline e) as [deadline|].
  - destruct (Event_endDate e <? deadline)%Z eqn:E; [discriminate|].
    intros _. apply Z.ltb_ge in E. split.
    + split.
      * intros H. apply andb_prop in H. destruct H as (H & _).
        apply Z.leb_le in H. exists deadline. auto.
      * intros (d & Hd & Hle). injection Hd as <-.
        apply andb_true_intro. split; apply Z.leb_le; lia.
    + intros earlier Hle H. apply andb_prop in H. destruct H as (H1 & H2).
      apply Z.leb_le in H1, H2.
      apply andb_true_intro. split; apply Z.leb_le; lia.
  - intros _. split.
    + split; [discriminate|]. intros (d & Hd & _). discriminate.
    + discriminate.
Qed.

(** X27.  For an event whose dates passed their validators, registration
    opens before it ends, ends before the event starts, and the event
    starts before it ends; so at no moment is registration open while the
    event is running. *)
Theorem Event_registration_before_run (d : EventDates) (now : timestamp)
        (Hend : Event_isAfterStartDate d = Ok tt)
        (Hreg : Event_isAfterRegistrationStart d = Ok tt)
        (Hstart : Event_isBeforeEventStart d = Ok tt) :
  (Dates_registrationStart d < Dates_registrationEnd d)%Z
  /\ (Dates_registrationEnd d < Dates_startDate d)%Z
  /\ (Dates_startDate d < Event_endDate (Dates_event d))%Z
  /\ (Event_isRegistrationOpen now d = true ->
      Event_isEventOngoing now d = false)
  /\ (Event_isEventOngoing now d = true ->
      Event_isRegistrationOpen now d = false).
Proof.
  revert Hend Hreg Hstart.
  unfold Event_isAfterStartDate, Event_isAfterRegistrationStart,
    Event_isBeforeEventStart, Event_isRegistrationOpen, Event_isEventOngoing.
  destruct (Event_endDate (Dates_event d) <=? Dates_startDate d)%Z eqn:E1;
    [discriminate|].
  destruct (Dates_registrationEnd d <=? Dates_registrationStart d)%Z eqn:E2;
    [discriminate|].
  destruct (Dates_startDate d <=? Dates_registrationEnd d)%Z eqn:E3;
    [discriminate|].
  intros _ _ _. apply Z.leb_gt in E1, E2, E3.
  split; [lia|]. split; [lia|]. split; [lia|]. split.
  - intros H. apply andb_prop in H. destruct H as (_ & H).
    apply Z.leb_le in H. apply andb_false_intro1. apply Z.leb_gt. lia.
  - intros H. apply andb_prop in H. destruct H as (H & _).
    apply Z.leb_le in H. apply andb_false_intro2. apply Z.leb_gt. lia.
Qed.

Lemma Event_isSubmissionOpen_valid_witness :
  Event_isSubmissionOpen 1000%Z Sample.E1 = true
  /\ Event_isSubmissionOpen 1001%Z Sample.E1 = false
  /\ (Event_isSubmissionOpen 1000%Z Sample.E1 = true
      <-> exists deadline, Event_submissionDeadline Sample.E1 = Some deadline
                           /\ (1000 <= deadline)%Z).
Proof.
  split; [reflexivity|]. split; [reflexivity|].
  apply (Event_isSubmissionOpen_valid Sample.E1 1000%Z eq_refl).
Defined.

Lemma Event_registration_before_run_witness :
  Event_isRegistrationOpen 300%Z Sample.calendar = true
  /\ Event_isEventOngoing 300%Z Sample.calendar = false.
Proof.
  split; [reflexivity|].
  destruct (Event_registration_before_run Sample.calendar 300%Z
              eq_refl eq_refl eq_refl) as (_ & _ & _ & H & _).
  apply H. reflexivity.
Defined.

(* ------------------------------------------------------------------ *)
(** ** createEvent: the slug of a title *)
(* ------------------------------------------------------------------ *)

Lemma squeeze_hyphens_cons (a b : N) (rest : jsstring) :
  squeeze_hyphens (a :: b :: rest)
  = if (a =? hyphen)%N && (b =? hyphen)%N
    then squeeze_hyphens (b :: rest)
    else a :: squeeze_hyphens (b :: rest).
Proof. reflexivity. Qed.

Lemma squeeze_hyphens_In (s : jsstring) (c : N) :
  In c (squeeze_hyphens s) -> In c s.
Proof.
  induction s as [|a [|b rest] IH]; [intros []|intros H; exact H|].
  rewrite squeeze_hyphens_cons.
  destruct ((a =? hyphen)%N && (b =? hyphen)%N).
  - intros H. right. apply IH. exact H.
  - intros [<-|H]; [left; reflexivity|right; apply IH; exact H].
Qed.

Lemma squeeze_hyphens_head (s : jsstring) :
  hd_error (squeeze_hyphens s) = hd_error s.
Proof.
  induction s as [|a [|b rest] IH]; [reflexivity|reflexivity|].
  rewrite squeeze_hyphens_cons.
  destruct ((a =? hyphen)%N && (b =? hyphen)%N) eqn:E; [|reflexivity].
  rewrite IH. apply andb_prop in E. destruct E as (Ea & Eb).
  apply N.eqb_eq in Ea, Eb. cbn. congruence.
Qed.

Lemma squeeze_hyphens_apart (s : jsstring) :
  ~ adjacent_hyphens (squeeze_hyphens s).
Proof.
  induction s as [|a [|b rest] IH].
  - intros (before & after & H). destruct before; discriminate.
  - intros (before & after & H).
    destruct before as [|x [|y before]]; discriminate.
  - rewrite squeeze_hyphens_cons.
    destruct ((a =? hyphen)%N && (b =? hyphen)%N) eqn:E; [exact IH|].
    intros (before & after & H). destruct before as [|x before].
    + rewrite app_nil_l in H.
      assert (Ha : a = hyphen) by congruence.
      assert (Hrest : squeeze_hyphens (b :: rest) = hyphen :: after)
        by congruence.
      assert (Hh : hd_error (squeeze_hyphens (b :: rest)) = Some hyphen)
        by (rewrite Hrest; reflexivity).
      rewrite squeeze_hyphens_head in Hh. cbn [hd_error] in Hh.
      injection Hh as ->. subst a. cbn in E. discriminate.
    + rewrite <- app_comm_cons in H.
      assert (Hrest : squeeze_hyphens (b :: rest)
                      = before ++ hyphen :: hyphen :: after) by congruence.
      apply IH. exists before, after. exact Hrest.
Qed.

Lemma squeeze_hyphens_fixed (s : jsstring) :
  ~ adjacent_hyphens s -> squeeze_hyphens s = s.
Proof.
  induction s as [|a [|b rest] IH]; [reflexivity|reflexivity|].
  intros Hno. rewrite squeeze_hyphens_cons.
  destruct ((a =? hyphen)%N && (b =? hyphen)%N) eqn:E.
  - exfalso. apply Hno. apply andb_prop in E. destruct E as (Ea & Eb).
    apply N.eqb_eq in Ea, Eb. subst a b. exists [], rest. reflexivity.
  - f_equal. apply IH. intros (before & after & H).
    apply Hno. exists (a :: before), after. rewrite H. reflexivity.
Qed.

Lemma spaces_to_hyphen_chars (s : jsstring) (c : N) :
  forall in_run,
    In c (spaces_to_hyphen in_run s) ->
    c = hyphen \/ (In c s /\ is_white c = false).
Proof.
  induction s as [|a s IH]; intros in_run; cbn [spaces_to_hyphen];
    [intros []|].
  destruct (is_white a) eqn:Ea.
  - destruct in_run.
    + intros H. destruct (IH _ H) as [Hc|(Hin & Hw)];
        [left; exact Hc|right; split; [right; exact Hin|exact Hw]].
    + intros [<-|H]; [left; reflexivity|].
      destruct (IH _ H) as [Hc|(Hin & Hw)];
        [left; exact Hc|right; split; [right; exact Hin|exact Hw]].
  - intros [<-|H]; [right; split; [left; reflexivity|exact Ea]|].
    destruct (IH _ H) as [Hc|(Hin & Hw)];
      [left; exact Hc|right; split; [right; exact Hin|exact Hw]].
Qed.

Lemma spaces_to_hyphen_fixed (s : jsstring) :
  Forall (fun c => is_white c = false) s ->
  spaces_to_hyphen false s = s.
Proof.
  induction 1 as [|c s Hc _ IH]; cbn [spaces_to_hyphen]; [reflexivity|].
  rewrite Hc, IH. reflexivity.
Qed.

(** Decides the comparisons of a code unit with constants once the
    context bounds the code unit. *)
Ltac decide_comparisons :=
  repeat match goal with
         | |- context [(?a <=? ?b)%N] =>
             first [ replace (a <=? b)%N with true
                       by (symmetry; apply N.leb_le; lia)
                   | replace (a <=? b)%N with false
                       by (symmetry; apply N.leb_gt; lia) ]
         | |- context [(?a =? ?b)%N] =>
             first [ replace (a =? b)%N with true
                       by (symmetry; apply N.eqb_eq; lia)
                   | replace (a =? b)%N with false
                       by (symmetry; apply N.eqb_neq; lia) ]
         end.

Lemma is_slug_char_cases (c : N) :
  is_slug_char c = true ->
  (48 <= c <= 57)%N \/ (97 <= c <= 122)%N \/ c = 95%N \/ c = 45%N.
Proof.
  unfold is_slug_char, hyphen. intros H.
  apply orb_prop in H. destruct H as [H|H];
    [apply orb_prop in H; destruct H as [H|H];
     [apply orb_prop in H; destruct H as [H|H]|]|].
  - apply andb_prop in H. destruct H as (H1 & H2).
    apply N.leb_le in H1, H2. left. lia.
  - apply andb_prop in H. destruct H as (H1 & H2).
    apply N.leb_le in H1, H2. right. left. lia.
  - apply N.eqb_eq in H. right. right. left. exact H.
  - apply N.eqb_eq in H. right. right. right. exact H.
Qed.

Lemma is_slug_char_kept (c : N) :
  is_slug_char c = true ->
  is_word c || is_white c || (c =? hyphen)%N = true
  /\ is_white c = false /\ is_upper c = false.
Proof.
  intros H. apply is_slug_char_cases in H.
  unfold is_word, is_white, is_upper, hyphen.
  destruct H as [H|[H|[H|H]]]; decide_comparisons; repeat split.
Qed.

Section SlugProperties.

Variable toLowerCase : jsstring -> jsstring.

(** Lower-casing leaves no upper-case ASCII letter. *)
Hypothesis toLowerCase_lower :
  forall s, Forall (fun c => is_upper c = false) (toLowerCase s).

(** Lower-casing keeps a text of lower-case ASCII letters, digits,
    underscores and hyphens as it is. *)
Hypothesis toLowerCase_settled :
  forall s, Forall (fun c => is_slug_char c = true) s -> toLowerCase s = s.

Lemma slug_chars (title : jsstring) :
  Forall (fun c => is_slug_char c = true) (slug toLowerCase title).
Proof.
  apply Forall_forall. intros c Hc. unfold slug in Hc.
  apply squeeze_hyphens_In in Hc.
  apply spaces_to_hyphen_chars in Hc.
  destruct Hc as [->|(Hin & Hw)]; [reflexivity|].
  unfold strip_other in Hin. apply filter_In in Hin.
  destruct Hin as (Hin & Hkeep).
  pose proof (toLowerCase_lower title) as Hl.
  rewrite Forall_forall in Hl. specialize (Hl c Hin).
  rewrite Hw, orb_false_r in Hkeep.
  unfold is_slug_char. unfold is_word in Hkeep. unfold is_upper in Hl.
  rewrite Hl, orb_false_r in Hkeep.
  apply orb_prop in Hkeep. destruct Hkeep as [Hk|Hk]; [|rewrite Hk; apply orb_true_r].
  apply orb_prop in Hk. destruct Hk as [Hk|Hk]; [|rewrite Hk; rewrite !orb_true_r; reflexivity].
  apply orb_prop in Hk. destruct Hk as [Hk|Hk]; rewrite Hk;
    [reflexivity|rewrite orb_true_r; reflexivity].
Qed.

(** X28.  The slug of any title holds only lower-case ASCII letters,
    digits, underscores and hyphens, and never two hyphens side by side. *)
Theorem slug_shape (title : jsstring) :
  Forall (fun c => is_slug_char c = true) (slug toLowerCase title)
  /\ ~ adjacent_hyphens (slug toLowerCase title).
Proof.
  split; [apply slug_chars|]. unfold slug. apply squeeze_hyphens_apart.
Qed.

(** X29.  The slug is a fixed point of its own derivation: the slug of a
    slug is the slug itself. *)
Theorem slug_idempotent (title : jsstring) :
  slug toLowerCase (slug toLowerCase title) = slug toLowerCase title.
Proof.
  pose proof (slug_chars title) as Hchars.
  assert (Hapart : ~ adjacent_hyphens (slug toLowerCase title))
    by (unfold slug; apply squeeze_hyphens_apart).
  set (s := slug toLowerCase title) in *.
  unfold slug at 1. rewrite (toLowerCase_settled s Hchars).
  assert (Hstrip : strip_other s = s).
  { unfold strip_other. apply forallb_filter_id.
    apply forallb_forall. intros c Hc.
    rewrite Forall_forall in Hchars.
    apply is_slug_char_kept. apply Hchars. exact Hc. }
  rewrite Hstrip, spaces_to_hyphen_fixed.
  - apply squeeze_hyphens_fixed. exact Hapart.
  - eapply Forall_impl; [|exact Hchars].
    intros c Hc. apply is_slug_char_kept. exact Hc.
Qed.

End SlugProperties.

Lemma toLowerCase_sample_lower (s : jsstring) :
  Forall (fun c => is_upper c = false) (Sample.toLowerCase s).
Proof.
  unfold Sample.toLowerCase. apply Forall_forall. intros c Hc.
  apply in_map_iff in Hc. destruct Hc as (x & <- & _).
  unfold is_upper.
  destruct ((65 <=? x)%N && (x <=? 90)%N) eqn:E; [|exact E].
  apply andb_prop in E. destruct E as (E1 & E2).
  apply N.leb_le in E1, E2. apply andb_false_intro2. apply N.leb_gt. lia.
Qed.

Lemma toLowerCase_sample_settled (s : jsstring) :
  Forall (fun c => is_slug_char c = true) s -> Sample.toLowerCase s = s.
Proof.
  unfold Sample.toLowerCase. induction 1 as [|c s Hc _ IH]; [reflexivity|].
  cbn [map]. rewrite IH.
  destruct (is_slug_char_kept c Hc) as (_ & _ & ->). reflexivity.
Qed.

Lemma slug_shape_witness :
  slug Sample.toLowerCase (Sample.units "  Hack the  Planet -- 2024! ")
  = Sample.units "-hack-the-planet-2024-"
  /\ ~ adjacent_hyphens
         (slug Sample.toLowerCase
               (Sample.units "  Hack the  Planet -- 2024! ")).
Proof.
  split; [reflexivity|].
  apply (slug_shape Sample.toLowerCase toLowerCase_sample_lower).
Defined.

Lemma slug_idempotent_witness :
  slug Sample.toLowerCase (Sample.units "-hack-the-planet-2024-")
  = Sample.units "-hack-the-planet-2024-".
Proof.
  exact (slug_idempotent Sample.toLowerCase toLowerCase_sample_lower
           toLowerCase_sample_settled
           (Sample.units "  Hack the  Planet -- 2024! ")).
Defined.

